(** * libudev-devd: device classification and parent synthesis (udev-utils.c)

    A shallow embedding of [udev-utils.c] and the properties its
    specification states about it.

    Conventions.
    - C strings are [string]s; a [char] buffer that the code pokes a NUL
      into is a [string] that may hold NUL characters, read back with
      [cstr_at].
    - [int], [long] and [uint32_t] values are [Z]; the narrowing to
      [uint32_t] is written out ([to_uint32]).
    - The capability bitmaps are [list Z], one [unsigned long] per element.
    - What the program reads from the kernel (sysctl values, ioctl replies,
      descriptors) is given by a [host] record; what it keeps between calls
      (the static cache of [kernel_has_evdev_enabled]) and what it has asked
      the kernel so far is a [proc] record that every effectful function
      takes and returns.
    - Functions and macros of the library that live outside udev-utils.c
      are parameters of the development (section variables) or carry a
      doc comment saying how they are modelled. *)

From Stdlib Require Import ZArith NArith String Ascii List Lia Bool.
From stdpp Require Import gmap strings.

Open Scope string_scope.

(** ** Constants of udev-utils.c *)

Definition BUS_PCI : Z := 0x01.
Definition BUS_USB : Z := 0x03.
Definition BUS_VIRTUAL : Z := 0x06.
Definition BUS_ISA : Z := 0x10.
Definition BUS_I8042 : Z := 0x11.

Definition PS2_KEYBOARD_VENDOR : Z := 0x001.
Definition PS2_KEYBOARD_PRODUCT : Z := 0x001.
Definition PS2_MOUSE_VENDOR : Z := 0x002.
Definition PS2_MOUSE_GENERIC_PRODUCT : Z := 0x001.

Definition virtual_sysname : string := "uinput".

Definition SCFLAG_SKIP_IF_EVDEV : Z := 0x01.

(** [enum { IT_NONE, IT_KEYBOARD, ... }] *)
Inductive input_type : Set :=
| IT_NONE
| IT_KEYBOARD
| IT_MOUSE
| IT_TOUCHPAD
| IT_TOUCHSCREEN
| IT_JOYSTICK
| IT_TABLET.

(** ** Event codes of <linux/input.h>

    The system header the classifier is compiled against; the values are
    those of the kernel's input-event-codes table. *)
Module Input.
Definition BTN_MISC : Z := 0x100.
Definition BTN_LEFT : Z := 0x110.
Definition BTN_RIGHT : Z := 0x111.
Definition BTN_MIDDLE : Z := 0x112.
Definition BTN_JOYSTICK : Z := 0x120.
Definition BTN_TOOL_PEN : Z := 0x140.
Definition BTN_TOOL_FINGER : Z := 0x145.
Definition BTN_TOUCH : Z := 0x14a.
Definition BTN_STYLUS : Z := 0x14b.
Definition BTN_STYLUS2 : Z := 0x14c.
Definition KEY_CNT : Z := 0x300.
Definition REL_X : Z := 0x00.
Definition REL_Y : Z := 0x01.
Definition REL_CNT : Z := 0x10.
Definition ABS_X : Z := 0x00.
Definition ABS_Y : Z := 0x01.
Definition ABS_PRESSURE : Z := 0x18.
Definition ABS_MT_SLOT : Z := 0x2f.
Definition ABS_CNT : Z := 0x40.
End Input.

(** ** C strings and libc *)

Definition NUL : ascii := Ascii.zero.

(** The C string that starts at the beginning of a buffer: everything up to
    the first NUL. *)
Fixpoint cstr (buf : string) : string :=
  match buf with
  | EmptyString => EmptyString
  | String c rest => if Ascii.eqb c NUL then EmptyString else String c (cstr rest)
  end.

Fixpoint string_drop (n : nat) (s : string) : string :=
  match n, s with
  | O, _ => s
  | S n', String _ rest => string_drop n' rest
  | S _, EmptyString => EmptyString
  end.

Definition string_take (n : nat) (s : string) : string := substring 0 n s.

(** The C string a pointer [buf + p] designates. *)
Definition cstr_at (buf : string) (p : nat) : string := cstr (string_drop p buf).

(** [buf[p] = '\0'].  Position [String.length buf] holds the terminator
    already. *)
Fixpoint poke_nul (buf : string) (p : nat) : string :=
  match buf, p with
  | EmptyString, _ => EmptyString
  | String _ rest, O => String NUL rest
  | String c rest, S p' => String c (poke_nul rest p')
  end.

(** [strchrnul(s, c) - s]: offset of the first [c], or of the terminator. *)
Fixpoint strchrnul (s : string) (c : ascii) : nat :=
  match s with
  | EmptyString => O
  | String d rest => if Ascii.eqb d c then O else S (strchrnul rest c)
  end.

(** [*(strchrnul(name, ',')) = '\0';	/* strip name */] followed by a read of
    [name] as a C string. *)
Definition strip_name (name : string) : string :=
  cstr (poke_nul name (strchrnul name ",")).

(** [strncmp(a, b, n) == 0] *)
Fixpoint strncmp_eq (a b : string) (n : nat) : bool :=
  match n with
  | O => true
  | S n' =>
      match a, b with
      | EmptyString, EmptyString => true
      | String x a', String y b' => Ascii.eqb x y && strncmp_eq a' b' n'
      | _, _ => false
      end
  end.

(** [strcmp(a, b) == 0] *)
Definition strcmp_eq (a b : string) : bool := String.eqb a b.

(** [snprintf(dst, size, "%s...", ...)]: the formatted text cut to what fits
    in [size] bytes with its terminator. *)
Definition snprintf (size : nat) (text : string) : string :=
  string_take (Nat.pred size) text.

Definition hex_digit (d : Z) : ascii :=
  nth (Z.to_nat d) (list_ascii_of_string "0123456789abcdef") "0"%char.

(** The digits of [v] in base 16 put in front of [acc], least significant
    last; at most [fuel] of them. *)
Fixpoint hex_digits (fuel : nat) (v : Z) (acc : string) : string :=
  match fuel with
  | O => acc
  | S fuel' =>
      let acc := String (hex_digit (v mod 16)) acc in
      if (v / 16 =? 0)%Z then acc else hex_digits fuel' (v / 16) acc
  end.

(** [printf]'s [%x] conversion of an unsigned value of up to 64 bits. *)
Definition fmt_x (v : Z) : string := hex_digits 16 v "".

Definition to_uint32 (v : Z) : Z := v mod 2 ^ 32.

Definition LONG_MAX : Z := 2 ^ 63 - 1.
Definition LONG_MIN : Z := - 2 ^ 63.

Definition isspace (c : ascii) : bool :=
  let n := nat_of_ascii c in
  Nat.eqb n 32 || (Nat.leb 9 n && Nat.leb n 13).

Definition digit_val (base : Z) (c : ascii) : option Z :=
  let n := Z.of_nat (nat_of_ascii c) in
  let v :=
    if (48 <=? n)%Z && (n <=? 57)%Z then Some (n - 48)%Z
    else if (97 <=? n)%Z && (n <=? 122)%Z then Some (n - 87)%Z
    else if (65 <=? n)%Z && (n <=? 90)%Z then Some (n - 55)%Z
    else None in
  match v with
  | Some d => if (d <? base)%Z then Some d else None
  | None => None
  end.

Fixpoint strtol_digits (base : Z) (s : string) (acc : Z) : Z :=
  match s with
  | EmptyString => acc
  | String c rest =>
      match digit_val base c with
      | Some d => strtol_digits base rest (acc * base + d)%Z
      | None => acc
      end
  end.

Definition is_digit_of (base : Z) (c : ascii) : bool :=
  match digit_val base c with
  | Some _ => true
  | None => false
  end.

Fixpoint skip_space (s : string) : string :=
  match s with
  | String c rest => if isspace c then skip_space rest else s
  | EmptyString => EmptyString
  end.

(** libc's [strtol(s, NULL, 0)] on an LP64 host: leading white space, an
    optional sign, base 16 after [0x], base 8 after [0], base 10 otherwise,
    the longest run of digits, clamped to the range of [long]. *)
Definition strtol0 (s : string) : Z :=
  let s := skip_space s in
  let '(neg, s) :=
    match s with
    | String "-" rest => (true, rest)
    | String "+" rest => (false, rest)
    | _ => (false, s)
    end in
  let '(base, s) :=
    match s with
    | String "0" (String x (String h rest)) =>
        if (Ascii.eqb x "x" || Ascii.eqb x "X") && is_digit_of 16 h
        then (16%Z, String h rest) else (8%Z, s)
    | String "0" _ => (8%Z, s)
    | _ => (10%Z, s)
    end in
  let v := strtol_digits base s 0 in
  let v := if neg then (- v)%Z else v in
  Z.max LONG_MIN (Z.min LONG_MAX v).

(** ** fnmatch(3) with flags 0

    A pattern is read into items; [*] matches any run of characters
    (slashes and leading periods included, since no flag is given), [?] one
    character, a bracket expression one character of its set, a backslash
    quotes the next character. *)
Inductive glob_item : Set :=
| GChar (c : ascii)
| GAny
| GStar
| GSet (neg : bool) (ranges : list (ascii * ascii)).

(** The members of a bracket expression up to its closing bracket; [first]
    says that no member has been read yet, where a closing bracket stands
    for itself. *)
Fixpoint parse_members (p : string) (first : bool) (acc : list (ascii * ascii))
  : option (list (ascii * ascii) * string) :=
  match p with
  | EmptyString => None
  | String c rest =>
      if Ascii.eqb c "]" && negb first then Some (rev acc, rest)
      else
        match rest with
        | String "-" (String hi rest') =>
            if Ascii.eqb hi "]" then parse_members rest false ((c, c) :: acc)
            else parse_members rest' false ((c, hi) :: acc)
        | _ => parse_members rest false ((c, c) :: acc)
        end
  end.

Definition parse_bracket (p : string) : option (bool * list (ascii * ascii) * string) :=
  let '(neg, p) :=
    match p with
    | String "!" rest => (true, rest)
    | String "^" rest => (true, rest)
    | _ => (false, p)
    end in
  match parse_members p true [] with
  | Some (ranges, rest) => Some (neg, ranges, rest)
  | None => None
  end.

Fixpoint glob_parse (fuel : nat) (p : string) : list glob_item :=
  match fuel with
  | O => []
  | S fuel' =>
      match p with
      | EmptyString => []
      | String c rest =>
          if Ascii.eqb c "*" then GStar :: glob_parse fuel' rest
          else if Ascii.eqb c "?" then GAny :: glob_parse fuel' rest
          else if Ascii.eqb c "\" then
            match rest with
            | String d rest' => GChar d :: glob_parse fuel' rest'
            | EmptyString => [GChar c]
            end
          else if Ascii.eqb c "[" then
            match parse_bracket rest with
            | Some (neg, ranges, rest') => GSet neg ranges :: glob_parse fuel' rest'
            | None => GChar c :: glob_parse fuel' rest
            end
          else GChar c :: glob_parse fuel' rest
      end
  end.

Definition in_ranges (c : ascii) (ranges : list (ascii * ascii)) : bool :=
  existsb (fun r => Nat.leb (nat_of_ascii (fst r)) (nat_of_ascii c)
                    && Nat.leb (nat_of_ascii c) (nat_of_ascii (snd r))) ranges.

Fixpoint glob_match (items : list glob_item) (s : string) : bool :=
  match items with
  | [] => match s with EmptyString => true | _ => false end
  | GChar c :: items' =>
      match s with
      | String d s' => Ascii.eqb c d && glob_match items' s'
      | EmptyString => false
      end
  | GAny :: items' =>
      match s with
      | String _ s' => glob_match items' s'
      | EmptyString => false
      end
  | GSet neg ranges :: items' =>
      match s with
      | String d s' => xorb neg (in_ranges d ranges) && glob_match items' s'
      | EmptyString => false
      end
  | GStar :: items' =>
      (fix star (s : string) : bool :=
         glob_match items' s
         || match s with
            | String _ s' => star s'
            | EmptyString => false
            end) s
  end.

Definition FNM_NOMATCH : Z := 1.

(** [fnmatch(pattern, path, 0)] *)
Definition fnmatch (pattern path : string) : Z :=
  if glob_match (glob_parse (String.length pattern) pattern) path then 0%Z else FNM_NOMATCH.

(** ** The device object and its lists *)

(** Modelled from the spec: the property and attribute lists of a device
    (udev-list.c is not part of udev-utils.c).  The spec treats the list as a
    container of named values to which markers and name/value pairs are
    attached; a value is a [const char *] and may be NULL ([None]).
    [udev_list_insert] binds the name to the value and returns 0, the
    result the callers test with [< 0]. *)
Definition udev_list_insert (ul : gmap string (option string))
    (name : string) (value : option string) : Z * gmap string (option string) :=
  (0%Z, <[name := value]> ul).

(** Modelled from the spec: the device object (udev-device.c is not part of
    udev-utils.c): the path or name it was created for, its property list,
    its attribute list, and the parent descriptor it owns, if any. *)
#[local] Set Warnings "-register-all".
Inductive udev_device : Type :=
  Udev_device {
    ud_syspath : string;
    ud_properties : gmap string (option string);
    ud_sysattrs : gmap string (option string);
    ud_parent : option udev_device
  }.

Definition udev_device_get_syspath (ud : udev_device) : string := ud_syspath ud.

Definition with_properties (ud : udev_device) (ul : gmap string (option string)) : udev_device :=
  Udev_device (ud_syspath ud) ul (ud_sysattrs ud) (ud_parent ud).

Definition with_sysattrs (ud : udev_device) (ul : gmap string (option string)) : udev_device :=
  Udev_device (ud_syspath ud) (ud_properties ud) ul (ud_parent ud).

(** Modelled from the spec: [udev_device_set_parent] attaches the descriptor
    to the device as the parent it owns. *)
Definition udev_device_set_parent (ud parent : udev_device) : udev_device :=
  Udev_device (ud_syspath ud) (ud_properties ud) (ud_sysattrs ud) (Some parent).

(** Modelled from the spec: [udev_device_new_common(udev, sysname,
    UD_ACTION_NONE)] yields a fresh device object for the given name, with
    empty lists and no parent, or NULL when the allocation fails. *)
Definition udev_device_new_common (allocated : bool) (sysname : string) : option udev_device :=
  if allocated then Some (Udev_device sysname ∅ ∅ None) else None.

(** ** The host and the process *)

(** [struct input_id] *)
Record input_id : Set := {
  bustype : Z;
  vendor : Z;
  product : Z;
  version : Z
}.

(** The outcome of [EVIOCGPHYS]: the string, a failure with [ENOENT], which
    the handler tolerates, or any other failure. *)
Inductive phys_reply : Set :=
| PhysOk (phys : string)
| PhysNoEnt
| PhysFail.

(** What the ioctls of an event node answer; [None] is a failed ioctl. *)
Record evdev_replies : Set := {
  ev_name : option string;
  ev_phys : phys_reply;
  ev_id : option input_id;
  ev_rel : option (list Z);
  ev_abs : option (list Z);
  ev_key : option (list Z)
}.

Record host : Type := {
  (** the feature flag [kern.features.evdev_support], a boolean, as it
      reads when it is the n-th sysctl of the process; [None] when the query
      fails *)
  h_feature : nat -> option bool;
  (** the string sysctls, by name *)
  h_sysctl : string -> option string;
  (** [path_to_fd] (utils.c) and [open(2)]: a descriptor, or -1 *)
  h_path_to_fd : string -> Z;
  h_open : string -> Z;
  h_ioctl : Z -> evdev_replies;
  (** whether the allocation of a device object of that name succeeds *)
  h_alloc : string -> bool;
  (** what the [phys] buffer holds before any ioctl writes it *)
  h_stack_phys : string
}.

Record proc : Type := {
  (** [static int enabled] of [kernel_has_evdev_enabled] *)
  enabled : Z;
  (** names of the sysctls asked so far, latest first *)
  asked : list string;
  (** descriptors closed so far, latest first *)
  closed : list Z
}.

Definition proc_init : proc := {| enabled := -1; asked := []; closed := [] |}.

Definition ask (mib : string) (st : proc) : proc :=
  {| enabled := enabled st; asked := mib :: asked st; closed := closed st |}.

Definition set_enabled (v : Z) (st : proc) : proc :=
  {| enabled := v; asked := asked st; closed := closed st |}.

Definition close (fd : Z) (st : proc) : proc :=
  {| enabled := enabled st; asked := asked st; closed := fd :: closed st |}.

(** ** The plug-and-play blob *)

Definition pnp_separator (c : ascii) : bool :=
  Ascii.eqb c " " || Ascii.eqb c ";" || Ascii.eqb c ",".

Fixpoint pnp_value_len (s : string) : nat :=
  match s with
  | EmptyString => O
  | String c rest => if pnp_separator c || Ascii.eqb c NUL then O else S (pnp_value_len rest)
  end.

Fixpoint pnp_scan (buf prop : string) (pos : nat) (at_start : bool) : option (nat * nat) :=
  match buf with
  | EmptyString => None
  | String c rest =>
      if at_start && String.prefix (prop ++ "=") buf
      then Some (pos + String.length prop + 1,
                 pnp_value_len (string_drop (String.length prop + 1) buf))
      else if Ascii.eqb c NUL then None
      else pnp_scan rest prop (S pos) (pnp_separator c)
  end.

(** Modelled from the spec: [get_kern_prop_value] (utils.c is not part of
    udev-utils.c).  The blob is a list of [key=value] pairs, which the
    spec separates by a semicolon or a space (section 6) and by a comma in
    its examples (section 8); the result is the position and the length of
    the value of the first pair with the given key, or nothing.  The
    properties below hold for any such function: this one serves to run
    them on concrete blobs. *)
Definition pnp_lookup (buf prop : string) : option (nat * nat) :=
  pnp_scan buf prop 0 true.

(** ** The capability bitmaps *)

(** [sizeof(long) * 8] on an LP64 host. *)
Definition LONG_BITS : Z := 64.

Definition NLONGS (x : Z) : Z := ((x + LONG_BITS - 1) / LONG_BITS)%Z.

(** [array[i]] for an index inside the array. *)
Definition word_at (array : list Z) (i : Z) : Z := nth (Z.to_nat i) array 0%Z.

Definition bit_is_set (array : list Z) (bit : Z) : bool :=
  negb (Z.land (word_at array (bit / LONG_BITS)) (Z.shiftl 1 (bit mod LONG_BITS)) =? 0)%Z.

(** The [for] loop of [bit_find], [fuel] iterations from [i] on. *)
Fixpoint bit_find_from (fuel : nat) (array : list Z) (i : Z) : bool :=
  match fuel with
  | O => false
  | S fuel' => if bit_is_set array i then true else bit_find_from fuel' array (i + 1)%Z
  end.

Definition bit_find (array : list Z) (start stop : Z) : bool :=
  bit_find_from (Z.to_nat (stop - start)) array start.

(** The block under [if (has_abs_axes)]: the type it jumps to [detected]
    with, if any, and [has_buttons] as the block leaves it. *)
Definition evdev_probe_abs (key_bits rel_bits abs_bits : list Z)
    (has_buttons has_lmr has_mt : bool) : option input_type * bool :=
  let '(joystick, has_buttons) :=
    if has_mt && negb has_buttons then
      if bit_is_set key_bits Input.BTN_JOYSTICK then (true, has_buttons)
      else (false, true)
    else (false, has_buttons) in
  if joystick then (Some IT_JOYSTICK, has_buttons)
  else if bit_is_set abs_bits Input.ABS_X && bit_is_set abs_bits Input.ABS_Y then
    if bit_is_set key_bits Input.BTN_TOOL_PEN
       || bit_is_set key_bits Input.BTN_STYLUS
       || bit_is_set key_bits Input.BTN_STYLUS2 then
      (Some IT_TABLET, has_buttons)
    else if bit_is_set abs_bits Input.ABS_PRESSURE
            || bit_is_set key_bits Input.BTN_TOUCH then
      if has_lmr || bit_is_set key_bits Input.BTN_TOOL_FINGER then
        (Some IT_TOUCHPAD, has_buttons)
      else (Some IT_TOUCHSCREEN, has_buttons)
    else if negb (bit_is_set rel_bits Input.REL_X && bit_is_set rel_bits Input.REL_Y)
            && has_lmr then
      (Some IT_TOUCHSCREEN, has_buttons)
    else (None, has_buttons)
  else (None, has_buttons).

(** Lines 335 to 385 of [create_evdev_handler]: the value of [input_type]
    when control reaches [detected], or [IT_NONE] when it goes to
    [bail_out]. *)
Definition evdev_input_type (key_bits rel_bits abs_bits : list Z) : input_type :=
  let has_keys := bit_find key_bits 0 Input.BTN_MISC in
  let has_buttons := bit_find key_bits Input.BTN_MISC Input.BTN_JOYSTICK in
  let has_lmr := bit_find key_bits Input.BTN_LEFT (Input.BTN_MIDDLE + 1) in
  let has_rel_axes := bit_find rel_bits 0 Input.REL_CNT in
  let has_abs_axes := bit_find abs_bits 0 Input.ABS_CNT in
  let has_mt := bit_find abs_bits Input.ABS_MT_SLOT Input.ABS_CNT in
  let '(detected, has_buttons) :=
    if has_abs_axes
    then evdev_probe_abs key_bits rel_bits abs_bits has_buttons has_lmr has_mt
    else (None, has_buttons) in
  match detected with
  | Some input_type => input_type
  | None =>
      if has_keys then IT_KEYBOARD
      else if has_rel_axes || has_abs_axes || has_buttons then IT_MOUSE
      else IT_NONE
  end.

(** *** The decision tree as the specification words it

    A bitmap is read as the set of event codes whose bit is set. *)
Definition code_set (array : list Z) (code : Z) : bool :=
  Z.testbit (word_at array (code / 64)) (code mod 64).

Definition codes_between (lo hi : Z) : list Z :=
  map (fun k => (lo + Z.of_nat k)%Z) (seq 0 (Z.to_nat (hi - lo))).

Definition any_set_in (codes : Z -> bool) (lo hi : Z) : bool :=
  existsb codes (codes_between lo hi).

Record summaries : Set := {
  has_keys : bool;
  has_buttons : bool;
  has_lmr : bool;
  has_rel_axes : bool;
  has_abs_axes : bool;
  has_multitouch : bool
}.

(** Step 1: the boolean summaries. *)
Definition summarize (key rel abs : Z -> bool) : summaries :=
  {| has_keys := any_set_in key 0 Input.BTN_MISC;
     has_buttons := any_set_in key Input.BTN_MISC Input.BTN_JOYSTICK;
     has_lmr := key Input.BTN_LEFT || key Input.BTN_RIGHT || key Input.BTN_MIDDLE;
     has_rel_axes := any_set_in rel 0 Input.REL_CNT;
     has_abs_axes := any_set_in abs 0 Input.ABS_CNT;
     has_multitouch := any_set_in abs Input.ABS_MT_SLOT Input.ABS_CNT |}.

(** Step 2a: Joystick, or [has_buttons] forced. *)
Definition spec_multitouch (key : Z -> bool) (s : summaries) : option input_type * bool :=
  if has_abs_axes s && has_multitouch s && negb (has_buttons s) then
    if key Input.BTN_JOYSTICK then (Some IT_JOYSTICK, has_buttons s) else (None, true)
  else (None, has_buttons s).

(** Step 2b: the terminal cases with both absolute axes. *)
Definition spec_pointer (key rel abs : Z -> bool) (s : summaries) : option input_type :=
  if has_abs_axes s && abs Input.ABS_X && abs Input.ABS_Y then
    if key Input.BTN_TOOL_PEN || key Input.BTN_STYLUS || key Input.BTN_STYLUS2 then
      Some IT_TABLET
    else if abs Input.ABS_PRESSURE || key Input.BTN_TOUCH then
      Some (if has_lmr s || key Input.BTN_TOOL_FINGER then IT_TOUCHPAD else IT_TOUCHSCREEN)
    else if negb (rel Input.REL_X && rel Input.REL_Y) && has_lmr s then
      Some IT_TOUCHSCREEN
    else None
  else None.

(** Step 3: no terminal case. *)
Definition spec_fallback (s : summaries) (buttons : bool) : input_type :=
  if has_keys s then IT_KEYBOARD
  else if has_rel_axes s || has_abs_axes s || buttons then IT_MOUSE
  else IT_NONE.

Definition spec_classify (key rel abs : Z -> bool) : input_type :=
  let s := summarize key rel abs in
  match spec_multitouch key s with
  | (Some t, _) => t
  | (None, buttons) =>
      match spec_pointer key rel abs s with
      | Some t => t
      | None => spec_fallback s buttons
      end
  end.

(** ** udev-utils.c *)

(** [struct subsystem_config]; the handler is named by a tag. *)
Inductive handler : Set :=
| H_evdev
| H_keyboard
| H_mouse
| H_joystick
| H_touchpad
| H_touchscreen
| H_sysmouse
| H_kbdmux.

Record subsystem_config : Set := {
  subsystem : string;
  syspath : string;
  flags : Z;
  create_handler : option handler
}.

Definition get_devpath_by_syspath (syspath : string) : string := syspath.

Definition get_syspath_by_devpath (devpath : string) : string := devpath.

Definition is_unit_digit (c : ascii) : bool :=
  negb (Nat.ltb (nat_of_ascii c) (nat_of_ascii "0")
        || Nat.ltb (nat_of_ascii "9") (nat_of_ascii c)).

(** The [while] loop of [syspathlen_wo_units], entered with [len]. *)
Fixpoint syspathlen_loop (path : string) (len : nat) : nat :=
  match len with
  | O => O
  | S len' =>
      match String.get len' path with
      | Some c => if is_unit_digit c then syspathlen_loop path len' else len
      | None => len
      end
  end.

Definition syspathlen_wo_units (path : string) : nat :=
  syspathlen_loop path (String.length path).

Definition set_input_device_type (ud : udev_device) (input_type : input_type)
  : Z * udev_device :=
  let ul := ud_properties ud in
  let '(rc, ul) := udev_list_insert ul "ID_INPUT" (Some "1") in
  if (rc <? 0)%Z then ((-1)%Z, with_properties ud ul)
  else
    let ul :=
      match input_type with
      | IT_KEYBOARD =>
          let ul := snd (udev_list_insert ul "ID_INPUT_KEY" (Some "1")) in
          snd (udev_list_insert ul "ID_INPUT_KEYBOARD" (Some "1"))
      | IT_MOUSE =>
          snd (udev_list_insert ul "ID_INPUT_MOUSE" (Some "1"))
      | IT_TOUCHPAD =>
          let ul := snd (udev_list_insert ul "ID_INPUT_MOUSE" (Some "1")) in
          snd (udev_list_insert ul "ID_INPUT_TOUCHPAD" (Some "1"))
      | IT_TOUCHSCREEN =>
          snd (udev_list_insert ul "ID_INPUT_TOUCHSCREEN" (Some "1"))
      | IT_JOYSTICK =>
          snd (udev_list_insert ul "ID_INPUT_JOYSTICK" (Some "1"))
      | IT_TABLET =>
          snd (udev_list_insert ul "ID_INPUT_TABLET" (Some "1"))
      | IT_NONE => ul
      end in
    (0%Z, with_properties ud ul).

(** Lines 457 to 461 of [set_parent]: the [_HID] value that is kept, as a
    position and a length in the blob, and the blob after the terminator
    has been written behind it. *)
Definition retain_pnp_id (pnpinfo : string) (hid : option (nat * nat))
  : option (nat * nat) * string :=
  let pnp_id :=
    match hid with
    | Some (p, pnplen) =>
        if Nat.eqb pnplen 4 && strncmp_eq (cstr_at pnpinfo p) "none" 4
        then None else hid
    | None => None
    end in
  match pnp_id with
  | Some (p, pnplen) => (pnp_id, poke_nul pnpinfo (p + pnplen))
  | None => (None, pnpinfo)
  end.

(** Lines 462 to 487 of [set_parent]: bus, vendor and product.  The three
    strings are pointers into the blob, read where [strtol] reads them. *)
Definition legacy_ids (pnpinfo : string)
    (vendorstr prodstr devicestr : option (nat * nat))
    (parentname devname : string) : Z * Z * Z :=
  match prodstr, vendorstr with
  | Some (p, _), Some (v, _) =>
      (BUS_USB, to_uint32 (strtol0 (cstr_at pnpinfo v)),
       to_uint32 (strtol0 (cstr_at pnpinfo p)))
  | _, _ =>
      match devicestr, vendorstr with
      | Some (d, _), Some (v, _) =>
          (BUS_PCI, to_uint32 (strtol0 (cstr_at pnpinfo v)),
           to_uint32 (strtol0 (cstr_at pnpinfo d)))
      | _, _ =>
          if strcmp_eq parentname "atkbdc0" then
            if strcmp_eq devname "atkbd" then
              (BUS_I8042, PS2_KEYBOARD_VENDOR, PS2_KEYBOARD_PRODUCT)
            else if strcmp_eq devname "psm" then
              (BUS_I8042, PS2_MOUSE_VENDOR, PS2_MOUSE_GENERIC_PRODUCT)
            else (BUS_I8042, 0%Z, 0%Z)
          else (BUS_VIRTUAL, 0%Z, 0%Z)
      end
  end.

(** Line 488: [snprintf(product, sizeof(product), "%x/%x/%x/0", ...)] *)
Definition legacy_product (ids : Z * Z * Z) : string :=
  let '(bus, vendor, prod) := ids in
  snprintf 80 (fmt_x bus ++ "/" ++ fmt_x vendor ++ "/" ++ fmt_x prod ++ "/0").

(** Line 394: [snprintf(product, sizeof(product), "%x/%x/%x/%x", ...)] *)
Definition evdev_product (id : input_id) : string :=
  snprintf 80 (fmt_x (bustype id) ++ "/" ++ fmt_x (vendor id) ++ "/"
               ++ fmt_x (product id) ++ "/" ++ fmt_x (version id)).

Section UdevUtils.

(** Whether the build has <linux/input.h>. *)
Variable HAVE_LINUX_INPUT_H : bool.

(** The device-node root, a macro of a header outside udev-utils.c. *)
Variable DEV_PATH_ROOT : string.

(** [get_kern_prop_value(buf, prop, &len)] of utils.c: the position of the
    value in [buf] and its length, or nothing for NULL. *)
Variable get_kern_prop_value : string -> string -> option (nat * nat).

(** Accessors of the device object, udev-device.c. *)
Variable udev_device_get_sysname : udev_device -> string.
Variable udev_device_get_devnode : udev_device -> string.

Variable H : host.

Definition subsystems : list subsystem_config :=
  (if HAVE_LINUX_INPUT_H then
     [ {| subsystem := "input"; syspath := DEV_PATH_ROOT ++ "/input/event[0-9]*";
          flags := 0; create_handler := Some H_evdev |} ]
   else [])
  ++
  [ {| subsystem := "input"; syspath := DEV_PATH_ROOT ++ "/ukbd[0-9]*";
       flags := SCFLAG_SKIP_IF_EVDEV; create_handler := Some H_keyboard |};
    {| subsystem := "input"; syspath := DEV_PATH_ROOT ++ "/atkbd[0-9]*";
       flags := SCFLAG_SKIP_IF_EVDEV; create_handler := Some H_keyboard |};
    {| subsystem := "input"; syspath := DEV_PATH_ROOT ++ "/kbdmux[0-9]*";
       flags := SCFLAG_SKIP_IF_EVDEV; create_handler := Some H_kbdmux |};
    {| subsystem := "input"; syspath := DEV_PATH_ROOT ++ "/ums[0-9]*";
       flags := SCFLAG_SKIP_IF_EVDEV; create_handler := Some H_mouse |};
    {| subsystem := "input"; syspath := DEV_PATH_ROOT ++ "/psm[0-9]*";
       flags := SCFLAG_SKIP_IF_EVDEV; create_handler := Some H_mouse |};
    {| subsystem := "input"; syspath := DEV_PATH_ROOT ++ "/joy[0-9]*";
       flags := 0; create_handler := Some H_joystick |};
    {| subsystem := "input"; syspath := DEV_PATH_ROOT ++ "/atp[0-9]*";
       flags := 0; create_handler := Some H_touchpad |};
    {| subsystem := "input"; syspath := DEV_PATH_ROOT ++ "/wsp[0-9]*";
       flags := 0; create_handler := Some H_touchpad |};
    {| subsystem := "input"; syspath := DEV_PATH_ROOT ++ "/uep[0-9]*";
       flags := 0; create_handler := Some H_touchscreen |};
    {| subsystem := "input"; syspath := DEV_PATH_ROOT ++ "/sysmouse";
       flags := SCFLAG_SKIP_IF_EVDEV; create_handler := Some H_sysmouse |};
    {| subsystem := "input"; syspath := DEV_PATH_ROOT ++ "/vboxguest";
       flags := 0; create_handler := Some H_mouse |} ].

(** The [for] loop of [get_subsystem_config_by_syspath] over the entries
    still to visit. *)
Fixpoint scan_subsystems (table : list subsystem_config) (path : string)
  : option subsystem_config :=
  match table with
  | [] => None
  | sc :: table' =>
      if (fnmatch (syspath sc) path =? 0)%Z then Some sc
      else scan_subsystems table' path
  end.

Definition get_subsystem_config_by_syspath (path : string) : option subsystem_config :=
  scan_subsystems subsystems path.

(** [sysctlbyname("kern.features.evdev_support", &enabled, ...)]: the
    integer read, 1 for a flag that is set and 0 for one that is not, or
    nothing when the call returns a negative result, which leaves [enabled]
    as it was. *)
Definition sysctl_evdev_support (st : proc) : option Z * proc :=
  (option_map Z.b2z (h_feature H (length (asked st))),
   ask "kern.features.evdev_support" st).

Definition kernel_has_evdev_enabled (st : proc) : bool * proc :=
  if negb (enabled st =? -1)%Z then (negb (enabled st =? 0)%Z, st)
  else
    match sysctl_evdev_support st with
    | (None, st) => (false, st)
    | (Some v, st) =>
        let st := set_enabled v st in
        (negb (enabled st =? 0)%Z, st)
    end.

(** [sysctlbyname(mib, buf, &len, NULL, 0)] for a string of the device
    tree: fails when there is no such name or the value and its
    terminator do not fit in [len] bytes. *)
Definition sysctl_string (mib : string) (len : nat) : option string :=
  match h_sysctl H mib with
  | Some v => if Nat.ltb (String.length v) len then Some v else None
  | None => None
  end.

Definition sysctlbyname (mib : string) (len : nat) (st : proc) : option string * proc :=
  (sysctl_string mib len, ask mib st).

Definition create_xorg_parent (ud : udev_device) (sysname name : string)
    (product pnp_id : option string) : option udev_device :=
  match udev_device_new_common (h_alloc H sysname) sysname with
  | None => None
  | Some parent =>
      let props := ud_properties parent in
      let sysattrs := ud_sysattrs parent in
      let props := snd (udev_list_insert props "NAME" (Some name)) in
      let sysattrs := snd (udev_list_insert sysattrs "name" (Some name)) in
      let props :=
        match product with
        | Some _ => snd (udev_list_insert props "PRODUCT" product)
        | None => props
        end in
      let sysattrs :=
        match pnp_id with
        | Some _ => snd (udev_list_insert sysattrs "id" product)
        | None => sysattrs
        end in
      Some (with_sysattrs (with_properties parent props) sysattrs)
  end.

(** [parent = create_xorg_parent(...); if (parent != NULL)
    udev_device_set_parent(ud, parent);] *)
Definition adopt (ud : udev_device) (parent : option udev_device) : udev_device :=
  match parent with
  | Some parent => udev_device_set_parent ud parent
  | None => ud
  end.

Definition create_evdev_handler (ud : udev_device) (st : proc) : udev_device * proc :=
  let fd := h_path_to_fd H (udev_device_get_devnode ud) in
  let '(fd, opened) :=
    if (fd =? -1)%Z then (h_open H (udev_device_get_devnode ud), true)
    else (fd, false) in
  if (fd =? -1)%Z then (ud, st)
  else
    let bail_out := if opened then close fd st else st in
    let r := h_ioctl H fd in
    let phys :=
      match ev_phys r with
      | PhysOk phys => Some phys
      | PhysNoEnt => Some (h_stack_phys H)
      | PhysFail => None
      end in
    match ev_name r, phys, ev_id r, ev_rel r, ev_abs r, ev_key r with
    | Some name, Some phys, Some id, Some rel_bits, Some abs_bits, Some key_bits =>
        match evdev_input_type key_bits rel_bits abs_bits with
        | IT_NONE => (ud, bail_out)
        | input_type =>
            let ud := snd (set_input_device_type ud input_type) in
            let sysname :=
              match cstr phys with
              | EmptyString => virtual_sysname
              | _ => cstr phys
              end in
            let name := strip_name name in
            let product := evdev_product id in
            let parent := create_xorg_parent ud sysname name (Some product) None in
            (adopt ud parent, bail_out)
        end
    | _, _, _, _, _, _ => (ud, bail_out)
    end.

Definition set_parent (ud : udev_device) (st : proc) : udev_device * proc :=
  let sysname := udev_device_get_sysname ud in
  let len := syspathlen_wo_units sysname in
  if Nat.eqb (String.length sysname) len then (ud, st)
  else
    (* devname is taken to hold the len characters: DEV_PATH_MAX, a macro of
       another header, bounds the names of the device nodes *)
    let devname := snprintf (len + 1) sysname in
    let unit := string_drop len sysname in
    let mib := snprintf 32 ("dev." ++ devname ++ "." ++ unit ++ ".%desc") in
    match sysctlbyname mib 80 st with
    | (None, st) => (ud, st)
    | (Some name, st) =>
        let name := strip_name name in
        let mib := snprintf 32 ("dev." ++ devname ++ "." ++ unit ++ ".%pnpinfo") in
        match sysctlbyname mib 1024 st with
        | (None, st) => (ud, st)
        | (Some pnpinfo, st) =>
            let mib := snprintf 32 ("dev." ++ devname ++ "." ++ unit ++ ".%parent") in
            match sysctlbyname mib 80 st with
            | (None, st) => (ud, st)
            | (Some parentname, st) =>
                let vendorstr := get_kern_prop_value pnpinfo "vendor" in
                let prodstr := get_kern_prop_value pnpinfo "product" in
                let devicestr := get_kern_prop_value pnpinfo "device" in
                let '(pnp_id, pnpinfo) :=
                  retain_pnp_id pnpinfo (get_kern_prop_value pnpinfo "_HID") in
                let ids :=
                  legacy_ids pnpinfo vendorstr prodstr devicestr parentname devname in
                let product := legacy_product ids in
                let parent :=
                  create_xorg_parent ud sysname name (Some product)
                    (option_map (fun id => cstr_at pnpinfo (fst id)) pnp_id) in
                (adopt ud parent, st)
            end
        end
    end.

Definition create_keyboard_handler (ud : udev_device) (st : proc) : udev_device * proc :=
  set_parent (snd (set_input_device_type ud IT_KEYBOARD)) st.

Definition create_mouse_handler (ud : udev_device) (st : proc) : udev_device * proc :=
  set_parent (snd (set_input_device_type ud IT_MOUSE)) st.

Definition create_kbdmux_handler (ud : udev_device) (st : proc) : udev_device * proc :=
  let ud := snd (set_input_device_type ud IT_KEYBOARD) in
  let sysname := udev_device_get_sysname ud in
  let parent :=
    create_xorg_parent ud sysname "System keyboard multiplexor" (Some "6/1/1/0") None in
  (adopt ud parent, st).

Definition create_sysmouse_handler (ud : udev_device) (st : proc) : udev_device * proc :=
  let ud := snd (set_input_device_type ud IT_MOUSE) in
  let sysname := udev_device_get_sysname ud in
  let parent := create_xorg_parent ud sysname "System mouse" (Some "6/2/1/0") None in
  (adopt ud parent, st).

Definition create_joystick_handler (ud : udev_device) (st : proc) : udev_device * proc :=
  set_parent (snd (set_input_device_type ud IT_JOYSTICK)) st.

Definition create_touchpad_handler (ud : udev_device) (st : proc) : udev_device * proc :=
  set_parent (snd (set_input_device_type ud IT_TOUCHPAD)) st.

Definition create_touchscreen_handler (ud : udev_device) (st : proc) : udev_device * proc :=
  set_parent (snd (set_input_device_type ud IT_TOUCHSCREEN)) st.

(** [sc->create_handler(ud)] *)
Definition call_handler (h : handler) : udev_device -> proc -> udev_device * proc :=
  match h with
  | H_evdev => create_evdev_handler
  | H_keyboard => create_keyboard_handler
  | H_mouse => create_mouse_handler
  | H_joystick => create_joystick_handler
  | H_touchpad => create_touchpad_handler
  | H_touchscreen => create_touchscreen_handler
  | H_sysmouse => create_sysmouse_handler
  | H_kbdmux => create_kbdmux_handler
  end.

Definition invoke_create_handler (ud : udev_device) (st : proc) : udev_device * proc :=
  let path := udev_device_get_syspath ud in
  match get_subsystem_config_by_syspath path with
  | None => (ud, st)
  | Some sc =>
      match create_handler sc with
      | None => (ud, st)
      | Some h =>
          if negb (Z.land (flags sc) SCFLAG_SKIP_IF_EVDEV =? 0)%Z then
            let '(evdev, st) := kernel_has_evdev_enabled st in
            if evdev then (ud, st) else call_handler h ud st
          else call_handler h ud st
      end
  end.

(** ** Notions the properties are stated with *)

Definition contains (c : ascii) (s : string) : bool :=
  existsb (Ascii.eqb c) (list_ascii_of_string s).

(** A string without pattern characters stands for itself in a glob. *)
Definition glob_literal (s : string) : bool :=
  negb (contains "*" s || contains "?" s || contains "[" s || contains "\" s).

(** [n] calls of the gate in a row: their results and the final state. *)
Fixpoint gate_calls (n : nat) (st : proc) : list bool * proc :=
  match n with
  | O => ([], st)
  | S n' =>
      let '(r, st) := kernel_has_evdev_enabled st in
      let '(rs, st) := gate_calls n' st in
      (r :: rs, st)
  end.

(** The markers the specification lists for a classification. *)
Definition type_markers (t : input_type) : list string :=
  match t with
  | IT_NONE => []
  | IT_KEYBOARD => ["ID_INPUT_KEY"; "ID_INPUT_KEYBOARD"]
  | IT_MOUSE => ["ID_INPUT_MOUSE"]
  | IT_TOUCHPAD => ["ID_INPUT_MOUSE"; "ID_INPUT_TOUCHPAD"]
  | IT_TOUCHSCREEN => ["ID_INPUT_TOUCHSCREEN"]
  | IT_JOYSTICK => ["ID_INPUT_JOYSTICK"]
  | IT_TABLET => ["ID_INPUT_TABLET"]
  end.

(** The [len] characters a position and length of the blob designate. *)
Definition pnp_value (pnpinfo : string) (v : nat * nat) : string :=
  string_take (snd v) (cstr_at pnpinfo (fst v)).

Fixpoint last_char (s : string) : option ascii :=
  match s with
  | EmptyString => None
  | String c EmptyString => Some c
  | String _ rest => last_char rest
  end.

(** Whether a name ends in a decimal digit, that is, carries a unit
    number. *)
Definition ends_with_digit (s : string) : bool :=
  match last_char s with
  | Some c => Nat.leb 48 (nat_of_ascii c) && Nat.leb (nat_of_ascii c) 57
  | None => false
  end.

(** The three names [set_parent] asks the device tree for. *)
Definition unit_mib (sysname key : string) : string :=
  let len := syspathlen_wo_units sysname in
  snprintf 32 ("dev." ++ snprintf (len + 1) sysname ++ "." ++ string_drop len sysname ++ key).

(** The descriptor the handler of an event node works on. *)
Definition evdev_fd (ud : udev_device) : Z :=
  let fd := h_path_to_fd H (udev_device_get_devnode ud) in
  if (fd =? -1)%Z then h_open H (udev_device_get_devnode ud) else fd.

(** The rule of the USB keyboards and the rule of the event nodes. *)
Definition ukbd_rule : subsystem_config :=
  {| subsystem := "input"; syspath := DEV_PATH_ROOT ++ "/ukbd[0-9]*";
     flags := SCFLAG_SKIP_IF_EVDEV; create_handler := Some H_keyboard |}.

Definition evdev_rule : subsystem_config :=
  {| subsystem := "input"; syspath := DEV_PATH_ROOT ++ "/input/event[0-9]*";
     flags := 0; create_handler := Some H_evdev |}.

(** ** A sample host and its devices

    Concrete data on which the properties are run. *)

Fixpoint last_component (s acc : string) : string :=
  match s with
  | EmptyString => acc
  | String c rest =>
      if Ascii.eqb c "/" then last_component rest rest else last_component rest acc
  end.

(** A short-name accessor: the text after the last slash of the path. *)
Definition sample_sysname (ud : udev_device) : string :=
  last_component (ud_syspath ud) (ud_syspath ud).

Definition sample_devnode (ud : udev_device) : string := ud_syspath ud.

Definition new_device (path : string) : udev_device := Udev_device path ∅ ∅ None.

(** A touchpad: absolute X and Y, pressure, BTN_TOOL_FINGER and BTN_TOUCH. *)
Definition touchpad_replies : evdev_replies :=
  {| ev_name := Some "Generic, Inc Mouse";
     ev_phys := PhysOk "usb-0000:00:14.0-1/input0";
     ev_id := Some {| bustype := 0x3; vendor := 0x46d; product := 0xc52b; version := 0x111 |};
     ev_rel := Some [0%Z];
     ev_abs := Some [0x1000003%Z];
     ev_key := Some [0; 0; 0; 0; 0; 0x420; 0; 0; 0; 0; 0; 0]%Z |}.

(** A node that answers every ioctl and reports no capability at all. *)
Definition blank_replies : evdev_replies :=
  {| ev_name := Some "blank";
     ev_phys := PhysNoEnt;
     ev_id := Some {| bustype := 0x6; vendor := 0; product := 0; version := 0 |};
     ev_rel := Some [0%Z];
     ev_abs := Some [0%Z];
     ev_key := Some [0; 0; 0; 0; 0; 0; 0; 0; 0; 0; 0; 0]%Z |}.

(** A PS/2 keyboard [atkbd0] with an ACPI id, a USB keyboard [ukbd0], a
    keyboard [atkbd1] whose blob carries USB identifiers, a mouse [psm0]
    whose [_HID] reads none, and a unit [ums0] without a parent entry.
    The feature flag cannot be read at the first sysctl of the process
    and reads 1 from then on. *)
Definition sample_host : host :=
  {| h_feature := fun n => match n with O => None | S _ => Some true end;
     h_sysctl := fun mib =>
       if String.eqb mib "dev.atkbd.0.%desc" then Some "AT Keyboard"
       else if String.eqb mib "dev.atkbd.0.%pnpinfo" then Some "_HID=PNP0303 _UID=0"
       else if String.eqb mib "dev.atkbd.0.%parent" then Some "atkbdc0"
       else if String.eqb mib "dev.ukbd.0.%desc"
            then Some "Logitech USB Keyboard, class 0/0, rev 1.10/64.00, addr 2"
       else if String.eqb mib "dev.ukbd.0.%pnpinfo"
            then Some "vendor=0x046d product=0xc31c devclass=0x00"
       else if String.eqb mib "dev.ukbd.0.%parent" then Some "uhub0"
       else if String.eqb mib "dev.atkbd.1.%desc" then Some "AT Keyboard"
       else if String.eqb mib "dev.atkbd.1.%pnpinfo" then Some "vendor=0x1 product=0x2"
       else if String.eqb mib "dev.atkbd.1.%parent" then Some "atkbdc0"
       else if String.eqb mib "dev.psm.0.%desc" then Some "PS/2 Mouse"
       else if String.eqb mib "dev.psm.0.%pnpinfo" then Some "_HID=none _UID=0"
       else if String.eqb mib "dev.psm.0.%parent" then Some "atkbdc0"
       else if String.eqb mib "dev.ums.0.%desc" then Some "USB Mouse"
       else if String.eqb mib "dev.ums.0.%pnpinfo" then Some "vendor=0x1 product=0x2"
       else None;
     h_path_to_fd := fun _ => (-1)%Z;
     h_open := fun path =>
       if String.eqb path "/dev/input/event7" then 3%Z
       else if String.eqb path "/dev/input/event8" then 4%Z
       else (-1)%Z;
     h_ioctl := fun fd => if (fd =? 3)%Z then touchpad_replies else blank_replies;
     h_alloc := fun _ => true;
     h_stack_phys := "" |}.

(** The same blobs with every [_HID] pair left out, as a parser that
    finds no [_HID] sees them. *)
Definition pnp_lookup_no_hid (buf prop : string) : option (nat * nat) :=
  if String.eqb prop "_HID" then None else pnp_lookup buf prop.

(** ** The other entry points and the notions of the further properties *)

(** The name of the subsystem of unmatched devices, a macro of a header
    outside udev-utils.c. *)
Variable UNKNOWN_SUBSYSTEM : string.

Definition get_subsystem_by_syspath (syspath : string) (st : proc) : string * proc :=
  match get_subsystem_config_by_syspath syspath with
  | None => (UNKNOWN_SUBSYSTEM, st)
  | Some sc =>
      if negb (Z.land (flags sc) SCFLAG_SKIP_IF_EVDEV =? 0)%Z then
        let '(evdev, st) := kernel_has_evdev_enabled st in
        if evdev then (UNKNOWN_SUBSYSTEM, st) else (subsystem sc, st)
      else (subsystem sc, st)
  end.

(** The classification a legacy handler sets; the handler of the event
    nodes computes its own. *)
Definition handler_type (h : handler) : option input_type :=
  match h with
  | H_evdev => None
  | H_keyboard => Some IT_KEYBOARD
  | H_mouse => Some IT_MOUSE
  | H_joystick => Some IT_JOYSTICK
  | H_touchpad => Some IT_TOUCHPAD
  | H_touchscreen => Some IT_TOUCHSCREEN
  | H_sysmouse => Some IT_MOUSE
  | H_kbdmux => Some IT_KEYBOARD
  end.

Definition is_decimal (c : ascii) : bool :=
  Nat.leb 48 (nat_of_ascii c) && Nat.leb (nat_of_ascii c) 57.

(** Whether a string is made of decimal digits only. *)
Definition all_digits (s : string) : bool :=
  forallb is_decimal (list_ascii_of_string s).

(** The markers of all classifications. *)
Definition input_markers : list string :=
  ["ID_INPUT"; "ID_INPUT_KEY"; "ID_INPUT_KEYBOARD"; "ID_INPUT_MOUSE";
   "ID_INPUT_TOUCHPAD"; "ID_INPUT_TOUCHSCREEN"; "ID_INPUT_JOYSTICK";
   "ID_INPUT_TABLET"].

(** The first [n] words of two arrays are the same. *)
Definition same_words (n : Z) (a b : list Z) : Prop :=
  forall i : Z, (0 <= i < n)%Z -> word_at a i = word_at b i.

(** The name of the parent of an event node: the physical location, or
    the fixed name when it is empty. *)
Definition evdev_sysname (phys : string) : string :=
  match cstr phys with
  | EmptyString => virtual_sysname
  | _ => cstr phys
  end.

(** The [phys] buffer after the ioctls. *)
Definition evdev_phys (r : evdev_replies) : option string :=
  match ev_phys r with
  | PhysOk phys => Some phys
  | PhysNoEnt => Some (h_stack_phys H)
  | PhysFail => None
  end.

(** The sample host out of memory: no device object can be allocated. *)
Definition starved_host : host :=
  {| h_feature := h_feature sample_host;
     h_sysctl := h_sysctl sample_host;
     h_path_to_fd := h_path_to_fd sample_host;
     h_open := h_open sample_host;
     h_ioctl := h_ioctl sample_host;
     h_alloc := fun _ => false;
     h_stack_phys := h_stack_phys sample_host |}.

(** * Properties *)

(** ** Strings *)

Lemma string_take_all (s : string) (n : nat) :
  String.length s <= n -> string_take n s = s.
Proof.
  unfold string_take. revert n.
  induction s as [|c s IH]; intros [|n] Hn; simpl in *; try reflexivity; try lia.
  f_equal. apply IH. lia.
Qed.

Lemma string_length_app (a b : string) :
  String.length (a ++ b) = String.length a + String.length b.
Proof. induction a as [|c a IH]; simpl; [reflexivity | now rewrite IH]. Qed.

Lemma snprintf_fits (size : nat) (text : string) :
  String.length text < size -> snprintf size text = text.
Proof. intros Hlt. unfold snprintf. apply string_take_all. lia. Qed.

Lemma contains_cons (c d : ascii) (s : string) :
  contains c (String d s) = Ascii.eqb c d || contains c s.
Proof. reflexivity. Qed.

Lemma contains_app (c : ascii) (a b : string) :
  contains c (a ++ b) = contains c a || contains c b.
Proof.
  induction a as [|d a IH]; [reflexivity|].
  change (String d a ++ b) with (String d (a ++ b)).
  rewrite !contains_cons, IH. now rewrite orb_assoc.
Qed.

Lemma cstr_no_nul (s : string) : contains NUL s = false -> cstr s = s.
Proof.
  induction s as [|c s IH]; [reflexivity|].
  rewrite contains_cons. intros Hc. apply orb_false_iff in Hc as [Hc Hs].
  simpl. rewrite Ascii.eqb_sym, Hc. now rewrite IH.
Qed.

Lemma cstr_app_nul (pre post : string) :
  contains NUL pre = false -> cstr (pre ++ String NUL post) = pre.
Proof.
  induction pre as [|c pre IH]; [reflexivity|].
  rewrite contains_cons. intros Hc. apply orb_false_iff in Hc as [Hc Hs].
  simpl. rewrite Ascii.eqb_sym, Hc. now rewrite IH.
Qed.

Lemma strchrnul_absent (s : string) (c : ascii) :
  contains c s = false -> strchrnul s c = String.length s.
Proof.
  induction s as [|d s IH]; [reflexivity|].
  rewrite contains_cons. intros Hc. apply orb_false_iff in Hc as [Hc Hs].
  simpl. rewrite Ascii.eqb_sym, Hc. now rewrite IH.
Qed.

Lemma strchrnul_first (pre post : string) (c : ascii) :
  contains c pre = false -> strchrnul (pre ++ String c post) c = String.length pre.
Proof.
  induction pre as [|d pre IH].
  - intros _. simpl. now rewrite Ascii.eqb_refl.
  - rewrite contains_cons. intros Hc. apply orb_false_iff in Hc as [Hc Hs].
    simpl. rewrite Ascii.eqb_sym, Hc. now rewrite IH.
Qed.

Lemma poke_nul_end (s : string) : poke_nul s (String.length s) = s.
Proof. induction s as [|c s IH]; simpl; [reflexivity | now rewrite IH]. Qed.

Lemma poke_nul_app (pre post : string) (c : ascii) :
  poke_nul (pre ++ String c post) (String.length pre) = pre ++ String NUL post.
Proof. induction pre as [|d pre IH]; simpl; [reflexivity | now rewrite IH]. Qed.

Lemma strip_name_no_comma (name : string) :
  contains "," name = false -> strip_name name = cstr name.
Proof.
  intros Hc. unfold strip_name. now rewrite strchrnul_absent, poke_nul_end.
Qed.

Lemma strip_name_comma (pre post : string) :
  contains "," pre = false -> contains NUL pre = false ->
  strip_name (pre ++ String "," post) = pre.
Proof.
  intros Hc Hn. unfold strip_name.
  rewrite strchrnul_first by assumption.
  rewrite poke_nul_app. now apply cstr_app_nul.
Qed.

Lemma hex_digits_length (fuel k : nat) (v : Z) (acc : string) :
  (0 <= v < 16 ^ Z.of_nat k)%Z -> 1 <= k ->
  String.length (hex_digits fuel v acc) <= k + String.length acc.
Proof.
  revert k v acc. induction fuel as [|fuel IH]; intros k v acc Hv Hk; simpl.
  - lia.
  - destruct (Z.eqb_spec (v / 16) 0) as [Hz|Hz]; simpl; [lia|].
    destruct k as [|[|k]]; [lia| |].
    + exfalso. apply Hz. apply Z.div_small. simpl in Hv. lia.
    + assert (Hq : (0 <= v / 16 < 16 ^ Z.of_nat (S k))%Z).
      { split; [apply Z.div_pos; lia|].
        apply Z.div_lt_upper_bound; [lia|].
        replace (Z.of_nat (S (S k))) with (Z.succ (Z.of_nat (S k))) in Hv by lia.
        rewrite Z.pow_succ_r in Hv by lia. lia. }
      specialize (IH (S k) (v / 16)%Z (String (hex_digit (v mod 16)) acc) Hq ltac:(lia)).
      simpl in IH. lia.
Qed.

Lemma fmt_x_uint32_length (v : Z) :
  (0 <= v < 2 ^ 32)%Z -> String.length (fmt_x v) <= 8.
Proof.
  intros Hv. unfold fmt_x.
  assert (Hv' : (0 <= v < 16 ^ Z.of_nat 8)%Z).
  { change (16 ^ Z.of_nat 8)%Z with 4294967296%Z.
    change (2 ^ 32)%Z with 4294967296%Z in Hv. lia. }
  pose proof (hex_digits_length 16 8 v "" Hv' ltac:(lia)) as Hl.
  change (String.length "") with 0 in Hl. lia.
Qed.

Lemma to_uint32_range (v : Z) : (0 <= to_uint32 v < 2 ^ 32)%Z.
Proof. unfold to_uint32. apply Z.mod_pos_bound. lia. Qed.

(** ** Bitmaps *)

Lemma land_one_bit (w k : Z) :
  (0 <= k)%Z -> negb (Z.land w (Z.shiftl 1 k) =? 0)%Z = Z.testbit w k.
Proof.
  intros Hk. rewrite Z.shiftl_1_l.
  destruct (Z.testbit w k) eqn:Hbit.
  - destruct (Z.eqb_spec (Z.land w (2 ^ k)) 0) as [Hz|]; [|reflexivity].
    exfalso.
    assert (Hk' : Z.testbit (Z.land w (2 ^ k)) k = true).
    { rewrite Z.land_spec, Hbit, Z.pow2_bits_true; auto. }
    rewrite Hz, Z.bits_0 in Hk'. discriminate.
  - assert (Hz : Z.land w (2 ^ k) = 0%Z).
    { apply Z.bits_inj'. intros n Hn.
      rewrite Z.land_spec, Z.bits_0, Z.pow2_bits_eqb by assumption.
      destruct (Z.eqb_spec k n) as [->|]; [now rewrite Hbit | apply andb_false_r]. }
    now rewrite Hz.
Qed.

Lemma bit_is_set_code_set (array : list Z) (bit : Z) :
  bit_is_set array bit = code_set array bit.
Proof.
  unfold bit_is_set, code_set, LONG_BITS.
  apply land_one_bit. apply Z.mod_pos_bound. lia.
Qed.

Lemma bit_find_from_existsb (fuel : nat) (array : list Z) (i : Z) :
  bit_find_from fuel array i
  = existsb (code_set array) (map (fun k => (i + Z.of_nat k)%Z) (seq 0 fuel)).
Proof.
  revert i. induction fuel as [|fuel IH]; intros i; [reflexivity|].
  cbn [bit_find_from seq map existsb].
  rewrite bit_is_set_code_set, Z.add_0_r.
  destruct (code_set array i); [reflexivity|].
  rewrite IH, <- seq_shift, map_map. cbn [orb].
  f_equal. apply map_ext. intros k. lia.
Qed.

Lemma bit_find_any_set_in (array : list Z) (start stop : Z) :
  bit_find array start stop = any_set_in (code_set array) start stop.
Proof. unfold bit_find, any_set_in, codes_between. apply bit_find_from_existsb. Qed.

(** [bit_find] looks at the codes of its range and at no other. *)
Lemma bit_find_true_iff (array : list Z) (start stop : Z) :
  bit_find array start stop = true
  <-> exists code, (start <= code < stop)%Z /\ code_set array code = true.
Proof.
  rewrite bit_find_any_set_in. unfold any_set_in, codes_between.
  rewrite existsb_exists. split.
  - intros (code & Hin & Hset). exists code. split; [|assumption].
    apply in_map_iff in Hin as (k & <- & Hk). apply in_seq in Hk. lia.
  - intros (code & Hr & Hset). exists code. split; [|assumption].
    apply in_map_iff. exists (Z.to_nat (code - start)). split; [lia|].
    apply in_seq. lia.
Qed.

(** The words [bit_is_set] reads for a code below [cnt] lie inside an
    array of [NLONGS(cnt)] words. *)
Lemma word_index_in_array (cnt bit : Z) :
  (0 <= bit < cnt)%Z -> (0 <= bit / LONG_BITS < NLONGS cnt)%Z.
Proof.
  intros Hb. unfold NLONGS, LONG_BITS. split.
  - apply Z.div_pos; lia.
  - apply Z.div_lt_upper_bound; [lia|].
    pose proof (Z.mul_div_le (cnt + 64 - 1) 64 ltac:(lia)).
    pose proof (Z.mod_pos_bound (cnt + 64 - 1) 64 ltac:(lia)).
    pose proof (Z.div_mod (cnt + 64 - 1) 64 ltac:(lia)). lia.
Qed.

Lemma lmr_range (key : Z -> bool) :
  any_set_in key Input.BTN_LEFT (Input.BTN_MIDDLE + 1)
  = key Input.BTN_LEFT || key Input.BTN_RIGHT || key Input.BTN_MIDDLE.
Proof.
  unfold any_set_in, codes_between.
  change (existsb key [Input.BTN_LEFT; Input.BTN_RIGHT; Input.BTN_MIDDLE]
          = key Input.BTN_LEFT || key Input.BTN_RIGHT || key Input.BTN_MIDDLE).
  cbn [existsb]. now rewrite orb_false_r, orb_assoc.
Qed.

Lemma evdev_input_type_spec (key_bits rel_bits abs_bits : list Z) :
  evdev_input_type key_bits rel_bits abs_bits
  = spec_classify (code_set key_bits) (code_set rel_bits) (code_set abs_bits).
Proof.
  unfold evdev_input_type, evdev_probe_abs, spec_classify, spec_multitouch,
    spec_pointer, spec_fallback, summarize.
  cbn [has_keys has_buttons has_lmr has_rel_axes has_abs_axes has_multitouch].
  rewrite !bit_find_any_set_in, lmr_range, !bit_is_set_code_set.
  generalize (any_set_in (code_set key_bits) 0 Input.BTN_MISC).
  generalize (any_set_in (code_set key_bits) Input.BTN_MISC Input.BTN_JOYSTICK).
  generalize (any_set_in (code_set rel_bits) 0 Input.REL_CNT).
  generalize (any_set_in (code_set abs_bits) 0 Input.ABS_CNT).
  generalize (any_set_in (code_set abs_bits) Input.ABS_MT_SLOT Input.ABS_CNT).
  generalize (code_set key_bits Input.BTN_LEFT || code_set key_bits Input.BTN_RIGHT
              || code_set key_bits Input.BTN_MIDDLE).
  generalize (code_set key_bits Input.BTN_JOYSTICK).
  generalize (code_set key_bits Input.BTN_TOOL_PEN).
  generalize (code_set key_bits Input.BTN_STYLUS).
  generalize (code_set key_bits Input.BTN_STYLUS2).
  generalize (code_set key_bits Input.BTN_TOUCH).
  generalize (code_set key_bits Input.BTN_TOOL_FINGER).
  generalize (code_set abs_bits Input.ABS_PRESSURE).
  generalize (code_set rel_bits Input.REL_X).
  generalize (code_set rel_bits Input.REL_Y).
  generalize (code_set abs_bits Input.ABS_X).
  generalize (code_set abs_bits Input.ABS_Y).
  intros absy absx rely relx pressure finger touch stylus2 stylus pen joystick
    lmr mt abs_axes rel_axes buttons keys.
  destruct abs_axes; cbn.
  - destruct mt, buttons; cbn; try destruct joystick; cbn; try reflexivity;
      destruct absx, absy; cbn; try (destruct keys; reflexivity);
      destruct pen, stylus, stylus2; cbn; try reflexivity;
      destruct pressure, touch; cbn;
      try (destruct lmr, finger; reflexivity);
      destruct relx, rely, lmr; cbn; try reflexivity;
      destruct keys; try reflexivity; destruct rel_axes; reflexivity.
  - destruct keys; [reflexivity|]. now destruct rel_axes, buttons.
Qed.

Lemma any_set_in_intro (codes : Z -> bool) (lo hi code : Z) :
  (lo <= code < hi)%Z -> codes code = true -> any_set_in codes lo hi = true.
Proof.
  intros Hr Hset. unfold any_set_in, codes_between. apply existsb_exists.
  exists code. split; [|assumption].
  apply in_map_iff. exists (Z.to_nat (code - lo)). split; [lia|].
  apply in_seq. lia.
Qed.

(** Absolute X and Y, pressure and the tool-finger button never classify as
    Touchscreen; they classify as Touchpad unless a pen or stylus bit makes
    the device a Tablet or the joystick button a Joystick. *)
Lemma touchpad_bits (key_bits rel_bits abs_bits : list Z) :
  code_set abs_bits Input.ABS_X = true ->
  code_set abs_bits Input.ABS_Y = true ->
  code_set abs_bits Input.ABS_PRESSURE = true ->
  code_set key_bits Input.BTN_TOOL_FINGER = true ->
  evdev_input_type key_bits rel_bits abs_bits <> IT_TOUCHSCREEN
  /\ (code_set key_bits Input.BTN_TOOL_PEN = false ->
      code_set key_bits Input.BTN_STYLUS = false ->
      code_set key_bits Input.BTN_STYLUS2 = false ->
      code_set key_bits Input.BTN_JOYSTICK = false ->
      evdev_input_type key_bits rel_bits abs_bits = IT_TOUCHPAD).
Proof.
  intros Hx Hy Hp Hf. rewrite evdev_input_type_spec.
  assert (Habs : any_set_in (code_set abs_bits) 0 Input.ABS_CNT = true).
  { apply (any_set_in_intro _ _ _ Input.ABS_X); [|assumption].
    unfold Input.ABS_X, Input.ABS_CNT. lia. }
  unfold spec_classify, spec_multitouch, spec_pointer, spec_fallback, summarize.
  cbn [has_keys has_buttons has_lmr has_rel_axes has_abs_axes has_multitouch].
  rewrite Habs, Hx, Hy, Hp, Hf. cbn [andb orb].
  split.
  - destruct (any_set_in (code_set abs_bits) Input.ABS_MT_SLOT Input.ABS_CNT),
      (any_set_in (code_set key_bits) Input.BTN_MISC Input.BTN_JOYSTICK),
      (code_set key_bits Input.BTN_JOYSTICK),
      (code_set key_bits Input.BTN_TOOL_PEN),
      (code_set key_bits Input.BTN_STYLUS),
      (code_set key_bits Input.BTN_STYLUS2);
      cbn; rewrite ?orb_true_r; discriminate.
  - intros -> -> -> ->.
    destruct (any_set_in (code_set abs_bits) Input.ABS_MT_SLOT Input.ABS_CNT),
      (any_set_in (code_set key_bits) Input.BTN_MISC Input.BTN_JOYSTICK);
      cbn; now rewrite ?orb_true_r.
Qed.

Lemma create_evdev_handler_none (ud : udev_device) (st : proc)
    (key_bits rel_bits abs_bits : list Z) :
  ev_key (h_ioctl H (evdev_fd ud)) = Some key_bits ->
  ev_rel (h_ioctl H (evdev_fd ud)) = Some rel_bits ->
  ev_abs (h_ioctl H (evdev_fd ud)) = Some abs_bits ->
  evdev_input_type key_bits rel_bits abs_bits = IT_NONE ->
  fst (create_evdev_handler ud st) = ud.
Proof.
  unfold create_evdev_handler, evdev_fd. intros Hk Hr Ha Hnone.
  destruct (h_path_to_fd H (udev_device_get_devnode ud) =? -1)%Z eqn:Hfd.
  - destruct (h_open H (udev_device_get_devnode ud) =? -1)%Z; [reflexivity|].
    rewrite Hk, Hr, Ha, Hnone. repeat case_match; reflexivity.
  - rewrite Hfd, Hk, Hr, Ha, Hnone. repeat case_match; reflexivity.
Qed.

(** C1.  The classifier follows the decision tree of the specification:
    its result on three bitmaps is [spec_classify] of the sets of codes the
    bitmaps hold, that is Joystick for multitouch without ordinary buttons
    and with the joystick button (ordinary buttons being assumed
    otherwise), then with absolute X and Y Tablet for a pen or stylus,
    Touchpad or Touchscreen for pressure or touch according to
    left/middle/right or tool-finger, Touchscreen for left/middle/right
    without both relative axes, and else Keyboard, Mouse or None.  When
    the result is None the handler leaves the device as it was: no marker,
    no parent. *)
Theorem classifier_follows_decision_tree :
  (forall key_bits rel_bits abs_bits : list Z,
      evdev_input_type key_bits rel_bits abs_bits
      = spec_classify (code_set key_bits) (code_set rel_bits) (code_set abs_bits))
  /\ (forall (ud : udev_device) (st : proc) (key_bits rel_bits abs_bits : list Z),
         ev_key (h_ioctl H (evdev_fd ud)) = Some key_bits ->
         ev_rel (h_ioctl H (evdev_fd ud)) = Some rel_bits ->
         ev_abs (h_ioctl H (evdev_fd ud)) = Some abs_bits ->
         spec_classify (code_set key_bits) (code_set rel_bits) (code_set abs_bits)
         = IT_NONE ->
         fst (create_evdev_handler ud st) = ud).
Proof.
  split.
  - apply evdev_input_type_spec.
  - intros ud st key_bits rel_bits abs_bits Hk Hr Ha Hnone.
    rewrite <- evdev_input_type_spec in Hnone.
    now apply (create_evdev_handler_none ud st key_bits rel_bits abs_bits).
Qed.

(** ** Paths *)

(** C10.  The conversion from a syspath to a devpath and the one from a
    devpath to a syspath both return the string they are given, so going
    one way and back gives the original string. *)
Theorem devpath_syspath_identity (path : string) :
  get_devpath_by_syspath path = path
  /\ get_syspath_by_devpath path = path
  /\ get_syspath_by_devpath (get_devpath_by_syspath path) = path
  /\ get_devpath_by_syspath (get_syspath_by_devpath path) = path.
Proof. repeat split. Qed.

(** ** Markers *)

(** C9.  [set_input_device_type] returns 0 and changes nothing but the
    property list, where it binds to 1 the primary marker ID_INPUT and the
    markers of the classification (key and keyboard for Keyboard, mouse for
    Mouse, mouse and touchpad for Touchpad, touchscreen, joystick and
    tablet for the three others) and leaves every other name as it
    was. *)
Theorem markers_follow_classification (ud : udev_device) (t : input_type) :
  fst (set_input_device_type ud t) = 0%Z
  /\ ud_syspath (snd (set_input_device_type ud t)) = ud_syspath ud
  /\ ud_sysattrs (snd (set_input_device_type ud t)) = ud_sysattrs ud
  /\ ud_parent (snd (set_input_device_type ud t)) = ud_parent ud
  /\ forall name : string,
      ud_properties (snd (set_input_device_type ud t)) !! name
      = if bool_decide (name ∈ "ID_INPUT" :: type_markers t)
        then Some (Some "1")
        else ud_properties ud !! name.
Proof.
  unfold set_input_device_type, udev_list_insert.
  destruct t; cbn; repeat split; intros name;
    rewrite ?lookup_insert; repeat case_decide; subst;
    case_bool_decide as Hin; try reflexivity;
    rewrite ?elem_of_cons, ?elem_of_nil in Hin; exfalso; intuition congruence.
Qed.

(** ** The synthesized parent *)

(** What [create_xorg_parent] builds: nothing when the allocation fails,
    else an object named [sysname] with NAME and [name] bound to the display
    name, PRODUCT bound to the product string when there is one, and, when a
    plug-and-play id is given, [id] bound to what line 273 inserts: the
    product string. *)
Lemma create_xorg_parent_lists (ud : udev_device) (sysname name : string)
    (product pnp_id : option string) :
  match create_xorg_parent ud sysname name product pnp_id with
  | None => h_alloc H sysname = false
  | Some parent =>
      h_alloc H sysname = true
      /\ ud_syspath parent = sysname
      /\ ud_parent parent = None
      /\ ud_properties parent !! "NAME" = Some (Some name)
      /\ ud_sysattrs parent !! "name" = Some (Some name)
      /\ ud_properties parent !! "PRODUCT"
         = match product with Some p => Some (Some p) | None => None end
      /\ ud_sysattrs parent !! "id"
         = match pnp_id with Some _ => Some product | None => None end
  end.
Proof.
  unfold create_xorg_parent, udev_device_new_common, udev_list_insert.
  destruct (h_alloc H sysname); [|reflexivity].
  destruct product, pnp_id; cbn; repeat split; reflexivity.
Qed.

Lemma adopt_properties (ud : udev_device) (parent : option udev_device) :
  ud_properties (adopt ud parent) = ud_properties ud.
Proof. now destruct parent. Qed.

Lemma adopt_parent (ud : udev_device) (parent : option udev_device) :
  ud_parent (adopt ud parent)
  = match parent with Some p => Some p | None => ud_parent ud end.
Proof. now destruct parent. Qed.

(** ** The capability gate *)

Lemma gate_cached (st : proc) :
  enabled st <> (-1)%Z ->
  kernel_has_evdev_enabled st = (negb (enabled st =? 0)%Z, st).
Proof.
  intros Hne. unfold kernel_has_evdev_enabled.
  destruct (Z.eqb_spec (enabled st) (-1)); [contradiction | reflexivity].
Qed.

Lemma gate_calls_cached (n : nat) (st : proc) :
  enabled st <> (-1)%Z ->
  gate_calls n st = (repeat (negb (enabled st =? 0)%Z) n, st).
Proof.
  intros Hne. induction n as [|n IH]; [reflexivity|].
  cbn [gate_calls repeat]. now rewrite gate_cached, IH.
Qed.

(** C5.  A call of the gate with the cache unset asks the kernel.  When
    the query fails the call returns false and the cache stays unset, so
    the next call asks again.  When the query succeeds the call returns the
    flag and stores it; from then on every call, alone or in a row, returns
    the stored value and asks nothing. *)
Theorem gate_caches_successful_read :
  (forall st : proc,
      enabled st = (-1)%Z ->
      asked (snd (kernel_has_evdev_enabled st))
      = "kern.features.evdev_support" :: asked st)
  /\ (forall st : proc,
         enabled st = (-1)%Z ->
         h_feature H (length (asked st)) = None ->
         fst (kernel_has_evdev_enabled st) = false
         /\ enabled (snd (kernel_has_evdev_enabled st)) = (-1)%Z)
  /\ (forall (st : proc) (flag : bool),
         enabled st = (-1)%Z ->
         h_feature H (length (asked st)) = Some flag ->
         fst (kernel_has_evdev_enabled st) = flag
         /\ enabled (snd (kernel_has_evdev_enabled st)) = Z.b2z flag
         /\ forall n : nat,
             gate_calls n (snd (kernel_has_evdev_enabled st))
             = (repeat flag n, snd (kernel_has_evdev_enabled st)))
  /\ (forall st : proc,
         enabled st <> (-1)%Z ->
         kernel_has_evdev_enabled st = (negb (enabled st =? 0)%Z, st)).
Proof.
  assert (Hfail : forall st, enabled st = (-1)%Z ->
            h_feature H (length (asked st)) = None ->
            kernel_has_evdev_enabled st
            = (false, ask "kern.features.evdev_support" st)).
  { intros st Hunset Hq. unfold kernel_has_evdev_enabled, sysctl_evdev_support.
    now rewrite Hunset, Hq. }
  assert (Hok : forall st flag, enabled st = (-1)%Z ->
            h_feature H (length (asked st)) = Some flag ->
            kernel_has_evdev_enabled st
            = (flag, set_enabled (Z.b2z flag) (ask "kern.features.evdev_support" st))).
  { intros st flag Hunset Hq. unfold kernel_has_evdev_enabled, sysctl_evdev_support.
    rewrite Hunset, Hq. now destruct flag. }
  split; [|split; [|split]].
  - intros st Hunset.
    destruct (h_feature H (length (asked st))) as [flag|] eqn:Hq.
    + now rewrite (Hok st flag).
    + now rewrite Hfail.
  - intros st Hunset Hq. rewrite Hfail by assumption. now split.
  - intros st flag Hunset Hq. rewrite (Hok st flag) by assumption.
    split; [reflexivity|]. split; [reflexivity|].
    intros n. cbn [snd]. rewrite gate_calls_cached by now destruct flag.
    now destruct flag.
  - intros st Hne. now apply gate_cached.
Qed.

(** ** The rule table *)

Lemma scan_subsystems_first (table : list subsystem_config) (path : string) :
  match scan_subsystems table path with
  | Some sc =>
      exists before after : list subsystem_config,
        table = (before ++ sc :: after)%list
        /\ fnmatch (syspath sc) path = 0%Z
        /\ Forall (fun r => fnmatch (syspath r) path <> 0%Z) before
  | None => Forall (fun r => fnmatch (syspath r) path <> 0%Z) table
  end.
Proof.
  induction table as [|sc table IH]; cbn [scan_subsystems]; [constructor|].
  destruct (Z.eqb_spec (fnmatch (syspath sc) path) 0) as [Hm|Hm].
  - exists [], table. repeat split; [assumption | constructor].
  - destruct (scan_subsystems table path) as [sc'|].
    + destruct IH as (before & after & -> & Hm' & Hbefore).
      exists (sc :: before), after. repeat split; [assumption|].
      now constructor.
    + now constructor.
Qed.

Lemma glob_literal_cons (c : ascii) (s : string) :
  glob_literal (String c s) = true ->
  Ascii.eqb c "*" = false /\ Ascii.eqb c "?" = false
  /\ Ascii.eqb c "\" = false /\ Ascii.eqb c "[" = false
  /\ glob_literal s = true.
Proof.
  unfold glob_literal. rewrite !contains_cons, negb_true_iff, !orb_false_iff.
  intros [[[[Hs Hs'] [Hq Hq']] [Hk Hk']] [Hb Hb']].
  rewrite Hs', Hq', Hk', Hb'.
  rewrite (Ascii.eqb_sym c "*"), (Ascii.eqb_sym c "?"),
    (Ascii.eqb_sym c "\"), (Ascii.eqb_sym c "[").
  auto.
Qed.

Lemma glob_parse_literal (root p : string) (n : nat) :
  glob_literal root = true ->
  glob_parse (String.length root + n) (root ++ p)
  = (map GChar (list_ascii_of_string root) ++ glob_parse n p)%list.
Proof.
  induction root as [|c root IH]; intros Hlit; [reflexivity|].
  apply glob_literal_cons in Hlit as (Hs & Hq & Hb & Hk & Hlit).
  change (String c root ++ p) with (String c (root ++ p)).
  cbn [String.length Nat.add glob_parse list_ascii_of_string map app].
  rewrite Hs, Hq, Hb, Hk. now rewrite IH.
Qed.

Lemma glob_match_chars (root : string) (items : list glob_item) (s : string) :
  glob_match (map GChar (list_ascii_of_string root) ++ items)%list s = true
  <-> exists rest : string, s = root ++ rest /\ glob_match items rest = true.
Proof.
  revert s. induction root as [|c root IH]; intros s.
  - cbn. split; [intros Hm; now exists s | now intros (rest & -> & Hm)].
  - cbn [list_ascii_of_string map app glob_match]. destruct s as [|d s].
    + split; [discriminate | intros (rest & Hs & _); discriminate].
    + rewrite andb_true_iff, Ascii.eqb_eq, IH. split.
      * intros (-> & rest & -> & Hm). now exists rest.
      * intros (rest & Hs & Hm). injection Hs as -> ->. split; [reflexivity|].
        now exists rest.
Qed.

Lemma fnmatch_literal_root (root pat path : string) :
  glob_literal root = true ->
  fnmatch (root ++ pat) path = 0%Z
  <-> exists rest : string,
      path = root ++ rest
      /\ glob_match (glob_parse (String.length pat) pat) rest = true.
Proof.
  intros Hlit. unfold fnmatch.
  rewrite string_length_app, glob_parse_literal by assumption.
  rewrite <- glob_match_chars.
  destruct (glob_match _ path).
  - split; intros _; reflexivity.
  - split; discriminate.
Qed.

Lemma string_app_inv_head (a b c : string) : a ++ b = a ++ c -> b = c.
Proof.
  induction a as [|x a IH]; cbn; [auto|]. intros Heq. injection Heq as Heq. auto.
Qed.

(** No path matches both the pattern of the event nodes and the pattern
    of the USB keyboards. *)
Lemma ukbd_is_no_event_node (path : string) :
  glob_literal DEV_PATH_ROOT = true ->
  fnmatch (DEV_PATH_ROOT ++ "/ukbd[0-9]*") path = 0%Z ->
  fnmatch (DEV_PATH_ROOT ++ "/input/event[0-9]*") path <> 0%Z.
Proof.
  intros Hlit Hu He.
  apply fnmatch_literal_root in Hu as (rest & -> & Hu); [|assumption].
  apply fnmatch_literal_root in He as (rest' & Heq & He); [|assumption].
  apply string_app_inv_head in Heq as <-.
  match type of Hu with
  | glob_match ?parsed _ = _ =>
      let items := eval vm_compute in parsed in change parsed with items in Hu
  end.
  match type of He with
  | glob_match ?parsed _ = _ =>
      let items := eval vm_compute in parsed in change parsed with items in He
  end.
  destruct rest as [|c1 [|c2 rest]]; cbn [glob_match] in Hu, He; [discriminate Hu | |].
  { apply andb_true_iff in Hu as [_ Hu]. discriminate Hu. }
  apply andb_true_iff in Hu as [_ Hu]. apply andb_true_iff in Hu as [Hu _].
  apply andb_true_iff in He as [_ He]. apply andb_true_iff in He as [He _].
  apply Ascii.eqb_eq in Hu, He. congruence.
Qed.

Lemma fnmatch_ukbd0 :
  glob_literal DEV_PATH_ROOT = true ->
  fnmatch (DEV_PATH_ROOT ++ "/ukbd[0-9]*") (DEV_PATH_ROOT ++ "/ukbd0") = 0%Z.
Proof.
  intros Hlit. apply fnmatch_literal_root; [assumption|].
  exists "/ukbd0". split; reflexivity.
Qed.

Lemma fnmatch_event7 :
  glob_literal DEV_PATH_ROOT = true ->
  fnmatch (DEV_PATH_ROOT ++ "/input/event[0-9]*") (DEV_PATH_ROOT ++ "/input/event7") = 0%Z.
Proof.
  intros Hlit. apply fnmatch_literal_root; [assumption|].
  exists "/input/event7". split; reflexivity.
Qed.

Lemma resolve_ukbd (path : string) :
  glob_literal DEV_PATH_ROOT = true ->
  fnmatch (DEV_PATH_ROOT ++ "/ukbd[0-9]*") path = 0%Z ->
  get_subsystem_config_by_syspath path = Some ukbd_rule.
Proof.
  intros Hlit Hu. unfold get_subsystem_config_by_syspath, subsystems.
  destruct HAVE_LINUX_INPUT_H; cbn [app scan_subsystems syspath].
  - destruct (Z.eqb_spec (fnmatch (DEV_PATH_ROOT ++ "/input/event[0-9]*") path) 0)
      as [He|_].
    + now apply ukbd_is_no_event_node in He.
    + now rewrite Hu.
  - now rewrite Hu.
Qed.

Lemma resolve_evdev (path : string) :
  HAVE_LINUX_INPUT_H = true ->
  fnmatch (DEV_PATH_ROOT ++ "/input/event[0-9]*") path = 0%Z ->
  get_subsystem_config_by_syspath path = Some evdev_rule.
Proof.
  intros Hhave He. unfold get_subsystem_config_by_syspath, subsystems.
  rewrite Hhave. cbn [app scan_subsystems syspath]. now rewrite He.
Qed.

(** Without <linux/input.h> the table has no rule for the event nodes. *)
Lemma event_node_without_input_h :
  HAVE_LINUX_INPUT_H = false ->
  glob_literal DEV_PATH_ROOT = true ->
  get_subsystem_config_by_syspath (DEV_PATH_ROOT ++ "/input/event7") = None.
Proof.
  intros Hhave Hlit. unfold get_subsystem_config_by_syspath, subsystems.
  rewrite Hhave. cbn [app scan_subsystems syspath].
  repeat match goal with
         | |- context [fnmatch (DEV_PATH_ROOT ++ ?pat) ?path] =>
             let Hm := fresh "Hm" in
             destruct (Z.eqb_spec (fnmatch (DEV_PATH_ROOT ++ pat) path) 0) as [Hm|_];
             [ exfalso;
               apply fnmatch_literal_root in Hm as (rest & Heq & Hm); [|assumption];
               apply string_app_inv_head in Heq as <-; discriminate Hm |]
         end.
  reflexivity.
Qed.

(** C2.  Resolution returns the first rule of the table, in the order of
    its declaration, whose pattern matches the path, and nothing when no
    pattern does.  Dispatch leaves the device alone when no rule is found,
    when the rule has no handler, and when the rule has the skip flag and
    the gate reports the uniform interface; otherwise it calls the handler
    of the rule.  So, under a device-node root without pattern characters,
    a path that matches the pattern of the USB keyboards, as ukbd0 does, is
    skipped when the gate says enabled and goes to the keyboard handler
    when it says disabled; and in a build with <linux/input.h> a path that
    matches the pattern of the event nodes, as input/event7 does, goes to
    the handler of the uniform interface without the gate being asked. *)
Theorem dispatch_by_first_matching_rule :
  (forall path : string,
      match get_subsystem_config_by_syspath path with
      | Some sc =>
          exists before after : list subsystem_config,
            subsystems = (before ++ sc :: after)%list
            /\ fnmatch (syspath sc) path = 0%Z
            /\ Forall (fun r => fnmatch (syspath r) path <> 0%Z) before
      | None => Forall (fun r => fnmatch (syspath r) path <> 0%Z) subsystems
      end)
  /\ (forall (ud : udev_device) (st : proc),
         get_subsystem_config_by_syspath (ud_syspath ud) = None ->
         invoke_create_handler ud st = (ud, st))
  /\ (forall (ud : udev_device) (st : proc) (sc : subsystem_config),
         get_subsystem_config_by_syspath (ud_syspath ud) = Some sc ->
         create_handler sc = None ->
         invoke_create_handler ud st = (ud, st))
  /\ (forall (ud : udev_device) (st : proc) (sc : subsystem_config) (h : handler),
         get_subsystem_config_by_syspath (ud_syspath ud) = Some sc ->
         create_handler sc = Some h ->
         Z.land (flags sc) SCFLAG_SKIP_IF_EVDEV <> 0%Z ->
         invoke_create_handler ud st
         = if fst (kernel_has_evdev_enabled st)
           then (ud, snd (kernel_has_evdev_enabled st))
           else call_handler h ud (snd (kernel_has_evdev_enabled st)))
  /\ (forall (ud : udev_device) (st : proc) (sc : subsystem_config) (h : handler),
         get_subsystem_config_by_syspath (ud_syspath ud) = Some sc ->
         create_handler sc = Some h ->
         Z.land (flags sc) SCFLAG_SKIP_IF_EVDEV = 0%Z ->
         invoke_create_handler ud st = call_handler h ud st)
  /\ (glob_literal DEV_PATH_ROOT = true ->
      fnmatch (DEV_PATH_ROOT ++ "/ukbd[0-9]*") (DEV_PATH_ROOT ++ "/ukbd0") = 0%Z
      /\ fnmatch (DEV_PATH_ROOT ++ "/input/event[0-9]*")
           (DEV_PATH_ROOT ++ "/input/event7") = 0%Z
      /\ forall (ud : udev_device) (st : proc),
          fnmatch (DEV_PATH_ROOT ++ "/ukbd[0-9]*") (ud_syspath ud) = 0%Z ->
          invoke_create_handler ud st
          = if fst (kernel_has_evdev_enabled st)
            then (ud, snd (kernel_has_evdev_enabled st))
            else create_keyboard_handler ud (snd (kernel_has_evdev_enabled st)))
  /\ (HAVE_LINUX_INPUT_H = true ->
      forall (ud : udev_device) (st : proc),
        fnmatch (DEV_PATH_ROOT ++ "/input/event[0-9]*") (ud_syspath ud) = 0%Z ->
        invoke_create_handler ud st = create_evdev_handler ud st).
Proof.
  assert (Hskip : forall ud st sc h,
            get_subsystem_config_by_syspath (ud_syspath ud) = Some sc ->
            create_handler sc = Some h ->
            Z.land (flags sc) SCFLAG_SKIP_IF_EVDEV <> 0%Z ->
            invoke_create_handler ud st
            = if fst (kernel_has_evdev_enabled st)
              then (ud, snd (kernel_has_evdev_enabled st))
              else call_handler h ud (snd (kernel_has_evdev_enabled st))).
  { intros ud st sc h Hsc Hh Hflag.
    unfold invoke_create_handler, udev_device_get_syspath. rewrite Hsc, Hh.
    destruct (Z.eqb_spec (Z.land (flags sc) SCFLAG_SKIP_IF_EVDEV) 0);
      [contradiction|].
    cbn [negb]. now destruct (kernel_has_evdev_enabled st) as [[|] st']. }
  assert (Hplain : forall ud st sc h,
            get_subsystem_config_by_syspath (ud_syspath ud) = Some sc ->
            create_handler sc = Some h ->
            Z.land (flags sc) SCFLAG_SKIP_IF_EVDEV = 0%Z ->
            invoke_create_handler ud st = call_handler h ud st).
  { intros ud st sc h Hsc Hh Hflag.
    unfold invoke_create_handler, udev_device_get_syspath.
    now rewrite Hsc, Hh, Hflag. }
  split; [|split; [|split; [|split; [|split; [|split]]]]].
  - intros path. apply scan_subsystems_first.
  - intros ud st Hnone. unfold invoke_create_handler, udev_device_get_syspath.
    now rewrite Hnone.
  - intros ud st sc Hsc Hh. unfold invoke_create_handler, udev_device_get_syspath.
    now rewrite Hsc, Hh.
  - exact Hskip.
  - exact Hplain.
  - intros Hlit. split; [now apply fnmatch_ukbd0|]. split; [now apply fnmatch_event7|].
    intros ud st Hu.
    apply (Hskip ud st ukbd_rule H_keyboard);
      [now apply resolve_ukbd | reflexivity | discriminate].
  - intros Hhave ud st He.
    apply (Hplain ud st evdev_rule H_evdev);
      [now apply resolve_evdev | reflexivity | reflexivity].
Qed.

(** ** Legacy units *)

Lemma syspathlen_loop_le (path : string) (len : nat) :
  syspathlen_loop path len <= len.
Proof.
  induction len as [|len IH]; cbn [syspathlen_loop]; [lia|].
  destruct (String.get len path) as [c|]; [|lia].
  destruct (is_unit_digit c); lia.
Qed.

Lemma get_last_char (c : ascii) (s : string) :
  String.get (String.length s) (String c s) = last_char (String c s).
Proof.
  revert c. induction s as [|d s IH]; intros c; [reflexivity|].
  cbn [String.length]. change (String.get (S (String.length s)) (String c (String d s)))
    with (String.get (String.length s) (String d s)).
  rewrite IH. reflexivity.
Qed.

Lemma is_unit_digit_range (c : ascii) :
  is_unit_digit c = Nat.leb 48 (nat_of_ascii c) && Nat.leb (nat_of_ascii c) 57.
Proof.
  unfold is_unit_digit. change (nat_of_ascii "0") with 48. change (nat_of_ascii "9") with 57.
  destruct (Nat.ltb_spec (nat_of_ascii c) 48), (Nat.ltb_spec 57 (nat_of_ascii c)),
    (Nat.leb_spec 48 (nat_of_ascii c)), (Nat.leb_spec (nat_of_ascii c) 57);
    cbn; try reflexivity; lia.
Qed.

(** [syspathlen_wo_units] returns the whole length exactly for the names
    that do not end in a digit. *)
Lemma no_unit_iff (sysname : string) :
  syspathlen_wo_units sysname = String.length sysname
  <-> ends_with_digit sysname = false.
Proof.
  unfold syspathlen_wo_units, ends_with_digit.
  destruct sysname as [|c s]; [now split|].
  cbn [String.length syspathlen_loop]. rewrite get_last_char.
  destruct (last_char (String c s)) as [d|] eqn:Hlast.
  - rewrite is_unit_digit_range.
    destruct (Nat.leb 48 (nat_of_ascii d) && Nat.leb (nat_of_ascii d) 57).
    + pose proof (syspathlen_loop_le (String c s) (String.length s)).
      split; [lia | discriminate].
    + now split.
  - now split.
Qed.

(** [set_parent] when the three queries succeed. *)
Lemma set_parent_success (ud : udev_device) (st : proc)
    (desc pnpinfo parentname : string) :
  ends_with_digit (udev_device_get_sysname ud) = true ->
  sysctl_string (unit_mib (udev_device_get_sysname ud) ".%desc") 80 = Some desc ->
  sysctl_string (unit_mib (udev_device_get_sysname ud) ".%pnpinfo") 1024 = Some pnpinfo ->
  sysctl_string (unit_mib (udev_device_get_sysname ud) ".%parent") 80 = Some parentname ->
  set_parent ud st
  = (adopt ud
       (create_xorg_parent ud (udev_device_get_sysname ud) (strip_name desc)
          (Some (legacy_product
                   (legacy_ids
                      (snd (retain_pnp_id pnpinfo (get_kern_prop_value pnpinfo "_HID")))
                      (get_kern_prop_value pnpinfo "vendor")
                      (get_kern_prop_value pnpinfo "product")
                      (get_kern_prop_value pnpinfo "device")
                      parentname
                      (snprintf (syspathlen_wo_units (udev_device_get_sysname ud) + 1)
                         (udev_device_get_sysname ud)))))
          (option_map
             (fun id => cstr_at
                          (snd (retain_pnp_id pnpinfo (get_kern_prop_value pnpinfo "_HID")))
                          (fst id))
             (fst (retain_pnp_id pnpinfo (get_kern_prop_value pnpinfo "_HID"))))),
     ask (unit_mib (udev_device_get_sysname ud) ".%parent")
       (ask (unit_mib (udev_device_get_sysname ud) ".%pnpinfo")
          (ask (unit_mib (udev_device_get_sysname ud) ".%desc") st))).
Proof.
  intros Hunit Hdesc Hpnp Hparent. unfold set_parent, sysctlbyname.
  destruct (Nat.eqb_spec (String.length (udev_device_get_sysname ud))
              (syspathlen_wo_units (udev_device_get_sysname ud))) as [Heq|_].
  { symmetry in Heq. apply no_unit_iff in Heq. congruence. }
  fold (unit_mib (udev_device_get_sysname ud) ".%desc").
  fold (unit_mib (udev_device_get_sysname ud) ".%pnpinfo").
  fold (unit_mib (udev_device_get_sysname ud) ".%parent").
  rewrite Hdesc, Hpnp, Hparent.
  now destruct (retain_pnp_id pnpinfo (get_kern_prop_value pnpinfo "_HID")).
Qed.

(** C6.  For a short name that does not end in a decimal digit
    [set_parent] returns the device and the process as they were: no
    property is asked for and no parent is produced.  When the name has a
    unit number and the query for the description, the plug-and-play blob
    or the parent name fails, [set_parent] returns the device as it was,
    without a parent if it had none, having asked for nothing but those
    properties. *)
Theorem set_parent_aborts_silently :
  (forall (ud : udev_device) (st : proc),
      ends_with_digit (udev_device_get_sysname ud) = false ->
      set_parent ud st = (ud, st))
  /\ (forall (ud : udev_device) (st : proc),
         sysctl_string (unit_mib (udev_device_get_sysname ud) ".%desc") 80 = None
         \/ sysctl_string (unit_mib (udev_device_get_sysname ud) ".%pnpinfo") 1024 = None
         \/ sysctl_string (unit_mib (udev_device_get_sysname ud) ".%parent") 80 = None ->
         fst (set_parent ud st) = ud
         /\ enabled (snd (set_parent ud st)) = enabled st
         /\ closed (snd (set_parent ud st)) = closed st
         /\ exists queries : list string,
             asked (snd (set_parent ud st)) = (queries ++ asked st)%list
             /\ Forall (fun mib =>
                          mib = unit_mib (udev_device_get_sysname ud) ".%desc"
                          \/ mib = unit_mib (udev_device_get_sysname ud) ".%pnpinfo"
                          \/ mib = unit_mib (udev_device_get_sysname ud) ".%parent")
                  queries).
Proof.
  split.
  - intros ud st Hnone. apply no_unit_iff in Hnone.
    unfold set_parent. rewrite Hnone. now rewrite Nat.eqb_refl.
  - intros ud st Hfail. unfold set_parent, sysctlbyname.
    destruct (Nat.eqb (String.length (udev_device_get_sysname ud))
                (syspathlen_wo_units (udev_device_get_sysname ud))).
    { repeat split. exists []. split; [reflexivity | constructor]. }
    fold (unit_mib (udev_device_get_sysname ud) ".%desc").
    fold (unit_mib (udev_device_get_sysname ud) ".%pnpinfo").
    fold (unit_mib (udev_device_get_sysname ud) ".%parent").
    destruct (sysctl_string (unit_mib (udev_device_get_sysname ud) ".%desc") 80)
      as [desc|].
    2:{ repeat split.
        exists [unit_mib (udev_device_get_sysname ud) ".%desc"].
        split; [reflexivity | repeat (constructor; [auto|]); constructor]. }
    destruct (sysctl_string (unit_mib (udev_device_get_sysname ud) ".%pnpinfo") 1024)
      as [pnpinfo|].
    2:{ repeat split.
        exists [unit_mib (udev_device_get_sysname ud) ".%pnpinfo";
                unit_mib (udev_device_get_sysname ud) ".%desc"].
        split; [reflexivity | repeat (constructor; [auto|]); constructor]. }
    destruct (sysctl_string (unit_mib (udev_device_get_sysname ud) ".%parent") 80)
      as [parentname|].
    { exfalso. destruct Hfail as [Hf|[Hf|Hf]]; discriminate Hf. }
    repeat split.
    exists [unit_mib (udev_device_get_sysname ud) ".%parent";
            unit_mib (udev_device_get_sysname ud) ".%pnpinfo";
            unit_mib (udev_device_get_sysname ud) ".%desc"].
    split; [reflexivity | repeat (constructor; [auto|]); constructor].
Qed.

(** ** Bus, vendor and product of a legacy unit *)

Lemma legacy_ids_range (pnpinfo : string)
    (vendorstr prodstr devicestr : option (nat * nat)) (parentname devname : string) :
  let ids := legacy_ids pnpinfo vendorstr prodstr devicestr parentname devname in
  (0 <= fst (fst ids) < 2 ^ 32)%Z
  /\ (0 <= snd (fst ids) < 2 ^ 32)%Z
  /\ (0 <= snd ids < 2 ^ 32)%Z.
Proof.
  unfold legacy_ids.
  destruct prodstr as [[p pl]|], vendorstr as [[v vl]|], devicestr as [[d dl]|];
    try destruct (strcmp_eq parentname "atkbdc0");
    try destruct (strcmp_eq devname "atkbd");
    try destruct (strcmp_eq devname "psm");
    cbn [fst snd]; repeat split;
    try apply to_uint32_range; try (apply Z.mod_pos_bound; lia);
    unfold BUS_USB, BUS_PCI, BUS_I8042, BUS_VIRTUAL, PS2_KEYBOARD_VENDOR,
      PS2_KEYBOARD_PRODUCT, PS2_MOUSE_VENDOR, PS2_MOUSE_GENERIC_PRODUCT; lia.
Qed.

Lemma legacy_product_text (bus vendor prod : Z) :
  (0 <= bus < 2 ^ 32)%Z -> (0 <= vendor < 2 ^ 32)%Z -> (0 <= prod < 2 ^ 32)%Z ->
  legacy_product (bus, vendor, prod)
  = fmt_x bus ++ "/" ++ fmt_x vendor ++ "/" ++ fmt_x prod ++ "/0".
Proof.
  intros Hb Hv Hp. unfold legacy_product. apply snprintf_fits.
  rewrite !string_length_app.
  pose proof (fmt_x_uint32_length bus Hb).
  pose proof (fmt_x_uint32_length vendor Hv).
  pose proof (fmt_x_uint32_length prod Hp).
  cbn [String.length]. lia.
Qed.

Lemma strcmp_eq_true (a b : string) : strcmp_eq a b = true <-> a = b.
Proof. apply String.eqb_eq. Qed.

Lemma strcmp_eq_false (a b : string) : strcmp_eq a b = false <-> a <> b.
Proof. apply String.eqb_neq. Qed.

(** The precedence of lines 462 to 487, and the product string of line
    488, which is never cut: three numbers of at most eight digits. *)
Lemma legacy_ids_precedence (pnpinfo : string)
    (vendorstr prodstr devicestr : option (nat * nat)) (parentname devname : string) :
  (forall v vl p pl : nat,
      vendorstr = Some (v, vl) -> prodstr = Some (p, pl) ->
      legacy_ids pnpinfo vendorstr prodstr devicestr parentname devname
      = (BUS_USB, to_uint32 (strtol0 (cstr_at pnpinfo v)),
         to_uint32 (strtol0 (cstr_at pnpinfo p))))
  /\ (forall v vl d dl : nat,
         vendorstr = Some (v, vl) -> prodstr = None -> devicestr = Some (d, dl) ->
         legacy_ids pnpinfo vendorstr prodstr devicestr parentname devname
         = (BUS_PCI, to_uint32 (strtol0 (cstr_at pnpinfo v)),
            to_uint32 (strtol0 (cstr_at pnpinfo d))))
  /\ (vendorstr = None \/ (prodstr = None /\ devicestr = None) ->
      (parentname = "atkbdc0" -> devname = "atkbd" ->
       legacy_ids pnpinfo vendorstr prodstr devicestr parentname devname
       = (BUS_I8042, PS2_KEYBOARD_VENDOR, PS2_KEYBOARD_PRODUCT))
      /\ (parentname = "atkbdc0" -> devname = "psm" ->
          legacy_ids pnpinfo vendorstr prodstr devicestr parentname devname
          = (BUS_I8042, PS2_MOUSE_VENDOR, PS2_MOUSE_GENERIC_PRODUCT))
      /\ (parentname = "atkbdc0" -> devname <> "atkbd" -> devname <> "psm" ->
          legacy_ids pnpinfo vendorstr prodstr devicestr parentname devname
          = (BUS_I8042, 0%Z, 0%Z))
      /\ (parentname <> "atkbdc0" ->
          legacy_ids pnpinfo vendorstr prodstr devicestr parentname devname
          = (BUS_VIRTUAL, 0%Z, 0%Z))).
Proof.
  split; [|split].
  - intros v vl p pl -> ->. reflexivity.
  - intros v vl d dl -> -> ->. reflexivity.
  - intros Habsent.
    assert (Helse : legacy_ids pnpinfo vendorstr prodstr devicestr parentname devname
                    = if strcmp_eq parentname "atkbdc0" then
                        if strcmp_eq devname "atkbd" then
                          (BUS_I8042, PS2_KEYBOARD_VENDOR, PS2_KEYBOARD_PRODUCT)
                        else if strcmp_eq devname "psm" then
                          (BUS_I8042, PS2_MOUSE_VENDOR, PS2_MOUSE_GENERIC_PRODUCT)
                        else (BUS_I8042, 0%Z, 0%Z)
                      else (BUS_VIRTUAL, 0%Z, 0%Z)).
    { unfold legacy_ids.
      destruct Habsent as [->|[-> ->]].
      - now destruct prodstr as [[p pl]|], devicestr as [[d dl]|].
      - now destruct vendorstr as [[v vl]|]. }
    rewrite Helse. repeat split.
    + intros -> ->. reflexivity.
    + intros -> ->. reflexivity.
    + intros -> Hk Hm. apply strcmp_eq_false in Hk, Hm.
      now rewrite Hk, Hm.
    + intros Hp. apply strcmp_eq_false in Hp. now rewrite Hp.
Qed.

(** C3 (amended).  Bus, vendor and product of a legacy unit follow a fixed
    precedence: with a vendor and a product key, the USB bus and the two
    numbers [strtol] reads at those values, narrowed to 32 bits; else with
    a vendor and a device key, the PCI bus and those two numbers; else,
    under the parent atkbdc0, the keyboard-controller bus with the PS/2
    keyboard pair for the driver atkbd, the PS/2 mouse pair for psm and
    zeros for any other driver; else the virtual bus and zeros.  The
    keyboard pair is thus what atkbd under atkbdc0 gets when the blob has
    no vendor key, or neither a product nor a device key.  The product
    string is bus, vendor and product in hexadecimal, separated by
    slashes, followed by a zero, and it is what the parent of the unit
    carries as PRODUCT when the three queries and the allocation
    succeed. *)
Theorem legacy_identity_precedence :
  (forall (pnpinfo : string) (vendorstr prodstr devicestr : option (nat * nat))
          (parentname devname : string),
      (forall v vl p pl : nat,
          vendorstr = Some (v, vl) -> prodstr = Some (p, pl) ->
          legacy_ids pnpinfo vendorstr prodstr devicestr parentname devname
          = (BUS_USB, to_uint32 (strtol0 (cstr_at pnpinfo v)),
             to_uint32 (strtol0 (cstr_at pnpinfo p))))
      /\ (forall v vl d dl : nat,
             vendorstr = Some (v, vl) -> prodstr = None -> devicestr = Some (d, dl) ->
             legacy_ids pnpinfo vendorstr prodstr devicestr parentname devname
             = (BUS_PCI, to_uint32 (strtol0 (cstr_at pnpinfo v)),
                to_uint32 (strtol0 (cstr_at pnpinfo d))))
      /\ (vendorstr = None \/ (prodstr = None /\ devicestr = None) ->
          (parentname = "atkbdc0" -> devname = "atkbd" ->
           legacy_ids pnpinfo vendorstr prodstr devicestr parentname devname
           = (BUS_I8042, PS2_KEYBOARD_VENDOR, PS2_KEYBOARD_PRODUCT))
          /\ (parentname = "atkbdc0" -> devname = "psm" ->
              legacy_ids pnpinfo vendorstr prodstr devicestr parentname devname
              = (BUS_I8042, PS2_MOUSE_VENDOR, PS2_MOUSE_GENERIC_PRODUCT))
          /\ (parentname = "atkbdc0" -> devname <> "atkbd" -> devname <> "psm" ->
              legacy_ids pnpinfo vendorstr prodstr devicestr parentname devname
              = (BUS_I8042, 0%Z, 0%Z))
          /\ (parentname <> "atkbdc0" ->
              legacy_ids pnpinfo vendorstr prodstr devicestr parentname devname
              = (BUS_VIRTUAL, 0%Z, 0%Z)))
      /\ (forall bus vendor prod : Z,
             legacy_ids pnpinfo vendorstr prodstr devicestr parentname devname
             = (bus, vendor, prod) ->
             legacy_product (bus, vendor, prod)
             = fmt_x bus ++ "/" ++ fmt_x vendor ++ "/" ++ fmt_x prod ++ "/0"))
  /\ (forall (ud : udev_device) (st : proc) (desc pnpinfo parentname : string),
         ends_with_digit (udev_device_get_sysname ud) = true ->
         sysctl_string (unit_mib (udev_device_get_sysname ud) ".%desc") 80 = Some desc ->
         sysctl_string (unit_mib (udev_device_get_sysname ud) ".%pnpinfo") 1024
         = Some pnpinfo ->
         sysctl_string (unit_mib (udev_device_get_sysname ud) ".%parent") 80
         = Some parentname ->
         h_alloc H (udev_device_get_sysname ud) = true ->
         exists parent : udev_device,
           ud_parent (fst (set_parent ud st)) = Some parent
           /\ ud_properties parent !! "PRODUCT"
              = Some (Some (legacy_product
                              (legacy_ids
                                 (snd (retain_pnp_id pnpinfo
                                         (get_kern_prop_value pnpinfo "_HID")))
                                 (get_kern_prop_value pnpinfo "vendor")
                                 (get_kern_prop_value pnpinfo "product")
                                 (get_kern_prop_value pnpinfo "device")
                                 parentname
                                 (snprintf
                                    (syspathlen_wo_units (udev_device_get_sysname ud) + 1)
                                    (udev_device_get_sysname ud)))))).
Proof.
  split.
  - intros pnpinfo vendorstr prodstr devicestr parentname devname.
    pose proof (legacy_ids_precedence pnpinfo vendorstr prodstr devicestr
                  parentname devname) as (Husb & Hpci & Helse).
    split; [exact Husb|]. split; [exact Hpci|]. split; [exact Helse|].
    intros bus vendor prod Hids.
    pose proof (legacy_ids_range pnpinfo vendorstr prodstr devicestr
                  parentname devname) as Hrange.
    cbv zeta in Hrange. rewrite Hids in Hrange. cbn [fst snd] in Hrange.
    destruct Hrange as (Hb & Hv & Hp). now apply legacy_product_text.
  - intros ud st desc pnpinfo parentname Hunit Hdesc Hpnp Hparent Halloc.
    rewrite (set_parent_success ud st desc pnpinfo parentname) by assumption.
    cbn [fst].
    match goal with
    | |- context [create_xorg_parent ?u ?s ?n ?p ?i] =>
        pose proof (create_xorg_parent_lists u s n p i) as Hlists;
        destruct (create_xorg_parent u s n p i) as [parent|]
    end.
    + exists parent. split; [reflexivity|]. apply Hlists.
    + congruence.
Qed.

(** ** Display names *)

(** [create_evdev_handler] when a descriptor is obtained, every ioctl
    answers and the bitmaps classify. *)
Lemma create_evdev_handler_success (ud : udev_device) (st : proc)
    (name : string) (id : input_id) (key_bits rel_bits abs_bits : list Z) :
  evdev_fd ud <> (-1)%Z ->
  ev_name (h_ioctl H (evdev_fd ud)) = Some name ->
  ev_phys (h_ioctl H (evdev_fd ud)) <> PhysFail ->
  ev_id (h_ioctl H (evdev_fd ud)) = Some id ->
  ev_rel (h_ioctl H (evdev_fd ud)) = Some rel_bits ->
  ev_abs (h_ioctl H (evdev_fd ud)) = Some abs_bits ->
  ev_key (h_ioctl H (evdev_fd ud)) = Some key_bits ->
  evdev_input_type key_bits rel_bits abs_bits <> IT_NONE ->
  exists sysname : string,
    fst (create_evdev_handler ud st)
    = adopt (snd (set_input_device_type ud
                    (evdev_input_type key_bits rel_bits abs_bits)))
        (create_xorg_parent
           (snd (set_input_device_type ud
                   (evdev_input_type key_bits rel_bits abs_bits)))
           sysname (strip_name name) (Some (evdev_product id)) None).
Proof.
  unfold create_evdev_handler, evdev_fd.
  intros Hfd Hname Hphys Hid Hrel Habs Hkey Htype.
  destruct (h_path_to_fd H (udev_device_get_devnode ud) =? -1)%Z eqn:Hpath.
  - destruct (Z.eqb_spec (h_open H (udev_device_get_devnode ud)) (-1));
      [contradiction|].
    rewrite Hname, Hid, Hrel, Habs, Hkey.
    destruct (ev_phys (h_ioctl H (h_open H (udev_device_get_devnode ud))));
      [| |contradiction];
      destruct (evdev_input_type key_bits rel_bits abs_bits);
      try contradiction; eexists; reflexivity.
  - rewrite Hpath, Hname, Hid, Hrel, Habs, Hkey.
    destruct (ev_phys (h_ioctl H (h_path_to_fd H (udev_device_get_devnode ud))));
      [| |contradiction];
      destruct (evdev_input_type key_bits rel_bits abs_bits);
      try contradiction; eexists; reflexivity.
Qed.

Lemma adopted_parent_name (ud : udev_device) (sysname name : string)
    (product pnp_id : option string) :
  h_alloc H sysname = true ->
  exists parent : udev_device,
    ud_parent (adopt ud (create_xorg_parent ud sysname name product pnp_id))
    = Some parent
    /\ ud_properties parent !! "NAME" = Some (Some name)
    /\ ud_sysattrs parent !! "name" = Some (Some name).
Proof.
  intros Halloc.
  pose proof (create_xorg_parent_lists ud sysname name product pnp_id) as Hlists.
  destruct (create_xorg_parent ud sysname name product pnp_id) as [parent|];
    [|congruence].
  exists parent. split; [reflexivity|]. split; apply Hlists.
Qed.

(** C8.  The display name is the string cut at its first comma: a string
    without a comma stays whole, a string with one keeps what precedes the
    first, and Generic, Inc Mouse gives Generic.  The handler of the event
    nodes applies the rule to the name the kernel reports and [set_parent]
    applies it to the description of the unit: in both, the parent carries
    the cut string as NAME and as [name]. *)
Theorem display_name_cut_at_first_comma :
  (forall name : string,
      contains "," name = false -> contains NUL name = false ->
      strip_name name = name)
  /\ (forall pre post : string,
         contains "," pre = false -> contains NUL pre = false ->
         strip_name (pre ++ String "," post) = pre)
  /\ strip_name "Generic, Inc Mouse" = "Generic"
  /\ (forall (ud : udev_device) (st : proc) (name : string) (id : input_id)
             (key_bits rel_bits abs_bits : list Z),
         evdev_fd ud <> (-1)%Z ->
         ev_name (h_ioctl H (evdev_fd ud)) = Some name ->
         ev_phys (h_ioctl H (evdev_fd ud)) <> PhysFail ->
         ev_id (h_ioctl H (evdev_fd ud)) = Some id ->
         ev_rel (h_ioctl H (evdev_fd ud)) = Some rel_bits ->
         ev_abs (h_ioctl H (evdev_fd ud)) = Some abs_bits ->
         ev_key (h_ioctl H (evdev_fd ud)) = Some key_bits ->
         evdev_input_type key_bits rel_bits abs_bits <> IT_NONE ->
         (forall sysname : string, h_alloc H sysname = true) ->
         exists parent : udev_device,
           ud_parent (fst (create_evdev_handler ud st)) = Some parent
           /\ ud_properties parent !! "NAME" = Some (Some (strip_name name))
           /\ ud_sysattrs parent !! "name" = Some (Some (strip_name name)))
  /\ (forall (ud : udev_device) (st : proc) (desc pnpinfo parentname : string),
         ends_with_digit (udev_device_get_sysname ud) = true ->
         sysctl_string (unit_mib (udev_device_get_sysname ud) ".%desc") 80 = Some desc ->
         sysctl_string (unit_mib (udev_device_get_sysname ud) ".%pnpinfo") 1024
         = Some pnpinfo ->
         sysctl_string (unit_mib (udev_device_get_sysname ud) ".%parent") 80
         = Some parentname ->
         (forall sysname : string, h_alloc H sysname = true) ->
         exists parent : udev_device,
           ud_parent (fst (set_parent ud st)) = Some parent
           /\ ud_properties parent !! "NAME" = Some (Some (strip_name desc))
           /\ ud_sysattrs parent !! "name" = Some (Some (strip_name desc))).
Proof.
  split; [|split; [|split; [|split]]].
  - intros name Hcomma Hnul.
    rewrite strip_name_no_comma by assumption. now apply cstr_no_nul.
  - intros pre post Hcomma Hnul. now apply strip_name_comma.
  - reflexivity.
  - intros ud st name id key_bits rel_bits abs_bits
      Hfd Hname Hphys Hid Hrel Habs Hkey Htype Halloc.
    destruct (create_evdev_handler_success ud st name id key_bits rel_bits abs_bits)
      as (sysname & ->); try assumption.
    apply adopted_parent_name, Halloc.
  - intros ud st desc pnpinfo parentname Hunit Hdesc Hpnp Hparent Halloc.
    rewrite (set_parent_success ud st desc pnpinfo parentname) by assumption.
    cbn [fst]. apply adopted_parent_name, Halloc.
Qed.

(** * Further properties *)

(** ** The bitmaps and the classifier *)

(** X1.  [bit_is_set] reads bit [bit mod 64] of word [bit / 64], and
    [bit_find] answers true exactly when one of the codes from [start] up
    to, and not including, [stop] has its bit set. *)
Theorem bit_find_scans_its_range (array : list Z) (start stop : Z) :
  (forall bit : Z,
      bit_is_set array bit = Z.testbit (word_at array (bit / 64)) (bit mod 64))
  /\ (bit_find array start stop = true
      <-> exists code : Z, (start <= code < stop)%Z /\ bit_is_set array code = true).
Proof.
  split.
  - intros bit. apply bit_is_set_code_set.
  - rewrite bit_find_true_iff. split; intros (code & Hr & Hset); exists code;
      (split; [assumption|]); now rewrite bit_is_set_code_set in *.
Qed.

Lemma any_set_in_false (f : Z -> bool) (lo hi : Z) :
  any_set_in f lo hi = false
  <-> forall code : Z, (lo <= code < hi)%Z -> f code = false.
Proof.
  split.
  - intros Hnone code Hr. destruct (f code) eqn:Hset; [|reflexivity].
    now rewrite (any_set_in_intro f lo hi code Hr Hset) in Hnone.
  - intros Hall. destruct (any_set_in f lo hi) eqn:Hany; [|reflexivity].
    unfold any_set_in, codes_between in Hany.
    apply existsb_exists in Hany as (code & Hin & Hset).
    apply in_map_iff in Hin as (k & <- & Hk). apply in_seq in Hk.
    rewrite Hall in Hset by lia. discriminate.
Qed.

Lemma any_set_in_ext (f g : Z -> bool) (lo hi : Z) :
  (forall code : Z, (lo <= code < hi)%Z -> f code = g code) ->
  any_set_in f lo hi = any_set_in g lo hi.
Proof.
  intros Hext.
  destruct (any_set_in g lo hi) eqn:Hg.
  - unfold any_set_in, codes_between in Hg.
    apply existsb_exists in Hg as (code & Hin & Hset).
    apply in_map_iff in Hin as (k & <- & Hk). apply in_seq in Hk.
    apply (any_set_in_intro f lo hi (lo + Z.of_nat k)); [lia|].
    rewrite Hext by lia. assumption.
  - apply any_set_in_false. intros code Hr. rewrite Hext by assumption.
    now apply (proj1 (any_set_in_false g lo hi)).
Qed.

Lemma code_set_same_words (cnt : Z) (a b : list Z) (code : Z) :
  same_words (NLONGS cnt) a b -> (0 <= code < cnt)%Z -> code_set a code = code_set b code.
Proof.
  intros Hsame Hr. unfold code_set.
  pose proof (word_index_in_array cnt code Hr) as Hi. unfold LONG_BITS in Hi.
  now rewrite (Hsame (code / 64)%Z Hi).
Qed.

Lemma spec_classify_ext (key key' rel rel' abs abs' : Z -> bool) :
  (forall code : Z, (0 <= code < Input.KEY_CNT)%Z -> key code = key' code) ->
  (forall code : Z, (0 <= code < Input.REL_CNT)%Z -> rel code = rel' code) ->
  (forall code : Z, (0 <= code < Input.ABS_CNT)%Z -> abs code = abs' code) ->
  spec_classify key rel abs = spec_classify key' rel' abs'.
Proof.
  intros Hkey Hrel Habs.
  unfold spec_classify, spec_multitouch, spec_pointer, spec_fallback, summarize.
  cbn [has_keys has_buttons has_lmr has_rel_axes has_abs_axes has_multitouch].
  rewrite (any_set_in_ext key key' 0 Input.BTN_MISC)
    by (intros; apply Hkey; unfold Input.BTN_MISC, Input.KEY_CNT in *; lia).
  rewrite (any_set_in_ext key key' Input.BTN_MISC Input.BTN_JOYSTICK)
    by (intros; apply Hkey;
        unfold Input.BTN_MISC, Input.BTN_JOYSTICK, Input.KEY_CNT in *; lia).
  rewrite (any_set_in_ext rel rel' 0 Input.REL_CNT) by (intros; now apply Hrel).
  rewrite (any_set_in_ext abs abs' 0 Input.ABS_CNT) by (intros; now apply Habs).
  rewrite (any_set_in_ext abs abs' Input.ABS_MT_SLOT Input.ABS_CNT)
    by (intros; apply Habs; unfold Input.ABS_MT_SLOT, Input.ABS_CNT in *; lia).
  rewrite (Hkey Input.BTN_LEFT), (Hkey Input.BTN_RIGHT), (Hkey Input.BTN_MIDDLE),
    (Hkey Input.BTN_JOYSTICK), (Hkey Input.BTN_TOOL_PEN), (Hkey Input.BTN_STYLUS),
    (Hkey Input.BTN_STYLUS2), (Hkey Input.BTN_TOUCH), (Hkey Input.BTN_TOOL_FINGER),
    (Habs Input.ABS_X), (Habs Input.ABS_Y), (Habs Input.ABS_PRESSURE),
    (Hrel Input.REL_X), (Hrel Input.REL_Y);
    try reflexivity; (split; [apply Z.leb_le | apply Z.ltb_lt]; reflexivity).
Qed.

(** X2.  The classifier reads the arrays inside their declared sizes: two
    triples of arrays that agree on the first [NLONGS(KEY_CNT)] words of
    the key bitmap, [NLONGS(REL_CNT)] of the relative and [NLONGS(ABS_CNT)]
    of the absolute one classify alike, whatever lies behind. *)
Theorem classifier_reads_sized_arrays
    (key_bits key_bits' rel_bits rel_bits' abs_bits abs_bits' : list Z) :
  same_words (NLONGS Input.KEY_CNT) key_bits key_bits' ->
  same_words (NLONGS Input.REL_CNT) rel_bits rel_bits' ->
  same_words (NLONGS Input.ABS_CNT) abs_bits abs_bits' ->
  evdev_input_type key_bits rel_bits abs_bits
  = evdev_input_type key_bits' rel_bits' abs_bits'.
Proof.
  intros Hkey Hrel Habs. rewrite !evdev_input_type_spec.
  apply spec_classify_ext; intros code Hr.
  - now apply (code_set_same_words Input.KEY_CNT).
  - now apply (code_set_same_words Input.REL_CNT).
  - now apply (code_set_same_words Input.ABS_CNT).
Qed.

Ltac classifier_atoms key_bits rel_bits abs_bits :=
  unfold evdev_input_type, evdev_probe_abs;
  generalize (bit_find key_bits 0 Input.BTN_MISC);
  generalize (bit_find key_bits Input.BTN_MISC Input.BTN_JOYSTICK);
  generalize (bit_find key_bits Input.BTN_LEFT (Input.BTN_MIDDLE + 1));
  generalize (bit_find rel_bits 0 Input.REL_CNT);
  generalize (bit_find abs_bits 0 Input.ABS_CNT);
  generalize (bit_find abs_bits Input.ABS_MT_SLOT Input.ABS_CNT);
  generalize (bit_is_set key_bits Input.BTN_JOYSTICK);
  generalize (bit_is_set key_bits Input.BTN_TOOL_PEN);
  generalize (bit_is_set key_bits Input.BTN_STYLUS);
  generalize (bit_is_set key_bits Input.BTN_STYLUS2);
  generalize (bit_is_set key_bits Input.BTN_TOUCH);
  generalize (bit_is_set key_bits Input.BTN_TOOL_FINGER);
  generalize (bit_is_set abs_bits Input.ABS_PRESSURE);
  generalize (bit_is_set rel_bits Input.REL_X);
  generalize (bit_is_set rel_bits Input.REL_Y);
  generalize (bit_is_set abs_bits Input.ABS_X);
  generalize (bit_is_set abs_bits Input.ABS_Y);
  intros absy absx rely relx pressure finger touch stylus2 stylus pen joystick
    mt abs_axes rel_axes lmr buttons keys.

Lemma unclassified_summaries (key_bits rel_bits abs_bits : list Z) :
  evdev_input_type key_bits rel_bits abs_bits = IT_NONE
  <-> bit_find key_bits 0 Input.BTN_MISC = false
      /\ bit_find key_bits Input.BTN_MISC Input.BTN_JOYSTICK = false
      /\ bit_find rel_bits 0 Input.REL_CNT = false
      /\ bit_find abs_bits 0 Input.ABS_CNT = false.
Proof.
  classifier_atoms key_bits rel_bits abs_bits.
  destruct abs_axes; cbn.
  - split; [|intros (_ & _ & _ & Hf); discriminate Hf].
    intros Hnone. exfalso. revert Hnone.
    destruct mt, buttons; cbn; try destruct joystick; cbn; try discriminate;
      destruct absx, absy; cbn; try (destruct keys, rel_axes; discriminate);
      destruct pen, stylus, stylus2; cbn; try discriminate;
      destruct pressure, touch; cbn;
      try (destruct lmr, finger; discriminate);
      destruct relx, rely, lmr; cbn; try discriminate;
      destruct keys, rel_axes; discriminate.
  - destruct keys, rel_axes, buttons; cbn; split;
      try (intros Hnone; discriminate Hnone);
      try (intros (H1 & H2 & H3 & H4); discriminate); auto.
Qed.

(** X3.  The classifier leaves a device unclassified exactly when no key
    code below BTN_JOYSTICK, no relative code and no absolute code is set:
    keys and buttons from BTN_JOYSTICK on do not make an input device by
    themselves. *)
Theorem unclassified_iff_no_capability (key_bits rel_bits abs_bits : list Z) :
  evdev_input_type key_bits rel_bits abs_bits = IT_NONE
  <-> (forall code : Z, (0 <= code < Input.BTN_JOYSTICK)%Z ->
                        bit_is_set key_bits code = false)
      /\ (forall code : Z, (0 <= code < Input.REL_CNT)%Z ->
                           bit_is_set rel_bits code = false)
      /\ (forall code : Z, (0 <= code < Input.ABS_CNT)%Z ->
                           bit_is_set abs_bits code = false).
Proof.
  rewrite unclassified_summaries, !bit_find_any_set_in, !any_set_in_false.
  split.
  - intros (Hkeys & Hbuttons & Hrel & Habs). repeat split.
    + intros code Hr. rewrite bit_is_set_code_set.
      destruct (Z.lt_ge_cases code Input.BTN_MISC);
        [apply Hkeys | apply Hbuttons]; lia.
    + intros code Hr. rewrite bit_is_set_code_set. now apply Hrel.
    + intros code Hr. rewrite bit_is_set_code_set. now apply Habs.
  - intros (Hkey & Hrel & Habs). repeat split; intros code Hr;
      rewrite <- bit_is_set_code_set.
    + apply Hkey. unfold Input.BTN_MISC, Input.BTN_JOYSTICK in *. lia.
    + apply Hkey. unfold Input.BTN_MISC, Input.BTN_JOYSTICK in *. lia.
    + now apply Hrel.
    + now apply Habs.
Qed.

(** X4.  What a classification tells about the bitmaps.  Joystick: a
    multitouch axis, the joystick button and no button below it.  Tablet,
    Touchpad and Touchscreen: absolute X and Y; a pen or stylus bit for
    Tablet and none for the two others; for Touchpad pressure or touch
    together with left/middle/right or tool-finger, which a Touchscreen
    never has together with pressure or touch.  Keyboard: a key below
    BTN_MISC.  Mouse: no such key, and a relative axis, an absolute axis or
    a button.  None: no absolute axis. *)
Theorem classification_guarantees (key_bits rel_bits abs_bits : list Z) :
  match evdev_input_type key_bits rel_bits abs_bits with
  | IT_JOYSTICK =>
      bit_find abs_bits Input.ABS_MT_SLOT Input.ABS_CNT = true
      /\ bit_is_set key_bits Input.BTN_JOYSTICK = true
      /\ bit_find key_bits Input.BTN_MISC Input.BTN_JOYSTICK = false
  | IT_TABLET =>
      bit_is_set abs_bits Input.ABS_X = true
      /\ bit_is_set abs_bits Input.ABS_Y = true
      /\ bit_is_set key_bits Input.BTN_TOOL_PEN
         || bit_is_set key_bits Input.BTN_STYLUS
         || bit_is_set key_bits Input.BTN_STYLUS2 = true
  | IT_TOUCHPAD =>
      bit_is_set abs_bits Input.ABS_X = true
      /\ bit_is_set abs_bits Input.ABS_Y = true
      /\ bit_is_set key_bits Input.BTN_TOOL_PEN
         || bit_is_set key_bits Input.BTN_STYLUS
         || bit_is_set key_bits Input.BTN_STYLUS2 = false
      /\ bit_is_set abs_bits Input.ABS_PRESSURE
         || bit_is_set key_bits Input.BTN_TOUCH = true
      /\ bit_find key_bits Input.BTN_LEFT (Input.BTN_MIDDLE + 1)
         || bit_is_set key_bits Input.BTN_TOOL_FINGER = true
  | IT_TOUCHSCREEN =>
      bit_is_set abs_bits Input.ABS_X = true
      /\ bit_is_set abs_bits Input.ABS_Y = true
      /\ bit_is_set key_bits Input.BTN_TOOL_PEN
         || bit_is_set key_bits Input.BTN_STYLUS
         || bit_is_set key_bits Input.BTN_STYLUS2 = false
      /\ bit_is_set key_bits Input.BTN_TOOL_FINGER
         && (bit_is_set abs_bits Input.ABS_PRESSURE
             || bit_is_set key_bits Input.BTN_TOUCH) = false
  | IT_KEYBOARD => bit_find key_bits 0 Input.BTN_MISC = true
  | IT_MOUSE =>
      bit_find key_bits 0 Input.BTN_MISC = false
      /\ bit_find rel_bits 0 Input.REL_CNT
         || bit_find abs_bits 0 Input.ABS_CNT
         || bit_find key_bits Input.BTN_MISC Input.BTN_JOYSTICK = true
  | IT_NONE => bit_find abs_bits 0 Input.ABS_CNT = false
  end.
Proof.
  classifier_atoms key_bits rel_bits abs_bits.
  destruct abs_axes; cbn.
  - destruct mt, buttons; cbn; try destruct joystick; cbn; try (now repeat split);
      destruct absx, absy; cbn;
      try (destruct keys; cbn; rewrite ?orb_true_r; now repeat split);
      destruct pen, stylus, stylus2; cbn; try (now repeat split);
      destruct pressure, touch; cbn;
      try (destruct lmr, finger; cbn; now repeat split);
      destruct relx, rely, lmr; cbn; rewrite ?andb_false_r;
      try (now repeat split);
      destruct keys; cbn; rewrite ?orb_true_r; now repeat split.
  - destruct keys; cbn; [reflexivity|].
    destruct rel_axes, buttons; cbn; now repeat split.
Qed.

(** ** The handler of the event nodes *)

(** X5.  [create_evdev_handler] closes the descriptor exactly when it has
    opened it itself, on every way out: a descriptor that [path_to_fd]
    supplied is never closed, and nothing is closed when [open] fails.  The
    handler asks no sysctl and leaves the cache of the gate alone. *)
Theorem evdev_handler_closes_what_it_opened (ud : udev_device) (st : proc) :
  snd (create_evdev_handler ud st)
  = if (h_path_to_fd H (udev_device_get_devnode ud) =? -1)%Z
       && negb (h_open H (udev_device_get_devnode ud) =? -1)%Z
    then close (h_open H (udev_device_get_devnode ud)) st
    else st.
Proof.
  unfold create_evdev_handler.
  destruct (h_path_to_fd H (udev_device_get_devnode ud) =? -1)%Z eqn:Hfd; cbn [andb].
  - destruct (h_open H (udev_device_get_devnode ud) =? -1)%Z; cbn [negb];
      [reflexivity|].
    repeat case_match; reflexivity.
  - rewrite Hfd. repeat case_match; reflexivity.
Qed.

(** X6.  When no descriptor can be had, or when one of the ioctls for the
    name, the identity or a bitmap fails, or the one for the physical
    location fails otherwise than with ENOENT, the handler leaves the
    device as it was. *)
Theorem evdev_handler_gives_up_silently (ud : udev_device) (st : proc) :
  evdev_fd ud = (-1)%Z
  \/ ev_name (h_ioctl H (evdev_fd ud)) = None
  \/ ev_phys (h_ioctl H (evdev_fd ud)) = PhysFail
  \/ ev_id (h_ioctl H (evdev_fd ud)) = None
  \/ ev_rel (h_ioctl H (evdev_fd ud)) = None
  \/ ev_abs (h_ioctl H (evdev_fd ud)) = None
  \/ ev_key (h_ioctl H (evdev_fd ud)) = None ->
  fst (create_evdev_handler ud st) = ud.
Proof.
  unfold create_evdev_handler, evdev_fd. intros Hfail.
  destruct (h_path_to_fd H (udev_device_get_devnode ud) =? -1)%Z eqn:Hfd.
  - destruct (Z.eqb_spec (h_open H (udev_device_get_devnode ud)) (-1)) as [|Hopen];
      [reflexivity|].
    destruct Hfail as [Hf|[Hf|[Hf|[Hf|[Hf|[Hf|Hf]]]]]];
      [contradiction | rewrite Hf ..]; repeat case_match; reflexivity.
  - rewrite Hfd.
    destruct Hfail as [Hf|[Hf|[Hf|[Hf|[Hf|[Hf|Hf]]]]]];
      [apply Z.eqb_neq in Hfd; contradiction | rewrite Hf ..];
      repeat case_match; reflexivity.
Qed.

Lemma create_evdev_handler_detected (ud : udev_device) (st : proc)
    (name phys : string) (id : input_id) (key_bits rel_bits abs_bits : list Z) :
  evdev_fd ud <> (-1)%Z ->
  ev_name (h_ioctl H (evdev_fd ud)) = Some name ->
  evdev_phys (h_ioctl H (evdev_fd ud)) = Some phys ->
  ev_id (h_ioctl H (evdev_fd ud)) = Some id ->
  ev_rel (h_ioctl H (evdev_fd ud)) = Some rel_bits ->
  ev_abs (h_ioctl H (evdev_fd ud)) = Some abs_bits ->
  ev_key (h_ioctl H (evdev_fd ud)) = Some key_bits ->
  evdev_input_type key_bits rel_bits abs_bits <> IT_NONE ->
  fst (create_evdev_handler ud st)
  = adopt (snd (set_input_device_type ud
                  (evdev_input_type key_bits rel_bits abs_bits)))
      (create_xorg_parent
         (snd (set_input_device_type ud
                 (evdev_input_type key_bits rel_bits abs_bits)))
         (evdev_sysname phys) (strip_name name) (Some (evdev_product id)) None).
Proof.
  unfold create_evdev_handler, evdev_fd, evdev_phys, evdev_sysname.
  intros Hfd Hname Hphys Hid Hrel Habs Hkey Htype.
  destruct (h_path_to_fd H (udev_device_get_devnode ud) =? -1)%Z eqn:Hpath.
  - destruct (Z.eqb_spec (h_open H (udev_device_get_devnode ud)) (-1));
      [contradiction|].
    rewrite Hname, Hid, Hrel, Habs, Hkey.
    destruct (ev_phys (h_ioctl H (h_open H (udev_device_get_devnode ud))));
      try discriminate; injection Hphys as <-;
      destruct (evdev_input_type key_bits rel_bits abs_bits);
      try contradiction; reflexivity.
  - rewrite Hpath, Hname, Hid, Hrel, Habs, Hkey.
    destruct (ev_phys (h_ioctl H (h_path_to_fd H (udev_device_get_devnode ud))));
      try discriminate; injection Hphys as <-;
      destruct (evdev_input_type key_bits rel_bits abs_bits);
      try contradiction; reflexivity.
Qed.

Lemma fmt_x_uint16_length (v : Z) :
  (0 <= v < 2 ^ 16)%Z -> String.length (fmt_x v) <= 4.
Proof.
  intros Hv. unfold fmt_x.
  assert (Hv' : (0 <= v < 16 ^ Z.of_nat 4)%Z).
  { change (16 ^ Z.of_nat 4)%Z with 65536%Z.
    change (2 ^ 16)%Z with 65536%Z in Hv. lia. }
  pose proof (hex_digits_length 16 4 v "" Hv' ltac:(lia)) as Hl.
  change (String.length "") with 0 in Hl. lia.
Qed.

Lemma evdev_product_text (id : input_id) :
  (0 <= bustype id < 2 ^ 16)%Z -> (0 <= vendor id < 2 ^ 16)%Z ->
  (0 <= product id < 2 ^ 16)%Z -> (0 <= version id < 2 ^ 16)%Z ->
  evdev_product id
  = fmt_x (bustype id) ++ "/" ++ fmt_x (vendor id) ++ "/"
    ++ fmt_x (product id) ++ "/" ++ fmt_x (version id).
Proof.
  intros Hb Hv Hp Hr. unfold evdev_product. apply snprintf_fits.
  rewrite !string_length_app.
  pose proof (fmt_x_uint16_length _ Hb). pose proof (fmt_x_uint16_length _ Hv).
  pose proof (fmt_x_uint16_length _ Hp). pose proof (fmt_x_uint16_length _ Hr).
  cbn [String.length]. lia.
Qed.

(** X7.  When the node answers and its bitmaps classify, and the parent can
    be allocated, the device gets the markers of the classification and a
    parent named after the physical location, or uinput when that string
    is empty.  The parent carries as PRODUCT the four 16-bit fields of the
    identity in hexadecimal, bus/vendor/product/version, uncut, and it has
    no [id] attribute. *)
Theorem evdev_parent_identity (ud : udev_device) (st : proc)
    (name phys : string) (id : input_id) (key_bits rel_bits abs_bits : list Z) :
  evdev_fd ud <> (-1)%Z ->
  ev_name (h_ioctl H (evdev_fd ud)) = Some name ->
  evdev_phys (h_ioctl H (evdev_fd ud)) = Some phys ->
  ev_id (h_ioctl H (evdev_fd ud)) = Some id ->
  ev_rel (h_ioctl H (evdev_fd ud)) = Some rel_bits ->
  ev_abs (h_ioctl H (evdev_fd ud)) = Some abs_bits ->
  ev_key (h_ioctl H (evdev_fd ud)) = Some key_bits ->
  evdev_input_type key_bits rel_bits abs_bits <> IT_NONE ->
  (0 <= bustype id < 2 ^ 16)%Z -> (0 <= vendor id < 2 ^ 16)%Z ->
  (0 <= product id < 2 ^ 16)%Z -> (0 <= version id < 2 ^ 16)%Z ->
  h_alloc H (evdev_sysname phys) = true ->
  ud_properties (fst (create_evdev_handler ud st))
  = ud_properties (snd (set_input_device_type ud
                          (evdev_input_type key_bits rel_bits abs_bits)))
  /\ exists parent : udev_device,
      ud_parent (fst (create_evdev_handler ud st)) = Some parent
      /\ ud_syspath parent
         = match cstr phys with EmptyString => "uinput" | _ => cstr phys end
      /\ ud_properties parent !! "PRODUCT"
         = Some (Some (fmt_x (bustype id) ++ "/" ++ fmt_x (vendor id) ++ "/"
                       ++ fmt_x (product id) ++ "/" ++ fmt_x (version id)))
      /\ ud_sysattrs parent !! "id" = None.
Proof.
  intros Hfd Hname Hphys Hid Hrel Habs Hkey Htype Hb Hv Hp Hr Halloc.
  rewrite (create_evdev_handler_detected ud st name phys id key_bits rel_bits abs_bits)
    by assumption.
  rewrite adopt_properties. split; [reflexivity|].
  match goal with
  | |- context [create_xorg_parent ?u ?s ?n ?p ?i] =>
      pose proof (create_xorg_parent_lists u s n p i) as Hlists;
      destruct (create_xorg_parent u s n p i) as [parent|]
  end; [|congruence].
  destruct Hlists as (_ & Hpath & _ & _ & _ & Hproduct & Hidattr).
  exists parent. split; [reflexivity|]. split; [exact Hpath|].
  split; [|exact Hidattr].
  rewrite Hproduct. now rewrite evdev_product_text.
Qed.

(** ** Names, unit numbers and the blob *)

Lemma strip_name_cons (c : ascii) (s : string) :
  strip_name (String c s)
  = if Ascii.eqb c "," || Ascii.eqb c NUL then "" else String c (strip_name s).
Proof.
  unfold strip_name. cbn [strchrnul].
  destruct (Ascii.eqb c ",") eqn:Hcomma; cbn [poke_nul cstr orb].
  - reflexivity.
  - now destruct (Ascii.eqb c NUL).
Qed.

(** X9.  The display name holds no comma, it is the beginning of the name
    it is cut from, and cutting it again changes nothing. *)
Theorem display_name_is_a_comma_free_prefix (name : string) :
  contains "," (strip_name name) = false
  /\ (exists rest : string, cstr name = strip_name name ++ rest)
  /\ strip_name (strip_name name) = strip_name name.
Proof.
  induction name as [|c name (Hfree & (rest & Hrest) & Hidem)].
  - repeat split. now exists "".
  - rewrite strip_name_cons.
    destruct (Ascii.eqb c ",") eqn:Hcomma; cbn [orb].
    + repeat split. now exists (cstr (String c name)).
    + destruct (Ascii.eqb c NUL) eqn:Hnul.
      * repeat split. exists "". cbn [cstr]. now rewrite Hnul.
      * split; [|split].
        -- rewrite contains_cons, Hfree, (Ascii.eqb_sym "," c), Hcomma. reflexivity.
        -- exists rest. cbn [cstr]. rewrite Hnul, Hrest. reflexivity.
        -- rewrite strip_name_cons, Hcomma, Hnul. cbn [orb]. now rewrite Hidem.
Qed.

Lemma string_drop_empty (n : nat) : string_drop n "" = "".
Proof. now destruct n. Qed.

Lemma string_take_empty (n : nat) : string_take n "" = "".
Proof. now destruct n. Qed.

Lemma string_take_cons (n : nat) (c : ascii) (s : string) :
  string_take (S n) (String c s) = String c (string_take n s).
Proof. reflexivity. Qed.

Lemma string_take_drop (n : nat) (s : string) :
  string_take n s ++ string_drop n s = s.
Proof.
  revert s. induction n as [|n IH]; intros [|c s]; try reflexivity.
  rewrite string_take_cons. cbn [string_drop].
  change (String c (string_take n s) ++ string_drop n s)
    with (String c (string_take n s ++ string_drop n s)).
  now rewrite IH.
Qed.

Lemma string_take_length (n : nat) (s : string) :
  String.length (string_take n s) = Nat.min n (String.length s).
Proof.
  revert s. induction n as [|n IH]; intros [|c s]; try reflexivity.
  rewrite string_take_cons. cbn [String.length]. now rewrite IH.
Qed.

Lemma string_drop_length (n : nat) (s : string) :
  String.length (string_drop n s) = String.length s - n.
Proof.
  revert s. induction n as [|n IH]; intros [|c s]; cbn [string_drop String.length];
    try reflexivity; try lia. apply IH.
Qed.

Lemma get_string_drop (n i : nat) (s : string) :
  String.get i (string_drop n s) = String.get (n + i) s.
Proof.
  revert s. induction n as [|n IH]; intros [|c s]; cbn [string_drop Nat.add];
    try reflexivity.
  apply IH.
Qed.

Lemma get_string_take (n i : nat) (s : string) :
  i < n -> String.get i (string_take n s) = String.get i s.
Proof.
  revert i s. induction n as [|n IH]; intros i [|c s] Hi; try lia; try reflexivity.
  rewrite string_take_cons. destruct i as [|i]; [reflexivity|].
  cbn [String.get]. apply IH. lia.
Qed.

Lemma get_in_range (i : nat) (s : string) :
  i < String.length s -> exists c : ascii, String.get i s = Some c.
Proof.
  revert i. induction s as [|d s IH]; intros i Hi; cbn [String.length] in Hi; [lia|].
  destruct i as [|i]; [now exists d|]. cbn [String.get]. apply IH. lia.
Qed.

Lemma all_digits_get (s : string) :
  all_digits s = true
  <-> forall (i : nat) (c : ascii), String.get i s = Some c -> is_decimal c = true.
Proof.
  unfold all_digits. induction s as [|d s IH]; cbn [list_ascii_of_string forallb].
  - split; [intros _ i c Hget; destruct i; discriminate | reflexivity].
  - rewrite andb_true_iff, IH. split.
    + intros [Hd Hs] [|i] c Hget; cbn [String.get] in Hget.
      * now injection Hget as <-.
      * now apply (Hs i).
    + intros Hall. split; [now apply (Hall 0) | intros i c Hget; now apply (Hall (S i))].
Qed.

Lemma last_char_get (s : string) :
  last_char s = String.get (String.length s - 1) s.
Proof.
  destruct s as [|c s]; [reflexivity|].
  rewrite <- get_last_char. cbn [String.length]. now rewrite Nat.sub_1_r.
Qed.

(** What the loop of [syspathlen_wo_units] has established when it
    stops. *)
Lemma syspathlen_loop_spec (path : string) (len : nat) :
  len <= String.length path ->
  (forall (i : nat) (c : ascii),
      syspathlen_loop path len <= i < len -> String.get i path = Some c ->
      is_decimal c = true)
  /\ (forall c : ascii,
         0 < syspathlen_loop path len ->
         String.get (syspathlen_loop path len - 1) path = Some c ->
         is_decimal c = false).
Proof.
  induction len as [|len IH]; intros Hlen; cbn [syspathlen_loop].
  - split; [intros i c Hi; lia | intros c Hpos; lia].
  - destruct (get_in_range len path ltac:(lia)) as (d & Hd). rewrite Hd.
    rewrite is_unit_digit_range. fold (is_decimal d).
    destruct (is_decimal d) eqn:Hdigit.
    + destruct (IH ltac:(lia)) as (Hsuffix & Hbefore). split; [|exact Hbefore].
      intros i c Hi Hget.
      destruct (Nat.eq_dec i len) as [->|Hne]; [congruence|].
      apply (Hsuffix i c); [lia | assumption].
    + split; [intros i c Hi; lia|].
      intros c _. cbn [Nat.sub]. rewrite Nat.sub_0_r, Hd. congruence.
Qed.

(** X10.  [syspathlen_wo_units] cuts a name in two: what follows the
    returned length is made of decimal digits only and what precedes it
    does not end in a digit, so the unit number is the longest run of
    digits at the end of the name, and driver name and unit put together
    give the name back. *)
Theorem unit_number_is_the_trailing_digits (sysname : string) :
  syspathlen_wo_units sysname <= String.length sysname
  /\ string_take (syspathlen_wo_units sysname) sysname
     ++ string_drop (syspathlen_wo_units sysname) sysname = sysname
  /\ all_digits (string_drop (syspathlen_wo_units sysname) sysname) = true
  /\ ends_with_digit (string_take (syspathlen_wo_units sysname) sysname) = false.
Proof.
  pose proof (syspathlen_loop_le sysname (String.length sysname)) as Hle.
  destruct (syspathlen_loop_spec sysname (String.length sysname) ltac:(lia))
    as (Hsuffix & Hbefore).
  fold (syspathlen_wo_units sysname) in Hle, Hsuffix, Hbefore.
  split; [exact Hle|]. split; [apply string_take_drop|]. split.
  - apply all_digits_get. intros i c Hget. rewrite get_string_drop in Hget.
    apply (Hsuffix (syspathlen_wo_units sysname + i) c); [|assumption].
    split; [lia|].
    destruct (Nat.lt_ge_cases (syspathlen_wo_units sysname + i) (String.length sysname))
      as [|Hge]; [assumption|].
    assert (Hnone : String.get (syspathlen_wo_units sysname + i) sysname = None).
    { clear -Hge. revert Hge. generalize (syspathlen_wo_units sysname + i).
      induction sysname as [|d s IH]; intros [|n] Hn; cbn [String.length] in Hn;
        try reflexivity; try lia.
      cbn [String.get]. apply IH. lia. }
    congruence.
  - unfold ends_with_digit. rewrite last_char_get, string_take_length.
    rewrite Nat.min_l by exact Hle.
    destruct (syspathlen_wo_units sysname) as [|n] eqn:Hn; [now destruct sysname|].
    rewrite get_string_take by lia.
    destruct (String.get (S n - 1) sysname) as [c|] eqn:Hget; [|reflexivity].
    apply (Hbefore c); [lia | reflexivity].
Qed.

Lemma string_drop_poke_before (s : string) (n q : nat) :
  q <= n -> string_drop q (poke_nul s n) = poke_nul (string_drop q s) (n - q).
Proof.
  revert n q. induction s as [|c s IH]; intros n q Hq.
  - cbn [poke_nul]. now rewrite string_drop_empty.
  - destruct q as [|q]; [now rewrite Nat.sub_0_r|].
    destruct n as [|n]; [lia|].
    cbn [poke_nul string_drop Nat.sub]. apply IH. lia.
Qed.

Lemma string_drop_poke_behind (s : string) (n q : nat) :
  n < q -> string_drop q (poke_nul s n) = string_drop q s.
Proof.
  revert n q. induction s as [|c s IH]; intros n q Hq.
  - reflexivity.
  - destruct q as [|q]; [lia|].
    destruct n as [|n]; cbn [poke_nul string_drop]; [reflexivity|].
    apply IH. lia.
Qed.

Lemma cstr_poke_nul (s : string) (n : nat) :
  contains NUL s = false -> cstr (poke_nul s n) = string_take n s.
Proof.
  revert n. induction s as [|c s IH]; intros n Hnul.
  - now rewrite string_take_empty.
  - rewrite contains_cons in Hnul. apply orb_false_iff in Hnul as [Hc Hs].
    destruct n as [|n]; cbn [poke_nul cstr].
    + now rewrite Ascii.eqb_refl.
    + rewrite Ascii.eqb_sym, Hc, string_take_cons. now rewrite IH.
Qed.

Lemma contains_string_drop (c : ascii) (n : nat) (s : string) :
  contains c s = false -> contains c (string_drop n s) = false.
Proof.
  revert s. induction n as [|n IH]; intros [|d s] Hc; try assumption; try reflexivity.
  rewrite contains_cons in Hc. apply orb_false_iff in Hc as [_ Hs].
  cbn [string_drop]. now apply IH.
Qed.

(** X11.  When the _HID value is kept, the terminator goes right behind
    it: in a blob without NUL the id handed on reads exactly the [pnplen]
    characters of the value, a string that starts at or before the end of
    the value now stops there, and a string that starts behind it reads as
    before. *)
Theorem kept_id_reads_as_the_value (pnpinfo : string) (hid : option (nat * nat))
    (p pnplen : nat) :
  contains NUL pnpinfo = false ->
  fst (retain_pnp_id pnpinfo hid) = Some (p, pnplen) ->
  cstr_at (snd (retain_pnp_id pnpinfo hid)) p = string_take pnplen (string_drop p pnpinfo)
  /\ (forall q : nat,
         q <= p + pnplen ->
         cstr_at (snd (retain_pnp_id pnpinfo hid)) q
         = string_take (p + pnplen - q) (string_drop q pnpinfo))
  /\ (forall q : nat,
         p + pnplen < q ->
         cstr_at (snd (retain_pnp_id pnpinfo hid)) q = cstr_at pnpinfo q).
Proof.
  intros Hnul Hkept.
  assert (Hpoke : snd (retain_pnp_id pnpinfo hid) = poke_nul pnpinfo (p + pnplen)).
  { unfold retain_pnp_id in *. destruct hid as [[p' l']|]; [|discriminate].
    destruct (Nat.eqb l' 4 && strncmp_eq (cstr_at pnpinfo p') "none" 4);
      [discriminate|].
    cbn [fst snd] in *. now injection Hkept as -> ->. }
  rewrite Hpoke.
  assert (Hbefore : forall q, q <= p + pnplen ->
            cstr_at (poke_nul pnpinfo (p + pnplen)) q
            = string_take (p + pnplen - q) (string_drop q pnpinfo)).
  { intros q Hq. unfold cstr_at. rewrite string_drop_poke_before by assumption.
    apply cstr_poke_nul. now apply contains_string_drop. }
  split; [|split].
  - rewrite Hbefore by lia. f_equal. lia.
  - exact Hbefore.
  - intros q Hq. unfold cstr_at. now rewrite string_drop_poke_behind.
Qed.

(** ** [set_parent] *)

Lemma string_app_assoc (a b c : string) : (a ++ b) ++ c = a ++ (b ++ c).
Proof.
  induction a as [|x a IH]; [reflexivity|].
  change ((String x a ++ b) ++ c) with (String x ((a ++ b) ++ c)).
  change (String x a ++ (b ++ c)) with (String x (a ++ (b ++ c))).
  now rewrite IH.
Qed.

Lemma string_take_app (n : nat) (a b : string) :
  n <= String.length a -> string_take n (a ++ b) = string_take n a.
Proof.
  revert a. induction n as [|n IH]; intros [|x a] Hn; cbn [String.length] in Hn;
    try lia.
  - now destruct b.
  - reflexivity.
  - change (String x a ++ b) with (String x (a ++ b)).
    rewrite !string_take_cons. rewrite IH by lia. reflexivity.
Qed.

Lemma unit_mib_text (sysname key : string) :
  unit_mib sysname key
  = string_take 31
      (("dev." ++ string_take (syspathlen_wo_units sysname) sysname ++ "."
        ++ string_drop (syspathlen_wo_units sysname) sysname) ++ key).
Proof.
  unfold unit_mib, snprintf.
  rewrite Nat.add_1_r. cbn [Nat.pred]. f_equal.
  rewrite !string_app_assoc. reflexivity.
Qed.

Lemma unit_prefix_length (sysname : string) :
  String.length ("dev." ++ string_take (syspathlen_wo_units sysname) sysname ++ "."
                 ++ string_drop (syspathlen_wo_units sysname) sysname)
  = 5 + String.length sysname.
Proof.
  pose proof (syspathlen_loop_le sysname (String.length sysname)) as Hle.
  fold (syspathlen_wo_units sysname) in Hle.
  rewrite !string_length_app, string_take_length, string_drop_length.
  cbn [String.length]. lia.
Qed.

(** X12.  The names asked of the device tree are built in 32 bytes.  For a
    short name and key of at most 26 characters together the name is whole:
    dev, the driver, the unit and the key, separated by periods.  For a
    short name of 26 characters or more nothing of the key is left, so the
    three queries of [set_parent] ask for one and the same name. *)
Theorem unit_mib_bounds (sysname key : string) :
  (String.length sysname + String.length key <= 26 ->
   unit_mib sysname key
   = "dev." ++ string_take (syspathlen_wo_units sysname) sysname ++ "."
     ++ string_drop (syspathlen_wo_units sysname) sysname ++ key)
  /\ (26 <= String.length sysname ->
      forall key' : string, unit_mib sysname key = unit_mib sysname key').
Proof.
  split.
  - intros Hshort. rewrite unit_mib_text.
    rewrite string_take_all.
    + now rewrite !string_app_assoc.
    + rewrite string_length_app, unit_prefix_length. lia.
  - intros Hlong key'. rewrite !unit_mib_text.
    rewrite (string_take_app 31 _ key) by (rewrite unit_prefix_length; lia).
    rewrite (string_take_app 31 _ key') by (rewrite unit_prefix_length; lia).
    reflexivity.
Qed.

Lemma adopt_fields (ud : udev_device) (parent : option udev_device) :
  ud_syspath (adopt ud parent) = ud_syspath ud
  /\ ud_properties (adopt ud parent) = ud_properties ud
  /\ ud_sysattrs (adopt ud parent) = ud_sysattrs ud.
Proof. now destruct parent. Qed.

Lemma set_parent_fields (ud : udev_device) (st : proc) :
  ud_syspath (fst (set_parent ud st)) = ud_syspath ud
  /\ ud_properties (fst (set_parent ud st)) = ud_properties ud
  /\ ud_sysattrs (fst (set_parent ud st)) = ud_sysattrs ud
  /\ enabled (snd (set_parent ud st)) = enabled st
  /\ closed (snd (set_parent ud st)) = closed st
  /\ (ud_parent (fst (set_parent ud st)) = ud_parent ud
      \/ exists parent : udev_device,
          ud_parent (fst (set_parent ud st)) = Some parent
          /\ ud_syspath parent = udev_device_get_sysname ud
          /\ ud_parent parent = None).
Proof.
  unfold set_parent, sysctlbyname.
  destruct (Nat.eqb (String.length (udev_device_get_sysname ud))
              (syspathlen_wo_units (udev_device_get_sysname ud)));
    [repeat split; now left|].
  destruct (sysctl_string _ 80); [|repeat split; now left].
  destruct (sysctl_string _ 1024); [|repeat split; now left].
  destruct (sysctl_string _ 80); [|repeat split; now left].
  destruct (retain_pnp_id _ _) as [pnp_id pnpinfo].
  cbn [fst snd enabled closed ask].
  match goal with
  | |- context [create_xorg_parent ?u ?s ?n ?p ?i] =>
      pose proof (create_xorg_parent_lists u s n p i) as Hlists;
      destruct (create_xorg_parent u s n p i) as [parent|]
  end; cbn [adopt udev_device_set_parent ud_syspath ud_properties ud_sysattrs ud_parent].
  - repeat split. right. exists parent. split; [reflexivity|].
    split; apply Hlists.
  - repeat split. now left.
Qed.

(** X13.  Whatever the kernel answers, [set_parent] leaves the path, the
    properties and the attributes of the device as they are, closes no
    descriptor and does not touch the cache of the gate; the parent of the
    device is the one it had, or a new object without parent that is named
    like the device. *)
Theorem set_parent_touches_only_the_parent (ud : udev_device) (st : proc) :
  ud_syspath (fst (set_parent ud st)) = ud_syspath ud
  /\ ud_properties (fst (set_parent ud st)) = ud_properties ud
  /\ ud_sysattrs (fst (set_parent ud st)) = ud_sysattrs ud
  /\ enabled (snd (set_parent ud st)) = enabled st
  /\ closed (snd (set_parent ud st)) = closed st
  /\ (ud_parent (fst (set_parent ud st)) = ud_parent ud
      \/ exists parent : udev_device,
          ud_parent (fst (set_parent ud st)) = Some parent
          /\ ud_syspath parent = udev_device_get_sysname ud
          /\ ud_parent parent = None).
Proof. apply set_parent_fields. Qed.

(** X14.  When the name has a unit number and the three queries succeed,
    [set_parent] has asked for the description, the blob and the parent
    name, in this order and nothing else.  If the parent cannot be
    allocated the device is left as it was; if it can, the device gets a
    parent named like itself, whose [id] attribute is missing exactly when
    no _HID value was kept. *)
Theorem set_parent_asks_three_names (ud : udev_device) (st : proc)
    (desc pnpinfo parentname : string) :
  ends_with_digit (udev_device_get_sysname ud) = true ->
  sysctl_string (unit_mib (udev_device_get_sysname ud) ".%desc") 80 = Some desc ->
  sysctl_string (unit_mib (udev_device_get_sysname ud) ".%pnpinfo") 1024 = Some pnpinfo ->
  sysctl_string (unit_mib (udev_device_get_sysname ud) ".%parent") 80 = Some parentname ->
  asked (snd (set_parent ud st))
  = unit_mib (udev_device_get_sysname ud) ".%parent"
    :: unit_mib (udev_device_get_sysname ud) ".%pnpinfo"
    :: unit_mib (udev_device_get_sysname ud) ".%desc"
    :: asked st
  /\ (h_alloc H (udev_device_get_sysname ud) = false ->
      fst (set_parent ud st) = ud)
  /\ (h_alloc H (udev_device_get_sysname ud) = true ->
      exists parent : udev_device,
        ud_parent (fst (set_parent ud st)) = Some parent
        /\ ud_syspath parent = udev_device_get_sysname ud
        /\ (ud_sysattrs parent !! "id" = None
            <-> fst (retain_pnp_id pnpinfo (get_kern_prop_value pnpinfo "_HID")) = None)).
Proof.
  intros Hunit Hdesc Hpnp Hparent.
  rewrite (set_parent_success ud st desc pnpinfo parentname) by assumption.
  cbn [fst snd asked ask]. split; [reflexivity|].
  match goal with
  | |- context [create_xorg_parent ?u ?s ?n ?p ?i] =>
      pose proof (create_xorg_parent_lists u s n p i) as Hlists;
      destruct (create_xorg_parent u s n p i) as [parent|]
  end.
  - destruct Hlists as (Halloc & Hpath & _ & _ & _ & _ & Hid). split; [congruence|].
    intros _. exists parent. split; [reflexivity|]. split; [exact Hpath|].
    rewrite Hid.
    destruct (fst (retain_pnp_id pnpinfo (get_kern_prop_value pnpinfo "_HID")));
      cbn [option_map]; split; congruence.
  - split; [reflexivity | congruence].
Qed.

(** ** The rule table and dispatch *)

Lemma prefix4_of_match (pat path : string) :
  glob_literal DEV_PATH_ROOT = true ->
  In pat ["/input/event[0-9]*"; "/ukbd[0-9]*"; "/atkbd[0-9]*"; "/kbdmux[0-9]*";
          "/ums[0-9]*"; "/psm[0-9]*"; "/joy[0-9]*"; "/atp[0-9]*"; "/wsp[0-9]*";
          "/uep[0-9]*"; "/sysmouse"; "/vboxguest"] ->
  fnmatch (DEV_PATH_ROOT ++ pat) path = 0%Z ->
  exists rest : string,
    path = DEV_PATH_ROOT ++ rest /\ string_take 4 rest = string_take 4 pat.
Proof.
  intros Hlit Hin Hm.
  apply fnmatch_literal_root in Hm as (rest & -> & Hm); [|assumption].
  exists rest. split; [reflexivity|].
  cbn [In] in Hin.
  repeat (destruct Hin as [<-|Hin]; [|try contradiction]);
    (match type of Hm with
     | glob_match ?parsed _ = _ =>
         let items := eval vm_compute in parsed in change parsed with items in Hm
     end;
     destruct rest as [|c1 [|c2 [|c3 [|c4 rest]]]]; cbn [glob_match] in Hm;
     rewrite ?andb_false_r in Hm; try discriminate Hm;
     apply andb_true_iff in Hm as [H1 Hm]; apply andb_true_iff in Hm as [H2 Hm];
     apply andb_true_iff in Hm as [H3 Hm]; apply andb_true_iff in Hm as [H4 _];
     apply Ascii.eqb_eq in H1, H2, H3, H4; subst; now destruct rest).
Qed.

Lemma rule_in_table (r : subsystem_config) :
  In r subsystems ->
  subsystem r = "input"
  /\ (exists h : handler, create_handler r = Some h)
  /\ exists pat : string,
      syspath r = DEV_PATH_ROOT ++ pat
      /\ In pat ["/input/event[0-9]*"; "/ukbd[0-9]*"; "/atkbd[0-9]*"; "/kbdmux[0-9]*";
                 "/ums[0-9]*"; "/psm[0-9]*"; "/joy[0-9]*"; "/atp[0-9]*"; "/wsp[0-9]*";
                 "/uep[0-9]*"; "/sysmouse"; "/vboxguest"]
      /\ forall r' : subsystem_config,
          In r' subsystems -> syspath r' = DEV_PATH_ROOT ++ pat -> r' = r.
Proof.
  unfold subsystems.
  destruct HAVE_LINUX_INPUT_H; cbn [app In]; intros Hin;
    repeat (destruct Hin as [<-|Hin]; [|try contradiction]);
    (split; [reflexivity|]; split; [eexists; reflexivity|];
     eexists; split; [reflexivity|]; split;
     [cbn [In]; repeat (first [left; reflexivity | right])|];
     intros r' Hin' Hpat; cbn [syspath] in Hpat;
     repeat (destruct Hin' as [<-|Hin']; [|try contradiction]);
     cbn [syspath] in Hpat; try reflexivity;
     apply string_app_inv_head in Hpat; discriminate Hpat).
Qed.

Lemma resolved_rule_in_table (path : string) (sc : subsystem_config) :
  get_subsystem_config_by_syspath path = Some sc ->
  In sc subsystems /\ fnmatch (syspath sc) path = 0%Z.
Proof.
  intros Hsc. unfold get_subsystem_config_by_syspath in Hsc.
  pose proof (scan_subsystems_first subsystems path) as Hfirst.
  rewrite Hsc in Hfirst. destruct Hfirst as (before & after & Htable & Hm & _).
  split; [|assumption]. rewrite Htable. apply in_or_app. right. now left.
Qed.

Lemma matching_rules_equal (path : string) (r1 r2 : subsystem_config) :
  glob_literal DEV_PATH_ROOT = true ->
  In r1 subsystems -> In r2 subsystems ->
  fnmatch (syspath r1) path = 0%Z -> fnmatch (syspath r2) path = 0%Z ->
  r1 = r2.
Proof.
  intros Hlit Hin1 Hin2 Hm1 Hm2.
  destruct (rule_in_table r1 Hin1) as (_ & _ & pat1 & Hp1 & Hl1 & Huniq).
  destruct (rule_in_table r2 Hin2) as (_ & _ & pat2 & Hp2 & Hl2 & _).
  rewrite Hp1 in Hm1. rewrite Hp2 in Hm2.
  destruct (prefix4_of_match pat1 path Hlit Hl1 Hm1) as (rest1 & Hpath1 & Hpre1).
  destruct (prefix4_of_match pat2 path Hlit Hl2 Hm2) as (rest2 & Hpath2 & Hpre2).
  rewrite Hpath1 in Hpath2. apply string_app_inv_head in Hpath2 as <-.
  rewrite Hpre1 in Hpre2.
  assert (Hpat : pat1 = pat2).
  { clear -Hl1 Hl2 Hpre2. cbn [In] in Hl1, Hl2.
    repeat (destruct Hl1 as [<-|Hl1]; [|try contradiction]);
      repeat (destruct Hl2 as [<-|Hl2]; [|try contradiction]);
      try reflexivity; discriminate Hpre2. }
  symmetry. apply Huniq; [assumption|]. now rewrite Hp2, Hpat.
Qed.

(** X15.  Under a device-node root without pattern characters the patterns
    of the table exclude one another: a path matches at most one rule.
    Resolution therefore returns the one rule of the table that matches
    the path, and the order of the table does not matter. *)
Theorem rules_exclude_one_another :
  glob_literal DEV_PATH_ROOT = true ->
  (forall (path : string) (r1 r2 : subsystem_config),
      In r1 subsystems -> In r2 subsystems ->
      fnmatch (syspath r1) path = 0%Z -> fnmatch (syspath r2) path = 0%Z ->
      r1 = r2)
  /\ (forall (path : string) (r : subsystem_config),
         get_subsystem_config_by_syspath path = Some r
         <-> In r subsystems /\ fnmatch (syspath r) path = 0%Z).
Proof.
  intros Hlit. split.
  - intros path r1 r2. now apply matching_rules_equal.
  - intros path r. split; [apply resolved_rule_in_table|].
    intros [Hin Hm].
    destruct (get_subsystem_config_by_syspath path) as [sc|] eqn:Hsc.
    + apply resolved_rule_in_table in Hsc as [Hin' Hm'].
      f_equal. now apply (matching_rules_equal path).
    + unfold get_subsystem_config_by_syspath in Hsc.
      pose proof (scan_subsystems_first subsystems path) as Hnone.
      rewrite Hsc in Hnone. rewrite List.Forall_forall in Hnone.
      now apply Hnone in Hin.
Qed.

(** X16.  [get_subsystem_by_syspath] and [invoke_create_handler] decide
    alike: where the first reports the unknown subsystem the second leaves
    the device alone, and where the first reports input the second runs a
    handler, both after the same use of the gate.  No rule of the table
    names another subsystem or lacks a handler. *)
Theorem subsystem_agrees_with_dispatch (ud : udev_device) (st : proc) :
  (fst (get_subsystem_by_syspath (ud_syspath ud) st) = UNKNOWN_SUBSYSTEM
   /\ invoke_create_handler ud st
      = (ud, snd (get_subsystem_by_syspath (ud_syspath ud) st)))
  \/ (fst (get_subsystem_by_syspath (ud_syspath ud) st) = "input"
      /\ exists h : handler,
          invoke_create_handler ud st
          = call_handler h ud (snd (get_subsystem_by_syspath (ud_syspath ud) st))).
Proof.
  unfold get_subsystem_by_syspath, invoke_create_handler, udev_device_get_syspath.
  destruct (get_subsystem_config_by_syspath (ud_syspath ud)) as [sc|] eqn:Hsc;
    [|now left].
  apply resolved_rule_in_table in Hsc as [Hin _].
  destruct (rule_in_table sc Hin) as (Hname & (h & Hh) & _).
  rewrite Hh, Hname.
  destruct (negb (Z.land (flags sc) SCFLAG_SKIP_IF_EVDEV =? 0)%Z).
  - destruct (kernel_has_evdev_enabled st) as [[|] st']; [now left|].
    right. split; [reflexivity|]. now exists h.
  - right. split; [reflexivity|]. now exists h.
Qed.

(** ** The handlers *)

Lemma set_input_device_type_fields (ud : udev_device) (t : input_type) :
  ud_syspath (snd (set_input_device_type ud t)) = ud_syspath ud
  /\ ud_sysattrs (snd (set_input_device_type ud t)) = ud_sysattrs ud
  /\ ud_parent (snd (set_input_device_type ud t)) = ud_parent ud.
Proof. unfold set_input_device_type, udev_list_insert. now destruct t. Qed.

Lemma set_input_device_type_lookup (ud : udev_device) (t : input_type) (name : string) :
  ud_properties (snd (set_input_device_type ud t)) !! name = ud_properties ud !! name
  \/ (In name input_markers
      /\ ud_properties (snd (set_input_device_type ud t)) !! name = Some (Some "1")).
Proof.
  unfold set_input_device_type, udev_list_insert, input_markers.
  destruct t; cbn; rewrite ?lookup_insert; repeat case_decide; subst;
    try (now left); right; (split; [cbn [In]; repeat (first [left; reflexivity | right]) | reflexivity]).
Qed.

Lemma legacy_handler_effect (h : handler) (t : input_type)
    (ud : udev_device) (st : proc) :
  handler_type h = Some t ->
  ud_properties (fst (call_handler h ud st))
  = ud_properties (snd (set_input_device_type ud t))
  /\ ud_syspath (fst (call_handler h ud st)) = ud_syspath ud
  /\ ud_sysattrs (fst (call_handler h ud st)) = ud_sysattrs ud.
Proof.
  intros Ht.
  destruct h; cbn [handler_type] in Ht; try discriminate; injection Ht as <-;
    cbn [call_handler];
    unfold create_keyboard_handler, create_mouse_handler, create_joystick_handler,
      create_touchpad_handler, create_touchscreen_handler, create_sysmouse_handler,
      create_kbdmux_handler; cbn [fst];
    match goal with
    | |- context [set_parent ?u ?s] =>
        destruct (set_parent_fields u s) as (Hp & Hprops & Hattrs & _);
        rewrite Hp, Hprops, Hattrs
    | |- context [adopt ?u ?p] =>
        destruct (adopt_fields u p) as (Hp & Hprops & Hattrs);
        rewrite Hp, Hprops, Hattrs
    end;
    match goal with
    | |- context [set_input_device_type ?u ?ty] =>
        destruct (set_input_device_type_fields u ty) as (Hp' & Hattrs' & _);
        rewrite Hp', Hattrs'
    end; now repeat split.
Qed.

(** X17.  A legacy handler classifies before it looks for a parent: the
    device leaves the handler with the markers of the handler's fixed
    classification whether or not a parent could be made, and with its path
    and attributes untouched. *)
Theorem legacy_handlers_classify_first (h : handler) (t : input_type)
    (ud : udev_device) (st : proc) :
  handler_type h = Some t ->
  ud_properties (fst (call_handler h ud st))
  = ud_properties (snd (set_input_device_type ud t))
  /\ ud_syspath (fst (call_handler h ud st)) = ud_syspath ud
  /\ ud_sysattrs (fst (call_handler h ud st)) = ud_sysattrs ud.
Proof. apply legacy_handler_effect. Qed.

Lemma evdev_handler_effect (ud : udev_device) (st : proc) :
  ud_syspath (fst (create_evdev_handler ud st)) = ud_syspath ud
  /\ ud_sysattrs (fst (create_evdev_handler ud st)) = ud_sysattrs ud
  /\ (ud_properties (fst (create_evdev_handler ud st)) = ud_properties ud
      \/ exists t : input_type,
          ud_properties (fst (create_evdev_handler ud st))
          = ud_properties (snd (set_input_device_type ud t))).
Proof.
  assert (Hadopt : forall t parent,
            ud_syspath (adopt (snd (set_input_device_type ud t)) parent) = ud_syspath ud
            /\ ud_sysattrs (adopt (snd (set_input_device_type ud t)) parent)
               = ud_sysattrs ud
            /\ (ud_properties (adopt (snd (set_input_device_type ud t)) parent)
                = ud_properties ud
                \/ exists t' : input_type,
                    ud_properties (adopt (snd (set_input_device_type ud t)) parent)
                    = ud_properties (snd (set_input_device_type ud t')))).
  { intros t parent.
    destruct (adopt_fields (snd (set_input_device_type ud t)) parent)
      as (Hp & Hprops & Hattrs).
    destruct (set_input_device_type_fields ud t) as (Hp' & Hattrs' & _).
    rewrite Hp, Hprops, Hattrs, Hp', Hattrs'. repeat split. right. now exists t. }
  unfold create_evdev_handler.
  repeat case_match; cbn [fst]; try (repeat split; now left); apply Hadopt.
Qed.

(** X18.  Dispatch never rewrites a device: whatever rule applies and
    whatever the kernel answers, the path and the attributes of the device
    stay as they are, and a property either keeps its value or is one of
    the markers of the input devices, bound to 1. *)
Theorem dispatch_only_adds_markers (ud : udev_device) (st : proc) :
  ud_syspath (fst (invoke_create_handler ud st)) = ud_syspath ud
  /\ ud_sysattrs (fst (invoke_create_handler ud st)) = ud_sysattrs ud
  /\ forall name : string,
      ud_properties (fst (invoke_create_handler ud st)) !! name
      = ud_properties ud !! name
      \/ (In name input_markers
          /\ ud_properties (fst (invoke_create_handler ud st)) !! name
             = Some (Some "1")).
Proof.
  assert (Hcall : forall h st',
            ud_syspath (fst (call_handler h ud st')) = ud_syspath ud
            /\ ud_sysattrs (fst (call_handler h ud st')) = ud_sysattrs ud
            /\ forall name : string,
                ud_properties (fst (call_handler h ud st')) !! name
                = ud_properties ud !! name
                \/ (In name input_markers
                    /\ ud_properties (fst (call_handler h ud st')) !! name
                       = Some (Some "1"))).
  { intros h st'. destruct (handler_type h) as [t|] eqn:Ht.
    - destruct (legacy_handler_effect h t ud st' Ht) as (Hprops & Hp & Hattrs).
      rewrite Hprops. repeat split; try assumption.
      intros name. apply set_input_device_type_lookup.
    - destruct h; try discriminate. cbn [call_handler].
      destruct (evdev_handler_effect ud st') as (Hp & Hattrs & [Hprops|(t & Hprops)]);
        rewrite Hprops; repeat split; try assumption; intros name;
        [now left | apply set_input_device_type_lookup]. }
  unfold invoke_create_handler.
  destruct (get_subsystem_config_by_syspath (udev_device_get_syspath ud)) as [sc|];
    [|repeat split; now left].
  destruct (create_handler sc) as [h|]; [|repeat split; now left].
  destruct (negb (Z.land (flags sc) SCFLAG_SKIP_IF_EVDEV =? 0)%Z); [|apply Hcall].
  destruct (kernel_has_evdev_enabled st) as [[|] st'];
    [repeat split; now left | apply Hcall].
Qed.

(** X19.  The handlers of the keyboard multiplexer and of the system mouse
    ask the kernel nothing.  When the parent can be allocated it carries
    the fixed display name and, as PRODUCT, what [set_parent] would format
    for the virtual bus with the PS/2 keyboard pair, respectively the PS/2
    mouse pair; it has no [id] attribute. *)
Theorem fixed_parents_of_kbdmux_and_sysmouse (ud : udev_device) (st : proc) :
  snd (create_kbdmux_handler ud st) = st
  /\ snd (create_sysmouse_handler ud st) = st
  /\ (h_alloc H (udev_device_get_sysname (snd (set_input_device_type ud IT_KEYBOARD)))
      = true ->
      exists parent : udev_device,
        ud_parent (fst (create_kbdmux_handler ud st)) = Some parent
        /\ ud_properties parent !! "NAME" = Some (Some "System keyboard multiplexor")
        /\ ud_properties parent !! "PRODUCT"
           = Some (Some (legacy_product
                           (BUS_VIRTUAL, PS2_KEYBOARD_VENDOR, PS2_KEYBOARD_PRODUCT)))
        /\ ud_sysattrs parent !! "id" = None)
  /\ (h_alloc H (udev_device_get_sysname (snd (set_input_device_type ud IT_MOUSE)))
      = true ->
      exists parent : udev_device,
        ud_parent (fst (create_sysmouse_handler ud st)) = Some parent
        /\ ud_properties parent !! "NAME" = Some (Some "System mouse")
        /\ ud_properties parent !! "PRODUCT"
           = Some (Some (legacy_product
                           (BUS_VIRTUAL, PS2_MOUSE_VENDOR, PS2_MOUSE_GENERIC_PRODUCT)))
        /\ ud_sysattrs parent !! "id" = None).
Proof.
  split; [reflexivity|]. split; [reflexivity|].
  unfold create_kbdmux_handler, create_sysmouse_handler. cbn [fst].
  split; intros Halloc;
    match goal with
    | |- context [create_xorg_parent ?u ?s ?n ?p ?i] =>
        pose proof (create_xorg_parent_lists u s n p i) as Hlists;
        destruct (create_xorg_parent u s n p i) as [parent|]
    end; try congruence;
    destruct Hlists as (_ & _ & _ & Hname & _ & Hproduct & Hid);
    exists parent; (split; [reflexivity|]); (split; [exact Hname|]);
    (split; [exact Hproduct | exact Hid]).
Qed.

(** ** The gate in dispatch, and unit numbers again *)

(** X20.  Once the cache of the gate is set, dispatch of a device whose
    rule has the skip flag asks the kernel nothing more: it leaves the
    device alone when the cached flag is set and runs the handler of the
    rule, from the same state, when it is clear. *)
Theorem settled_gate_decides_dispatch (ud : udev_device) (st : proc)
    (sc : subsystem_config) (h : handler) :
  get_subsystem_config_by_syspath (ud_syspath ud) = Some sc ->
  create_handler sc = Some h ->
  Z.land (flags sc) SCFLAG_SKIP_IF_EVDEV <> 0%Z ->
  enabled st <> (-1)%Z ->
  invoke_create_handler ud st
  = if (enabled st =? 0)%Z then call_handler h ud st else (ud, st).
Proof.
  intros Hsc Hh Hflag Hset.
  unfold invoke_create_handler, udev_device_get_syspath. rewrite Hsc, Hh.
  destruct (Z.eqb_spec (Z.land (flags sc) SCFLAG_SKIP_IF_EVDEV) 0); [contradiction|].
  cbn [negb]. rewrite gate_cached by assumption.
  now destruct (enabled st =? 0)%Z.
Qed.

Lemma get_app_l (i : nat) (a b : string) :
  i < String.length a -> String.get i (a ++ b) = String.get i a.
Proof.
  revert i. induction a as [|x a IH]; intros i Hi; cbn [String.length] in Hi; [lia|].
  change (String x a ++ b) with (String x (a ++ b)).
  destruct i as [|i]; [reflexivity|]. cbn [String.get]. apply IH. lia.
Qed.

Lemma get_app_r (i : nat) (a b : string) :
  String.get (String.length a + i) (a ++ b) = String.get i b.
Proof.
  induction a as [|x a IH]; [reflexivity|].
  change (String x a ++ b) with (String x (a ++ b)).
  cbn [String.length Nat.add String.get]. exact IH.
Qed.

Lemma string_app_inv (a a' b b' : string) :
  String.length a = String.length a' -> a ++ b = a' ++ b' -> a = a' /\ b = b'.
Proof.
  revert a'. induction a as [|x a IH]; intros [|x' a'] Hlen Heq;
    cbn [String.length] in Hlen; try lia.
  - now split.
  - change (String x a ++ b) with (String x (a ++ b)) in Heq.
    change (String x' a' ++ b') with (String x' (a' ++ b')) in Heq.
    injection Heq as -> Heq. destruct (IH a' ltac:(lia) Heq) as [-> ->]. now split.
Qed.

(** X21.  A driver name that does not end in a digit and a unit number made
    of digits are recovered from the name of the device: for the two put
    together [syspathlen_wo_units] returns the length of the driver name,
    and [set_parent] splits the name back into the two. *)
Theorem driver_and_unit_are_recovered (driver unit : string) :
  ends_with_digit driver = false ->
  all_digits unit = true ->
  syspathlen_wo_units (driver ++ unit) = String.length driver
  /\ snprintf (syspathlen_wo_units (driver ++ unit) + 1) (driver ++ unit) = driver
  /\ string_drop (syspathlen_wo_units (driver ++ unit)) (driver ++ unit) = unit.
Proof.
  intros Hdriver Hunit.
  assert (Hlen : syspathlen_wo_units (driver ++ unit) = String.length driver).
  { pose proof (syspathlen_loop_le (driver ++ unit) (String.length (driver ++ unit)))
      as Hle.
    destruct (syspathlen_loop_spec (driver ++ unit) (String.length (driver ++ unit))
                ltac:(lia)) as (Hsuffix & Hbefore).
    fold (syspathlen_wo_units (driver ++ unit)) in Hle, Hsuffix, Hbefore.
    rewrite string_length_app in Hle, Hsuffix.
    destruct (Nat.lt_trichotomy (syspathlen_wo_units (driver ++ unit))
                (String.length driver)) as [Hlt|[Heq|Hgt]]; [|exact Heq|].
    - exfalso. unfold ends_with_digit in Hdriver. rewrite last_char_get in Hdriver.
      destruct (get_in_range (String.length driver - 1) driver ltac:(lia))
        as (c & Hc).
      rewrite Hc in Hdriver. fold (is_decimal c) in Hdriver.
      rewrite (Hsuffix (String.length driver - 1) c) in Hdriver;
        [discriminate | lia | now rewrite get_app_l by lia].
    - exfalso.
      destruct (get_in_range (syspathlen_wo_units (driver ++ unit)
                              - 1 - String.length driver) unit ltac:(lia))
        as (c & Hc).
      assert (Hget : String.get (syspathlen_wo_units (driver ++ unit) - 1)
                       (driver ++ unit) = Some c).
      { replace (syspathlen_wo_units (driver ++ unit) - 1)
          with (String.length driver
                + (syspathlen_wo_units (driver ++ unit) - 1 - String.length driver))
          by lia.
        now rewrite get_app_r. }
      pose proof (Hbefore c ltac:(lia) Hget) as Hnot.
      rewrite (proj1 (all_digits_get unit) Hunit _ c Hc) in Hnot. discriminate. }
  pose proof (string_take_drop (String.length driver) (driver ++ unit)) as Hsplit.
  assert (Htake : String.length (string_take (String.length driver) (driver ++ unit))
                  = String.length driver).
  { rewrite string_take_length, string_length_app. lia. }
  destruct (string_app_inv _ _ _ _ Htake Hsplit) as [Hd Hu].
  rewrite Hlen. split; [reflexivity|]. split; [|exact Hu].
  unfold snprintf. rewrite Nat.add_1_r. cbn [Nat.pred]. exact Hd.
Qed.

End UdevUtils.

(** ** The plug-and-play id *)

Lemma strncmp_eq_take (a b : string) (n : nat) :
  strncmp_eq a b n = true <-> string_take n a = string_take n b.
Proof.
  unfold string_take. revert a b.
  induction n as [|n IH]; intros a b.
  - destruct a, b; now split.
  - destruct a as [|x a], b as [|y b]; cbn [strncmp_eq substring];
      try (split; [reflexivity | reflexivity]); try (split; discriminate).
    rewrite andb_true_iff, Ascii.eqb_eq, IH. split.
    + intros [-> ->]. reflexivity.
    + intros Heq. injection Heq as -> ->. now split.
Qed.

Lemma strncmp_none (a : string) :
  strncmp_eq a "none" 4 = true <-> string_take 4 a = "none".
Proof. apply strncmp_eq_take. Qed.

Lemma retain_none_iff (pnpinfo : string) (p l : nat) :
  fst (retain_pnp_id pnpinfo (Some (p, l))) = None
  <-> l = 4 /\ pnp_value pnpinfo (p, l) = "none".
Proof.
  unfold retain_pnp_id, pnp_value. cbn [fst snd].
  destruct (Nat.eqb_spec l 4) as [->|Hl]; cbn [andb].
  - destruct (strncmp_eq (cstr_at pnpinfo p) "none" 4) eqn:Hcmp; cbn [fst].
    + apply strncmp_none in Hcmp. now split.
    + split; [discriminate|]. intros [_ Hv]. apply strncmp_none in Hv. congruence.
  - cbn [fst]. split; [discriminate | intros [Hl' _]; contradiction].
Qed.

Lemma retain_none (pnpinfo : string) (p : nat) :
  pnp_value pnpinfo (p, 4) = "none" ->
  retain_pnp_id pnpinfo (Some (p, 4)) = retain_pnp_id pnpinfo None.
Proof.
  intros Hv. unfold pnp_value in Hv. cbn [fst snd] in Hv.
  apply strncmp_none in Hv. unfold retain_pnp_id.
  cbn [Nat.eqb andb]. now rewrite Hv.
Qed.

(** [set_parent] sees the blob through the four lookups only. *)
Lemma set_parent_lookups
    (lookup lookup' : string -> string -> option (nat * nat))
    (get_sysname : udev_device -> string) (H : host)
    (ud : udev_device) (st : proc) (pnpinfo : string) :
  sysctl_string H (unit_mib (get_sysname ud) ".%pnpinfo") 1024 = Some pnpinfo ->
  lookup pnpinfo "vendor" = lookup' pnpinfo "vendor" ->
  lookup pnpinfo "product" = lookup' pnpinfo "product" ->
  lookup pnpinfo "device" = lookup' pnpinfo "device" ->
  retain_pnp_id pnpinfo (lookup pnpinfo "_HID")
  = retain_pnp_id pnpinfo (lookup' pnpinfo "_HID") ->
  set_parent lookup get_sysname H ud st = set_parent lookup' get_sysname H ud st.
Proof.
  intros Hpnp Hv Hp Hd Hid. unfold set_parent, sysctlbyname.
  destruct (Nat.eqb (String.length (get_sysname ud))
              (syspathlen_wo_units (get_sysname ud))); [reflexivity|].
  fold (unit_mib (get_sysname ud) ".%desc").
  fold (unit_mib (get_sysname ud) ".%pnpinfo").
  fold (unit_mib (get_sysname ud) ".%parent").
  destruct (sysctl_string H (unit_mib (get_sysname ud) ".%desc") 80); [|reflexivity].
  rewrite Hpnp.
  destruct (sysctl_string H (unit_mib (get_sysname ud) ".%parent") 80); [|reflexivity].
  now rewrite Hv, Hp, Hd, Hid.
Qed.

(** [set_parent] when the blob carries no usable _HID: the key is absent,
    or its value is four characters long and reads none.  The blob is left
    as it was and [create_xorg_parent] is called without an id. *)
Lemma set_parent_without_id
    (lookup : string -> string -> option (nat * nat))
    (get_sysname : udev_device -> string) (H : host)
    (ud : udev_device) (st : proc) (desc pnpinfo parentname : string) :
  ends_with_digit (get_sysname ud) = true ->
  sysctl_string H (unit_mib (get_sysname ud) ".%desc") 80 = Some desc ->
  sysctl_string H (unit_mib (get_sysname ud) ".%pnpinfo") 1024 = Some pnpinfo ->
  sysctl_string H (unit_mib (get_sysname ud) ".%parent") 80 = Some parentname ->
  lookup pnpinfo "_HID" = None
  \/ (exists p : nat, lookup pnpinfo "_HID" = Some (p, 4)
                      /\ pnp_value pnpinfo (p, 4) = "none") ->
  set_parent lookup get_sysname H ud st
  = (adopt ud
       (create_xorg_parent H ud (get_sysname ud) (strip_name desc)
          (Some (legacy_product
                   (legacy_ids pnpinfo
                      (lookup pnpinfo "vendor") (lookup pnpinfo "product")
                      (lookup pnpinfo "device") parentname
                      (snprintf (syspathlen_wo_units (get_sysname ud) + 1)
                         (get_sysname ud)))))
          None),
     ask (unit_mib (get_sysname ud) ".%parent")
       (ask (unit_mib (get_sysname ud) ".%pnpinfo")
          (ask (unit_mib (get_sysname ud) ".%desc") st))).
Proof.
  intros Hunit Hdesc Hpnp Hparent Hid.
  rewrite (set_parent_success lookup get_sysname H ud st desc pnpinfo parentname)
    by assumption.
  assert (Hkeep : retain_pnp_id pnpinfo (lookup pnpinfo "_HID") = (None, pnpinfo)).
  { destruct Hid as [-> | (p & -> & Hnone)]; [reflexivity|].
    now rewrite retain_none. }
  rewrite Hkeep. reflexivity.
Qed.

(** [set_parent] when the blob carries a _HID value that is not the four
    characters none: the value is cut off by a NUL stored behind it, and
    [create_xorg_parent] is called with the string that starts at the
    value. *)
Lemma set_parent_with_id
    (lookup : string -> string -> option (nat * nat))
    (get_sysname : udev_device -> string) (H : host)
    (ud : udev_device) (st : proc) (desc pnpinfo parentname : string)
    (p l : nat) :
  ends_with_digit (get_sysname ud) = true ->
  sysctl_string H (unit_mib (get_sysname ud) ".%desc") 80 = Some desc ->
  sysctl_string H (unit_mib (get_sysname ud) ".%pnpinfo") 1024 = Some pnpinfo ->
  sysctl_string H (unit_mib (get_sysname ud) ".%parent") 80 = Some parentname ->
  lookup pnpinfo "_HID" = Some (p, l) ->
  ~ (l = 4 /\ pnp_value pnpinfo (p, l) = "none") ->
  set_parent lookup get_sysname H ud st
  = (adopt ud
       (create_xorg_parent H ud (get_sysname ud) (strip_name desc)
          (Some (legacy_product
                   (legacy_ids (poke_nul pnpinfo (p + l))
                      (lookup pnpinfo "vendor") (lookup pnpinfo "product")
                      (lookup pnpinfo "device") parentname
                      (snprintf (syspathlen_wo_units (get_sysname ud) + 1)
                         (get_sysname ud)))))
          (Some (cstr_at (poke_nul pnpinfo (p + l)) p))),
     ask (unit_mib (get_sysname ud) ".%parent")
       (ask (unit_mib (get_sysname ud) ".%pnpinfo")
          (ask (unit_mib (get_sysname ud) ".%desc") st))).
Proof.
  intros Hunit Hdesc Hpnp Hparent Hid Hkept.
  rewrite (set_parent_success lookup get_sysname H ud st desc pnpinfo parentname)
    by assumption.
  assert (Hkeep : retain_pnp_id pnpinfo (lookup pnpinfo "_HID")
                  = (Some (p, l), poke_nul pnpinfo (p + l))).
  { rewrite Hid.
    destruct (fst (retain_pnp_id pnpinfo (Some (p, l)))) eqn:Hfst.
    - revert Hfst. unfold retain_pnp_id.
      destruct (Nat.eqb l 4 && strncmp_eq (cstr_at pnpinfo p) "none" 4);
        [discriminate | reflexivity].
    - apply retain_none_iff in Hfst. contradiction. }
  rewrite Hkeep. reflexivity.
Qed.

(** C7.  [set_parent] looks up four keys in the blob, vendor, product,
    device and _HID, and depends on the blob through nothing else.  For a
    unit whose three queries succeed, the parent is the one that
    [create_xorg_parent] makes from the product string of the values of
    vendor, product and device and from the _HID value.  The _HID value is
    dropped exactly when it is four characters long and reads none: then,
    as when the key is absent, the blob is left as it was,
    [create_xorg_parent] is called without an id and the parent it
    allocates has no attribute [id]; the unit gets the parent it would get
    from a blob without _HID.  Any other _HID value is cut off behind its
    last character and handed to [create_xorg_parent], and the parent has
    the attribute [id]. *)
Theorem hid_none_is_absent :
  (forall (lookup lookup' : string -> string -> option (nat * nat))
          (get_sysname : udev_device -> string) (H : host)
          (ud : udev_device) (st : proc) (pnpinfo : string),
      sysctl_string H (unit_mib (get_sysname ud) ".%pnpinfo") 1024 = Some pnpinfo ->
      lookup pnpinfo "vendor" = lookup' pnpinfo "vendor" ->
      lookup pnpinfo "product" = lookup' pnpinfo "product" ->
      lookup pnpinfo "device" = lookup' pnpinfo "device" ->
      lookup pnpinfo "_HID" = lookup' pnpinfo "_HID" ->
      set_parent lookup get_sysname H ud st = set_parent lookup' get_sysname H ud st)
  /\ (forall (pnpinfo : string) (p l : nat),
         fst (retain_pnp_id pnpinfo (Some (p, l))) = None
         <-> l = 4 /\ pnp_value pnpinfo (p, l) = "none")
  /\ (forall (pnpinfo : string) (p : nat),
         pnp_value pnpinfo (p, 4) = "none" ->
         retain_pnp_id pnpinfo (Some (p, 4)) = (None, pnpinfo))
  /\ (forall (lookup lookup' : string -> string -> option (nat * nat))
             (get_sysname : udev_device -> string) (H : host)
             (ud : udev_device) (st : proc) (pnpinfo : string) (p : nat),
         sysctl_string H (unit_mib (get_sysname ud) ".%pnpinfo") 1024 = Some pnpinfo ->
         lookup pnpinfo "vendor" = lookup' pnpinfo "vendor" ->
         lookup pnpinfo "product" = lookup' pnpinfo "product" ->
         lookup pnpinfo "device" = lookup' pnpinfo "device" ->
         lookup pnpinfo "_HID" = Some (p, 4) ->
         pnp_value pnpinfo (p, 4) = "none" ->
         lookup' pnpinfo "_HID" = None ->
         set_parent lookup get_sysname H ud st = set_parent lookup' get_sysname H ud st)
  /\ (forall (lookup : string -> string -> option (nat * nat))
             (get_sysname : udev_device -> string) (H : host)
             (ud : udev_device) (st : proc) (desc pnpinfo parentname : string),
         ends_with_digit (get_sysname ud) = true ->
         sysctl_string H (unit_mib (get_sysname ud) ".%desc") 80 = Some desc ->
         sysctl_string H (unit_mib (get_sysname ud) ".%pnpinfo") 1024 = Some pnpinfo ->
         sysctl_string H (unit_mib (get_sysname ud) ".%parent") 80 = Some parentname ->
         lookup pnpinfo "_HID" = None
         \/ (exists p : nat, lookup pnpinfo "_HID" = Some (p, 4)
                             /\ pnp_value pnpinfo (p, 4) = "none") ->
         set_parent lookup get_sysname H ud st
         = (adopt ud
              (create_xorg_parent H ud (get_sysname ud) (strip_name desc)
                 (Some (legacy_product
                          (legacy_ids pnpinfo
                             (lookup pnpinfo "vendor") (lookup pnpinfo "product")
                             (lookup pnpinfo "device") parentname
                             (snprintf (syspathlen_wo_units (get_sysname ud) + 1)
                                (get_sysname ud)))))
                 None),
            ask (unit_mib (get_sysname ud) ".%parent")
              (ask (unit_mib (get_sysname ud) ".%pnpinfo")
                 (ask (unit_mib (get_sysname ud) ".%desc") st)))
         /\ (h_alloc H (get_sysname ud) = true ->
             exists parent : udev_device,
               ud_parent (fst (set_parent lookup get_sysname H ud st)) = Some parent
               /\ ud_properties parent !! "PRODUCT"
                  = Some (Some (legacy_product
                                  (legacy_ids pnpinfo
                                     (lookup pnpinfo "vendor") (lookup pnpinfo "product")
                                     (lookup pnpinfo "device") parentname
                                     (snprintf (syspathlen_wo_units (get_sysname ud) + 1)
                                        (get_sysname ud)))))
               /\ ud_sysattrs parent !! "id" = None))
  /\ (forall (lookup : string -> string -> option (nat * nat))
             (get_sysname : udev_device -> string) (H : host)
             (ud : udev_device) (st : proc) (desc pnpinfo parentname : string)
             (p l : nat),
         ends_with_digit (get_sysname ud) = true ->
         sysctl_string H (unit_mib (get_sysname ud) ".%desc") 80 = Some desc ->
         sysctl_string H (unit_mib (get_sysname ud) ".%pnpinfo") 1024 = Some pnpinfo ->
         sysctl_string H (unit_mib (get_sysname ud) ".%parent") 80 = Some parentname ->
         lookup pnpinfo "_HID" = Some (p, l) ->
         ~ (l = 4 /\ pnp_value pnpinfo (p, l) = "none") ->
         set_parent lookup get_sysname H ud st
         = (adopt ud
              (create_xorg_parent H ud (get_sysname ud) (strip_name desc)
                 (Some (legacy_product
                          (legacy_ids (poke_nul pnpinfo (p + l))
                             (lookup pnpinfo "vendor") (lookup pnpinfo "product")
                             (lookup pnpinfo "device") parentname
                             (snprintf (syspathlen_wo_units (get_sysname ud) + 1)
                                (get_sysname ud)))))
                 (Some (cstr_at (poke_nul pnpinfo (p + l)) p))),
            ask (unit_mib (get_sysname ud) ".%parent")
              (ask (unit_mib (get_sysname ud) ".%pnpinfo")
                 (ask (unit_mib (get_sysname ud) ".%desc") st)))
         /\ (h_alloc H (get_sysname ud) = true ->
             exists parent : udev_device,
               ud_parent (fst (set_parent lookup get_sysname H ud st)) = Some parent
               /\ ud_properties parent !! "PRODUCT"
                  = Some (Some (legacy_product
                                  (legacy_ids (poke_nul pnpinfo (p + l))
                                     (lookup pnpinfo "vendor") (lookup pnpinfo "product")
                                     (lookup pnpinfo "device") parentname
                                     (snprintf (syspathlen_wo_units (get_sysname ud) + 1)
                                        (get_sysname ud)))))
               /\ ud_sysattrs parent !! "id" <> None)).
Proof.
  split; [|split; [|split; [|split; [|split]]]].
  - intros lookup lookup' get_sysname H ud st pnpinfo Hpnp Hv Hp Hd Hid.
    apply (set_parent_lookups lookup lookup' get_sysname H ud st pnpinfo);
      try assumption. now rewrite Hid.
  - apply retain_none_iff.
  - intros pnpinfo p Hnone. now rewrite retain_none.
  - intros lookup lookup' get_sysname H ud st pnpinfo p Hpnp Hv Hp Hd Hid Hnone Hid'.
    apply (set_parent_lookups lookup lookup' get_sysname H ud st pnpinfo);
      try assumption. rewrite Hid, Hid'. now apply retain_none.
  - intros lookup get_sysname H ud st desc pnpinfo parentname
           Hunit Hdesc Hpnp Hparent Hid.
    pose proof (set_parent_without_id lookup get_sysname H ud st desc pnpinfo
                  parentname Hunit Hdesc Hpnp Hparent Hid) as Hrun.
    split; [exact Hrun|]. intros Halloc. rewrite Hrun. cbn [fst].
    match goal with
    | |- context [adopt ud ?made] =>
        match made with
        | create_xorg_parent ?h ?u ?s ?n ?prod ?id =>
            pose proof (create_xorg_parent_lists h u s n prod id) as Hlists;
            destruct made as [parent|]
        end
    end; [|congruence].
    destruct Hlists as (_ & _ & _ & _ & _ & Hproduct & Hidattr).
    exists parent. split; [reflexivity|]. split; assumption.
  - intros lookup get_sysname H ud st desc pnpinfo parentname p l
           Hunit Hdesc Hpnp Hparent Hid Hkept.
    pose proof (set_parent_with_id lookup get_sysname H ud st desc pnpinfo
                  parentname p l Hunit Hdesc Hpnp Hparent Hid Hkept) as Hrun.
    split; [exact Hrun|]. intros Halloc. rewrite Hrun. cbn [fst].
    match goal with
    | |- context [adopt ud ?made] =>
        match made with
        | create_xorg_parent ?h ?u ?s ?n ?prod ?id =>
            pose proof (create_xorg_parent_lists h u s n prod id) as Hlists;
            destruct made as [parent|]
        end
    end; [|congruence].
    destruct Hlists as (_ & _ & _ & _ & _ & Hproduct & Hidattr).
    exists parent. split; [reflexivity|]. split; [assumption|].
    rewrite Hidattr. discriminate.
Qed.

Lemma hid_none_is_absent_witness :
  (pnp_lookup "_HID=none _UID=0" "_HID" = Some (5, 4)
   /\ pnp_value "_HID=none _UID=0" (5, 4) = "none"
   /\ set_parent pnp_lookup sample_sysname sample_host (new_device "/dev/psm0") proc_init
      = set_parent pnp_lookup_no_hid sample_sysname sample_host
          (new_device "/dev/psm0") proc_init)
  /\ (exists parent : udev_device,
         ud_parent (fst (set_parent pnp_lookup sample_sysname sample_host
                           (new_device "/dev/psm0") proc_init)) = Some parent
         /\ ud_properties parent !! "PRODUCT" = Some (Some "11/2/1/0")
         /\ ud_sysattrs parent !! "id" = None)
  /\ (exists parent : udev_device,
         ud_parent (fst (set_parent pnp_lookup sample_sysname sample_host
                           (new_device "/dev/atkbd0") proc_init)) = Some parent
         /\ ud_properties parent !! "PRODUCT" = Some (Some "11/1/1/0")
         /\ ud_sysattrs parent !! "id" <> None).
Proof.
  split; [|split].
  - split; [reflexivity|]. split; [reflexivity|].
    apply (proj1 (proj2 (proj2 (proj2 hid_none_is_absent))))
      with (pnpinfo := "_HID=none _UID=0") (p := 5); reflexivity.
  - destruct (proj1 (proj2 (proj2 (proj2 (proj2 hid_none_is_absent))))
                pnp_lookup sample_sysname sample_host (new_device "/dev/psm0")
                proc_init "PS/2 Mouse" "_HID=none _UID=0" "atkbdc0")
      as [_ Hparent].
    1-4: reflexivity.
    { right. exists 5. split; reflexivity. }
    destruct Hparent as (parent & Hp & Hprod & Hid); [reflexivity|].
    exists parent. split; [exact Hp|]. split; [|exact Hid].
    rewrite Hprod. vm_compute. reflexivity.
  - destruct (proj2 (proj2 (proj2 (proj2 (proj2 hid_none_is_absent))))
                pnp_lookup sample_sysname sample_host (new_device "/dev/atkbd0")
                proc_init "AT Keyboard" "_HID=PNP0303 _UID=0" "atkbdc0" 5 7)
      as [_ Hparent].
    1-5: reflexivity.
    { intros [Hl _]. discriminate Hl. }
    destruct Hparent as (parent & Hp & Hprod & Hid); [reflexivity|].
    exists parent. split; [exact Hp|]. split; [|exact Hid].
    rewrite Hprod. vm_compute. reflexivity.
Defined.

(** ** The [id] attribute *)

(** C4.  The parent of the PS/2 keyboard atkbd0, whose blob carries the
    plug-and-play id PNP0303: [create_xorg_parent], called with that id,
    binds NAME and [name] to the display name and PRODUCT to the product
    string, and binds the attribute [id] to the product string as well, not
    to the id it was given. *)
Theorem xorg_parent_id_holds_product :
  (exists parent : udev_device,
      create_xorg_parent sample_host (new_device "/dev/atkbd0") "atkbd0" "AT Keyboard"
        (Some "11/1/1/0") (Some "PNP0303") = Some parent
      /\ ud_properties parent !! "NAME" = Some (Some "AT Keyboard")
      /\ ud_sysattrs parent !! "name" = Some (Some "AT Keyboard")
      /\ ud_properties parent !! "PRODUCT" = Some (Some "11/1/1/0")
      /\ ud_sysattrs parent !! "id" = Some (Some "11/1/1/0")
      /\ ud_sysattrs parent !! "id" <> Some (Some "PNP0303"))
  /\ (let pnpinfo := "_HID=PNP0303 _UID=0" in
      let kept := retain_pnp_id pnpinfo (pnp_lookup pnpinfo "_HID") in
      option_map (fun id => cstr_at (snd kept) (fst id)) (fst kept) = Some "PNP0303")
  /\ (exists parent : udev_device,
         ud_parent (fst (set_parent pnp_lookup sample_sysname sample_host
                           (new_device "/dev/atkbd0") proc_init)) = Some parent
         /\ ud_sysattrs parent !! "id" = Some (Some "11/1/1/0")).
Proof.
  split; [|split].
  - eexists. split; [reflexivity|]. vm_compute. repeat split. discriminate.
  - reflexivity.
  - eexists. split; [reflexivity|]. reflexivity.
Qed.

(** ** The properties on the sample host *)

(** No capability, a key of the keyboard, the touchpad of the sample host,
    a touch panel with BTN_TOUCH, and a multitouch pad with the joystick
    button. *)
Lemma classifier_examples :
  evdev_input_type [0; 0; 0; 0; 0; 0; 0; 0; 0; 0; 0; 0]%Z [0%Z] [0%Z] = IT_NONE
  /\ evdev_input_type [0x40000000; 0; 0; 0; 0; 0; 0; 0; 0; 0; 0; 0]%Z [0%Z] [0%Z]
     = IT_KEYBOARD
  /\ evdev_input_type [0; 0; 0; 0; 0; 0x420; 0; 0; 0; 0; 0; 0]%Z [0%Z] [0x1000003%Z]
     = IT_TOUCHPAD
  /\ evdev_input_type [0; 0; 0; 0; 0; 0x400; 0; 0; 0; 0; 0; 0]%Z [0%Z] [0x3%Z]
     = IT_TOUCHSCREEN
  /\ evdev_input_type [0; 0; 0; 0; 0x100000000; 0; 0; 0; 0; 0; 0; 0]%Z [0%Z]
       [0x800000000000%Z]
     = IT_JOYSTICK.
Proof. repeat split. Qed.

(** The node event8 answers every ioctl and has no capability bit: its
    device is left as it was. *)
Lemma classifier_follows_decision_tree_witness :
  spec_classify (code_set [0; 0; 0; 0; 0; 0; 0; 0; 0; 0; 0; 0]%Z)
    (code_set [0%Z]) (code_set [0%Z]) = IT_NONE
  /\ fst (create_evdev_handler sample_devnode sample_host
            (new_device "/dev/input/event8") proc_init)
     = new_device "/dev/input/event8".
Proof.
  split; [reflexivity|].
  apply (proj2 (classifier_follows_decision_tree sample_devnode sample_host))
    with (key_bits := [0; 0; 0; 0; 0; 0; 0; 0; 0; 0; 0; 0]%Z)
         (rel_bits := [0%Z]) (abs_bits := [0%Z]);
    reflexivity.
Defined.

(** ukbd0 is skipped once the flag has been read as 1; event7 goes to the
    handler of the event nodes. *)
Lemma dispatch_by_first_matching_rule_witness :
  glob_literal "/dev" = true
  /\ fnmatch "/dev/ukbd[0-9]*" "/dev/ukbd0" = 0%Z
  /\ invoke_create_handler true "/dev" pnp_lookup sample_sysname sample_devnode sample_host
       (new_device "/dev/ukbd0") (ask "kern.features.evdev_support" proc_init)
     = (new_device "/dev/ukbd0",
        set_enabled 1
          (ask "kern.features.evdev_support"
             (ask "kern.features.evdev_support" proc_init)))
  /\ invoke_create_handler true "/dev" pnp_lookup sample_sysname sample_devnode sample_host
       (new_device "/dev/input/event7") proc_init
     = create_evdev_handler sample_devnode sample_host
         (new_device "/dev/input/event7") proc_init.
Proof.
  pose proof (dispatch_by_first_matching_rule true "/dev" pnp_lookup sample_sysname
                sample_devnode sample_host)
    as (_ & _ & _ & _ & _ & Hukbd & Hevent).
  specialize (Hukbd eq_refl) as (Hmatch & _ & Hukbd).
  split; [reflexivity|]. split; [exact Hmatch|]. split.
  - rewrite Hukbd by exact Hmatch. reflexivity.
  - apply Hevent; reflexivity.
Defined.

(** The USB keyboard ukbd0: vendor and product of its blob on the USB
    bus. *)
Lemma legacy_identity_precedence_witness :
  legacy_ids "vendor=0x046d product=0xc31c devclass=0x00"
    (Some (7, 6)) (Some (22, 6)) None "uhub0" "ukbd"
  = (BUS_USB, 0x46d%Z, 0xc31c%Z)
  /\ legacy_product (BUS_USB, 0x46d%Z, 0xc31c%Z) = "3/46d/c31c/0"
  /\ exists parent : udev_device,
      ud_parent (fst (set_parent pnp_lookup sample_sysname sample_host
                        (new_device "/dev/ukbd0") proc_init)) = Some parent
      /\ ud_properties parent !! "PRODUCT" = Some (Some "3/46d/c31c/0").
Proof.
  pose proof (legacy_identity_precedence pnp_lookup sample_sysname sample_host)
    as (Hids & Hparent).
  destruct (Hids "vendor=0x046d product=0xc31c devclass=0x00"
              (Some (7, 6)) (Some (22, 6)) None "uhub0" "ukbd")
    as (Husb & _ & _ & Htext).
  split; [exact (Husb 7 6 22 6 eq_refl eq_refl)|].
  split; [exact (Htext BUS_USB 0x46d%Z 0xc31c%Z (Husb 7 6 22 6 eq_refl eq_refl))|].
  exact (Hparent (new_device "/dev/ukbd0") proc_init
           "Logitech USB Keyboard, class 0/0, rev 1.10/64.00, addr 2"
           "vendor=0x046d product=0xc31c devclass=0x00" "uhub0"
           eq_refl eq_refl eq_refl eq_refl eq_refl).
Defined.

(** On the sample host the flag cannot be read at the first query and reads
    1 at the second: the first call returns false and keeps the cache
    unset, the second returns true, and five more calls return true without
    a query. *)
Lemma gate_caches_successful_read_witness :
  (fst (kernel_has_evdev_enabled sample_host proc_init) = false
   /\ enabled (snd (kernel_has_evdev_enabled sample_host proc_init)) = (-1)%Z)
  /\ (let st := snd (kernel_has_evdev_enabled sample_host proc_init) in
      fst (kernel_has_evdev_enabled sample_host st) = true
      /\ enabled (snd (kernel_has_evdev_enabled sample_host st)) = 1%Z
      /\ gate_calls sample_host 5 (snd (kernel_has_evdev_enabled sample_host st))
         = ([true; true; true; true; true],
            snd (kernel_has_evdev_enabled sample_host st))).
Proof.
  pose proof (gate_caches_successful_read sample_host) as (_ & Hfail & Hok & _).
  split.
  - apply Hfail; reflexivity.
  - cbv zeta.
    destruct (Hok (snd (kernel_has_evdev_enabled sample_host proc_init)) true
                eq_refl eq_refl) as (Hret & Hcache & Hcalls).
    split; [exact Hret|]. split; [exact Hcache|]. exact (Hcalls 5).
Defined.

(** sysmouse has no unit number; ums0 has no parent entry in the device
    tree. *)
Lemma set_parent_aborts_silently_witness :
  ends_with_digit (sample_sysname (new_device "/dev/sysmouse")) = false
  /\ set_parent pnp_lookup sample_sysname sample_host (new_device "/dev/sysmouse") proc_init
     = (new_device "/dev/sysmouse", proc_init)
  /\ sysctl_string sample_host
       (unit_mib (sample_sysname (new_device "/dev/ums0")) ".%parent") 80 = None
  /\ fst (set_parent pnp_lookup sample_sysname sample_host (new_device "/dev/ums0") proc_init)
     = new_device "/dev/ums0".
Proof.
  pose proof (set_parent_aborts_silently pnp_lookup sample_sysname sample_host)
    as (Hnounit & Hfail).
  split; [reflexivity|]. split; [apply Hnounit; reflexivity|].
  split; [reflexivity|].
  apply (Hfail (new_device "/dev/ums0") proc_init). right. right. reflexivity.
Defined.

(** The touchpad event7 is named Generic, Inc Mouse by the kernel and the
    keyboard ukbd0 is described with a comma after its name. *)
Lemma display_name_cut_at_first_comma_witness :
  strip_name ("Generic" ++ String "," " Inc Mouse") = "Generic"
  /\ (exists parent : udev_device,
         ud_parent (fst (create_evdev_handler sample_devnode sample_host
                           (new_device "/dev/input/event7") proc_init)) = Some parent
         /\ ud_properties parent !! "NAME" = Some (Some "Generic")
         /\ ud_sysattrs parent !! "name" = Some (Some "Generic"))
  /\ (exists parent : udev_device,
         ud_parent (fst (set_parent pnp_lookup sample_sysname sample_host
                           (new_device "/dev/ukbd0") proc_init)) = Some parent
         /\ ud_properties parent !! "NAME" = Some (Some "Logitech USB Keyboard")
         /\ ud_sysattrs parent !! "name" = Some (Some "Logitech USB Keyboard")).
Proof.
  pose proof (display_name_cut_at_first_comma pnp_lookup sample_sysname sample_devnode
                sample_host) as (_ & Hcut & _ & Hevdev & Hlegacy).
  split; [apply Hcut; reflexivity|]. split.
  - apply (Hevdev (new_device "/dev/input/event7") proc_init "Generic, Inc Mouse"
             {| bustype := 0x3; vendor := 0x46d; product := 0xc52b; version := 0x111 |}
             [0; 0; 0; 0; 0; 0x420; 0; 0; 0; 0; 0; 0]%Z [0%Z] [0x1000003%Z]);
      try reflexivity; discriminate.
  - apply (Hlegacy (new_device "/dev/ukbd0") proc_init
             "Logitech USB Keyboard, class 0/0, rev 1.10/64.00, addr 2"
             "vendor=0x046d product=0xc31c devclass=0x00" "uhub0");
      reflexivity.
Defined.

(** ** The keyboard pair and the blob *)

(** The unit atkbd1 of the sample host has the driver atkbd and the parent
    atkbdc0, and a blob with a vendor and a product key: its identity is
    the one of the blob on the USB bus, not the PS/2 keyboard pair. *)
Lemma atkbd_pair_depends_on_blob :
  (let pnpinfo := "vendor=0x1 product=0x2" in
   legacy_ids pnpinfo (pnp_lookup pnpinfo "vendor") (pnp_lookup pnpinfo "product")
     (pnp_lookup pnpinfo "device") "atkbdc0" "atkbd"
   = (BUS_USB, 1%Z, 2%Z))
  /\ ~ (forall (pnpinfo : string) (vendorstr prodstr devicestr : option (nat * nat)),
           legacy_ids pnpinfo vendorstr prodstr devicestr "atkbdc0" "atkbd"
           = (BUS_I8042, PS2_KEYBOARD_VENDOR, PS2_KEYBOARD_PRODUCT))
  /\ h_sysctl sample_host "dev.atkbd.1.%parent" = Some "atkbdc0"
  /\ exists parent : udev_device,
      ud_parent (fst (set_parent pnp_lookup sample_sysname sample_host
                        (new_device "/dev/atkbd1") proc_init)) = Some parent
      /\ ud_properties parent !! "PRODUCT" = Some (Some "3/1/2/0")
      /\ ud_properties parent !! "PRODUCT"
         <> Some (Some (legacy_product
                          (BUS_I8042, PS2_KEYBOARD_VENDOR, PS2_KEYBOARD_PRODUCT))).
Proof.
  split; [reflexivity|]. split.
  - intros Hall.
    specialize (Hall "vendor=0x1 product=0x2" (Some (7, 3)) (Some (19, 3)) None).
    discriminate Hall.
  - split; [reflexivity|]. eexists. split; [reflexivity|].
    split; [reflexivity|]. vm_compute. discriminate.
Qed.

(** ** The further properties on the sample host *)

(** A key bitmap followed by a thirteenth word that the classifier has no
    business reading. *)
Lemma classifier_reads_sized_arrays_witness :
  evdev_input_type [0; 0; 0; 0; 0; 0x420; 0; 0; 0; 0; 0; 0; 0xdeadbeef]%Z
    [0; 0xffff]%Z [0x1000003; 0xffff]%Z
  = evdev_input_type [0; 0; 0; 0; 0; 0x420; 0; 0; 0; 0; 0; 0]%Z [0%Z] [0x1000003%Z].
Proof.
  apply classifier_reads_sized_arrays; intros i Hi;
    change (NLONGS Input.KEY_CNT) with 12%Z in *;
    change (NLONGS Input.REL_CNT) with 1%Z in *;
    change (NLONGS Input.ABS_CNT) with 1%Z in *.
  - assert (Hcases : (i = 0 \/ i = 1 \/ i = 2 \/ i = 3 \/ i = 4 \/ i = 5 \/ i = 6
                      \/ i = 7 \/ i = 8 \/ i = 9 \/ i = 10 \/ i = 11)%Z) by lia.
    repeat (destruct Hcases as [Hi'|Hcases]; [rewrite Hi'; reflexivity|]).
    rewrite Hcases. reflexivity.
  - replace i with 0%Z by lia. reflexivity.
  - replace i with 0%Z by lia. reflexivity.
Defined.

(** No node event9 can be opened on the sample host. *)
Lemma evdev_handler_gives_up_silently_witness :
  evdev_fd sample_devnode sample_host (new_device "/dev/input/event9") = (-1)%Z
  /\ fst (create_evdev_handler sample_devnode sample_host
            (new_device "/dev/input/event9") proc_init)
     = new_device "/dev/input/event9".
Proof.
  split; [reflexivity|].
  apply evdev_handler_gives_up_silently. left. reflexivity.
Defined.

(** The touchpad event7. *)
Lemma evdev_parent_identity_witness :
  exists parent : udev_device,
    ud_parent (fst (create_evdev_handler sample_devnode sample_host
                      (new_device "/dev/input/event7") proc_init)) = Some parent
    /\ ud_syspath parent = "usb-0000:00:14.0-1/input0"
    /\ ud_properties parent !! "PRODUCT" = Some (Some "3/46d/c52b/111")
    /\ ud_sysattrs parent !! "id" = None.
Proof.
  destruct (evdev_parent_identity sample_devnode sample_host
              (new_device "/dev/input/event7") proc_init "Generic, Inc Mouse"
              "usb-0000:00:14.0-1/input0"
              {| bustype := 0x3; vendor := 0x46d; product := 0xc52b; version := 0x111 |}
              [0; 0; 0; 0; 0; 0x420; 0; 0; 0; 0; 0; 0]%Z [0%Z] [0x1000003%Z])
    as (_ & parent & Hparent & Hpath & Hproduct & Hid);
    try reflexivity; try discriminate; try (cbn; lia).
  exists parent. split; [exact Hparent|]. split; [exact Hpath|].
  split; [exact Hproduct | exact Hid].
Defined.

(** The id of the keyboard atkbd0, and the description that follows it in
    the blob. *)
Lemma kept_id_reads_as_the_value_witness :
  cstr_at (snd (retain_pnp_id "_HID=PNP0303 _UID=0" (Some (5, 7)))) 5 = "PNP0303"
  /\ cstr_at (snd (retain_pnp_id "_HID=PNP0303 _UID=0" (Some (5, 7)))) 0 = "_HID=PNP0303"
  /\ cstr_at (snd (retain_pnp_id "_HID=PNP0303 _UID=0" (Some (5, 7)))) 13 = "_UID=0".
Proof.
  destruct (kept_id_reads_as_the_value "_HID=PNP0303 _UID=0" (Some (5, 7)) 5 7
              eq_refl eq_refl) as (Hvalue & Hbefore & Hbehind).
  split; [exact Hvalue|]. split.
  - exact (Hbefore 0 ltac:(lia)).
  - exact (Hbehind 13 ltac:(lia)).
Defined.

(** The name of atkbd0 is asked for whole; a name of 26 characters leaves
    no room for the key. *)
Lemma unit_mib_bounds_witness :
  unit_mib "atkbd0" ".%pnpinfo" = "dev.atkbd.0.%pnpinfo"
  /\ unit_mib "a_driver_with_a_long_name0" ".%desc"
     = unit_mib "a_driver_with_a_long_name0" ".%parent".
Proof.
  split.
  - apply (proj1 (unit_mib_bounds "atkbd0" ".%pnpinfo")). cbn. lia.
  - apply (proj2 (unit_mib_bounds "a_driver_with_a_long_name0" ".%desc")). cbn. lia.
Defined.

(** ukbd0 on the sample host, and on the host that is out of memory. *)
Lemma set_parent_asks_three_names_witness :
  asked (snd (set_parent pnp_lookup sample_sysname sample_host
                (new_device "/dev/ukbd0") proc_init))
  = ["dev.ukbd.0.%parent"; "dev.ukbd.0.%pnpinfo"; "dev.ukbd.0.%desc"]
  /\ fst (set_parent pnp_lookup sample_sysname starved_host
            (new_device "/dev/ukbd0") proc_init)
     = new_device "/dev/ukbd0".
Proof.
  split.
  - apply (set_parent_asks_three_names pnp_lookup sample_sysname sample_host
             (new_device "/dev/ukbd0") proc_init
             "Logitech USB Keyboard, class 0/0, rev 1.10/64.00, addr 2"
             "vendor=0x046d product=0xc31c devclass=0x00" "uhub0");
      reflexivity.
  - apply (set_parent_asks_three_names pnp_lookup sample_sysname starved_host
             (new_device "/dev/ukbd0") proc_init
             "Logitech USB Keyboard, class 0/0, rev 1.10/64.00, addr 2"
             "vendor=0x046d product=0xc31c devclass=0x00" "uhub0");
      reflexivity.
Defined.

(** Under /dev the path of ums0 resolves to the one rule that matches
    it. *)
Lemma rules_exclude_one_another_witness :
  get_subsystem_config_by_syspath true "/dev" "/dev/ums0"
  = Some {| subsystem := "input"; syspath := "/dev/ums[0-9]*";
            flags := SCFLAG_SKIP_IF_EVDEV; create_handler := Some H_mouse |}.
Proof.
  apply (proj2 (rules_exclude_one_another true "/dev" eq_refl)). split.
  - cbn. tauto.
  - reflexivity.
Defined.

(** The mouse ums0 has no parent entry in the device tree: it is marked as
    a mouse and has no parent. *)
Lemma legacy_handlers_classify_first_witness :
  ud_properties (fst (call_handler pnp_lookup sample_sysname sample_devnode sample_host
                        H_mouse (new_device "/dev/ums0") proc_init))
  = ud_properties (snd (set_input_device_type (new_device "/dev/ums0") IT_MOUSE))
  /\ ud_parent (fst (call_handler pnp_lookup sample_sysname sample_devnode sample_host
                       H_mouse (new_device "/dev/ums0") proc_init)) = None.
Proof.
  split; [|reflexivity].
  apply (legacy_handlers_classify_first pnp_lookup sample_sysname sample_devnode
           sample_host H_mouse IT_MOUSE). reflexivity.
Defined.

Lemma fixed_parents_of_kbdmux_and_sysmouse_witness :
  exists parent : udev_device,
    ud_parent (fst (create_kbdmux_handler sample_sysname sample_host
                      (new_device "/dev/kbdmux0") proc_init)) = Some parent
    /\ ud_properties parent !! "PRODUCT" = Some (Some "6/1/1/0").
Proof.
  destruct (fixed_parents_of_kbdmux_and_sysmouse sample_sysname sample_host
              (new_device "/dev/kbdmux0") proc_init) as (_ & _ & Hkbdmux & _).
  destruct (Hkbdmux eq_refl) as (parent & Hparent & _ & Hproduct & _).
  exists parent. split; [exact Hparent | exact Hproduct].
Defined.

(** atkbd0 with the flag cached as set, and as clear. *)
Lemma settled_gate_decides_dispatch_witness :
  invoke_create_handler true "/dev" pnp_lookup sample_sysname sample_devnode sample_host
    (new_device "/dev/atkbd0") (set_enabled 1 proc_init)
  = (new_device "/dev/atkbd0", set_enabled 1 proc_init)
  /\ invoke_create_handler true "/dev" pnp_lookup sample_sysname sample_devnode
       sample_host (new_device "/dev/atkbd0") (set_enabled 0 proc_init)
     = create_keyboard_handler pnp_lookup sample_sysname sample_host
         (new_device "/dev/atkbd0") (set_enabled 0 proc_init).
Proof.
  split.
  - apply (settled_gate_decides_dispatch true "/dev" pnp_lookup sample_sysname
             sample_devnode sample_host (new_device "/dev/atkbd0")
             (set_enabled 1 proc_init)
             {| subsystem := "input"; syspath := "/dev/atkbd[0-9]*";
                flags := SCFLAG_SKIP_IF_EVDEV; create_handler := Some H_keyboard |}
             H_keyboard); try reflexivity; discriminate.
  - apply (settled_gate_decides_dispatch true "/dev" pnp_lookup sample_sysname
             sample_devnode sample_host (new_device "/dev/atkbd0")
             (set_enabled 0 proc_init)
             {| subsystem := "input"; syspath := "/dev/atkbd[0-9]*";
                flags := SCFLAG_SKIP_IF_EVDEV; create_handler := Some H_keyboard |}
             H_keyboard); try reflexivity; discriminate.
Defined.

Lemma driver_and_unit_are_recovered_witness :
  syspathlen_wo_units "atkbd12" = 5
  /\ snprintf (syspathlen_wo_units "atkbd12" + 1) "atkbd12" = "atkbd"
  /\ string_drop (syspathlen_wo_units "atkbd12") "atkbd12" = "12".
Proof. exact (driver_and_unit_are_recovered "atkbd" "12" eq_refl eq_refl). Defined.
